(** * MaaSSim.utils: synthesis of demand and supply

    A shallow embedding of [networkstats], [generate_vehicles],
    [generate_demand], [prep_supply_and_demand], [generic_generator],
    [initialize_df] and [slice_space] of [MaaSSim/utils.py].

    Conventions of the embedding.
    - Node ids, timestamps and whole-second durations are integers ([Z]);
      distances, weights and the raw random variates are rationals ([Q]),
      standing for the floats of the source.  A missing value ([NaN], [NaT])
      is [None].
    - Arithmetic on [Q] is exact.  Where a statement gives a value that the
      source computes in float64, it carries the condition under which
      float64 gives the same.
    - A timestamp is a number of seconds without bound.  The timedelta that is
      made of a distance is counted in nanoseconds and refused beyond 64
      bits, as in pandas; a quotient of it beyond 64 bits is [NaT].
    - A pandas table is the list of its rows, a row is a record whose unset
      cells are [None].
    - The random sources ([numpy.random], [random]) are one stream of
      variates that every draw consumes from the front.
    - A Python exception is a value: its class name and its message.
    - The [while] loop of [generate_demand] has no bound in the source; the
      embedding runs it with a number of allowed iterations and answers
      [Diverge] when they are used up. *)

From Stdlib Require Import String.
From Stdlib Require Import List ZArith QArith Qround Lia Lqa Bool.
From Stdlib Require Import Sorting.Sorted Sorting.Permutation.
Import ListNotations.
Local Open Scope string_scope.
Local Open Scope Q_scope.

Set Implicit Arguments.

(** ** Exceptions and outcomes *)

Record exn : Type := Exn { exn_class : string; exn_msg : string }.

Definition ValueError (msg : string) : exn := Exn "ValueError" msg.
Definition TypeError (msg : string) : exn := Exn "TypeError" msg.
Definition KeyError (msg : string) : exn := Exn "KeyError" msg.
Definition IndexError (msg : string) : exn := Exn "IndexError" msg.
Definition AttributeError (msg : string) : exn := Exn "AttributeError" msg.
Definition OverflowError (msg : string) : exn := Exn "OverflowError" msg.
Definition OutOfBoundsTimedelta (msg : string) : exn :=
  Exn "OutOfBoundsTimedelta" msg.

Inductive outcome (A : Type) : Type :=
| Ok (a : A)
| Raise (e : exn)
| Diverge.

Arguments Ok {A} a.
Arguments Raise {A} e.
Arguments Diverge {A}.

(** ** The random stream and the monad of the generators *)

Definition rng : Type := nat -> Q.

Definition Rand (A : Type) : Type := rng -> outcome (A * rng).

Definition ret {A : Type} (a : A) : Rand A := fun g => Ok (a, g).

Definition bind {A B : Type} (m : Rand A) (k : A -> Rand B) : Rand B :=
  fun g =>
    match m g with
    | Ok (a, g') => k a g'
    | Raise e => Raise e
    | Diverge => Diverge
    end.

Definition raise {A : Type} (e : exn) : Rand A := fun _ => Raise e.

Definition lift {A : Type} (o : outcome A) : Rand A :=
  fun g =>
    match o with
    | Ok a => Ok (a, g)
    | Raise e => Raise e
    | Diverge => Diverge
    end.

Declare Scope rand_scope.
Delimit Scope rand_scope with rand.
Notation "x <- m ;; k" := (bind m (fun x => k))
  (at level 100, m at next level, right associativity) : rand_scope.
Notation "m ;;; k" := (bind m (fun _ => k))
  (at level 100, right associativity) : rand_scope.
Local Open Scope rand_scope.

(** The next raw variate of the stream. *)
Definition variate : Rand Q :=
  fun g => Ok (g 0%nat, fun n => g (S n)).

(** A variate of the unit interval [0, 1), as [random_sample] gives. *)
Definition unit_part (q : Q) : Q := q - inject_Z (Qfloor q).

Definition random_sample : Rand Q :=
  q <- variate ;; ret (unit_part q).

Fixpoint mapM {A B : Type} (f : A -> Rand B) (l : list A) : Rand (list B) :=
  match l with
  | [] => ret []
  | a :: l' => b <- f a ;; bs <- mapM f l' ;; ret (b :: bs)
  end.

Fixpoint replicateM {A : Type} (n : nat) (m : Rand A) : Rand (list A) :=
  match n with
  | O => ret []
  | S n' => a <- m ;; l <- replicateM n' m ;; ret (a :: l)
  end.

(** A function that may fail, applied to the items of a list in turn, as
    [Series.apply] does it. *)
Fixpoint each {A B : Type} (f : A -> outcome B) (l : list A)
  : outcome (list B) :=
  match l with
  | [] => Ok []
  | a :: l' =>
      match f a with
      | Ok b =>
          match each f l' with
          | Ok bs => Ok (b :: bs)
          | Raise e => Raise e
          | Diverge => Diverge
          end
      | Raise e => Raise e
      | Diverge => Diverge
      end
  end.

(** ** Numbers *)

Definition Qltb (a b : Q) : bool := negb (Qle_bool b a).

(** Python's [int(x)]: truncation towards zero. *)
Definition int_of (q : Q) : Z := Z.quot (Qnum q) (Zpos (Qden q)).

Definition Qsum (l : list Q) : Q := fold_right Qplus 0 l.

(** Python's [range(lo, hi)]. *)
Definition range (lo hi : nat) : list Z := map Z.of_nat (seq lo (hi - lo)).

(** ** The distance matrix (skim)

    A table of floats with row labels [index] and column labels [columns];
    [cell r c] is the entry at row [r], column [c].  There is one entry for a
    pair of labels: the labels of an axis are meant to be unique. *)

Record DataFrame : Type := {
  index : list Z;
  columns : list Z;
  cell : Z -> Z -> option Q
}.

Definition mem (z : Z) (l : list Z) : bool := existsb (Z.eqb z) l.

(** [df.loc[r, c]] *)
Definition loc (df : DataFrame) (r c : Z) : outcome (option Q) :=
  if mem r (index df) && mem c (columns df) then Ok (cell df r c)
  else Raise (KeyError "label not found").

(** [df[c]]: the column labelled [c], a series over the row labels. *)
Definition column (df : DataFrame) (c : Z) : outcome (list (Z * option Q)) :=
  if mem c (columns df) then Ok (map (fun r => (r, cell df r c)) (index df))
  else Raise (KeyError "column not found").

(** [Series.dropna()] *)
Fixpoint dropna (s : list (Z * option Q)) : list (Z * Q) :=
  match s with
  | [] => []
  | (r, Some v) :: s' => (r, v) :: dropna s'
  | (_, None) :: s' => dropna s'
  end.

(** ** Quantiles *)

Fixpoint insert_Q (x : Q) (l : list Q) : list Q :=
  match l with
  | [] => [x]
  | y :: l' => if Qle_bool x y then x :: l else y :: insert_Q x l'
  end.

Definition sort_Q (l : list Q) : list Q := fold_right insert_Q [] l.

(** [Series.quantile(q)] with the default linear interpolation: missing
    values are skipped, an empty series gives [NaN]. *)
Definition quantile (q : Q) (s : list (Z * option Q)) : option Q :=
  let v := sort_Q (map snd (dropna s)) in
  match v with
  | [] => None
  | v0 :: _ =>
      let pos := inject_Z (Z.of_nat (List.length v) - 1) * q in
      let lo := Z.to_nat (Qfloor pos) in
      let frac := pos - inject_Z (Qfloor pos) in
      let a := nth lo v v0 in
      let b := nth (S lo) v a in
      Some (a + (b - a) * frac)
  end.

(** ** Records of the simulation input *)

Module travellerEvent.
Inductive t : Type := STARTS_DAY.
End travellerEvent.

Module driverEvent.
Inductive t : Type := STARTS_DAY.
End driverEvent.

Record Stats : Type := { center : Z; radius : option Q }.

Record Passenger : Type := {
  pax_index : Z;
  pos : option Z;
  status : option travellerEvent.t;
  platforms : option (list Z)
}.

Record Request : Type := {
  req_index : Z;
  pax_id : option Z;
  origin : option Z;
  destination : option Z;
  treq : option Z;
  ttrav : option Z;
  tarr : option Z;
  dist : option Q;
  shareable : option bool
}.

Record Vehicle : Type := {
  veh_index : Z;
  veh_pos : option Z;
  event : option driverEvent.t;
  platform : option Z;
  shift_start : option Z;
  shift_end : option Z
}.

(** The graph as far as this module reads it: node id, x and y. *)
Definition Graph : Type := list (Z * (Q * Q)).

Record InData : Type := {
  G : Graph;
  nodes : list Z;
  skim : DataFrame;
  stats : Stats;
  passengers : list Passenger;
  requests : list Request;
  vehicles : list Vehicle
}.

Record Params : Type := {
  nP : nat;
  nV : nat;
  dist_threshold : Q;
  simTime : Q;
  t0 : Z;
  origins_dispertion : Q;
  destinations_dispertion : Q;
  temporal_distribution : string;
  temporal_dispertion : Q;
  speeds_ride : Q
}.

(** ** Column assignment

    [frame.col = values]: the values are laid along the rows by position; a
    list of another length than the frame is refused. *)

Definition assign {R V : Type} (set : R -> V -> R) (rows : list R)
    (vals : list V) : outcome (list R) :=
  if Nat.eqb (List.length vals) (List.length rows)
  then Ok (map (fun rv => set (fst rv) (snd rv)) (combine rows vals))
  else Raise (ValueError "Length of values does not match length of index").

Definition set_pos (p : Passenger) (v : option Z) : Passenger :=
  {| pax_index := pax_index p; pos := v; status := status p;
     platforms := platforms p |}.

Definition set_status (p : Passenger) (v : option travellerEvent.t) : Passenger :=
  {| pax_index := pax_index p; pos := pos p; status := v;
     platforms := platforms p |}.

Definition set_platforms (p : Passenger) (v : option (list Z)) : Passenger :=
  {| pax_index := pax_index p; pos := pos p; status := status p;
     platforms := v |}.

Definition set_req_index (r : Request) (v : Z) : Request :=
  {| req_index := v; pax_id := pax_id r; origin := origin r;
     destination := destination r; treq := treq r; ttrav := ttrav r;
     tarr := tarr r; dist := dist r; shareable := shareable r |}.

Definition set_pax_id (r : Request) (v : option Z) : Request :=
  {| req_index := req_index r; pax_id := v; origin := origin r;
     destination := destination r; treq := treq r; ttrav := ttrav r;
     tarr := tarr r; dist := dist r; shareable := shareable r |}.

Definition set_origin (r : Request) (v : option Z) : Request :=
  {| req_index := req_index r; pax_id := pax_id r; origin := v;
     destination := destination r; treq := treq r; ttrav := ttrav r;
     tarr := tarr r; dist := dist r; shareable := shareable r |}.

Definition set_destination (r : Request) (v : option Z) : Request :=
  {| req_index := req_index r; pax_id := pax_id r; origin := origin r;
     destination := v; treq := treq r; ttrav := ttrav r;
     tarr := tarr r; dist := dist r; shareable := shareable r |}.

Definition set_treq (r : Request) (v : option Z) : Request :=
  {| req_index := req_index r; pax_id := pax_id r; origin := origin r;
     destination := destination r; treq := v; ttrav := ttrav r;
     tarr := tarr r; dist := dist r; shareable := shareable r |}.

Definition set_ttrav (r : Request) (v : option Z) : Request :=
  {| req_index := req_index r; pax_id := pax_id r; origin := origin r;
     destination := destination r; treq := treq r; ttrav := v;
     tarr := tarr r; dist := dist r; shareable := shareable r |}.

Definition set_tarr (r : Request) (v : option Z) : Request :=
  {| req_index := req_index r; pax_id := pax_id r; origin := origin r;
     destination := destination r; treq := treq r; ttrav := ttrav r;
     tarr := v; dist := dist r; shareable := shareable r |}.

Definition set_dist (r : Request) (v : option Q) : Request :=
  {| req_index := req_index r; pax_id := pax_id r; origin := origin r;
     destination := destination r; treq := treq r; ttrav := ttrav r;
     tarr := tarr r; dist := v; shareable := shareable r |}.

Definition set_shareable (r : Request) (v : option bool) : Request :=
  {| req_index := req_index r; pax_id := pax_id r; origin := origin r;
     destination := destination r; treq := treq r; ttrav := ttrav r;
     tarr := tarr r; dist := dist r; shareable := v |}.

Definition set_veh_index (v : Vehicle) (k : Z) : Vehicle :=
  {| veh_index := k; veh_pos := veh_pos v; event := event v;
     platform := platform v; shift_start := shift_start v;
     shift_end := shift_end v |}.

Definition set_veh_pos (v : Vehicle) (p : option Z) : Vehicle :=
  {| veh_index := veh_index v; veh_pos := p; event := event v;
     platform := platform v; shift_start := shift_start v;
     shift_end := shift_end v |}.

Definition set_passengers (d : InData) (ps : list Passenger) : InData :=
  {| G := G d; nodes := nodes d; skim := skim d; stats := stats d;
     passengers := ps; requests := requests d; vehicles := vehicles d |}.

Definition set_requests (d : InData) (rs : list Request) : InData :=
  {| G := G d; nodes := nodes d; skim := skim d; stats := stats d;
     passengers := passengers d; requests := rs; vehicles := vehicles d |}.

(** ** Sampling *)

(** [random.choice(seq)] *)
Definition random_choice (l : list Z) : Rand Z :=
  match l with
  | [] => raise (IndexError "Cannot choose from an empty sequence")
  | _ =>
      u <- random_sample ;;
      let i := Z.to_nat (Qfloor (u * inject_Z (Z.of_nat (List.length l)))) in
      match nth_error l i with
      | Some x => ret x
      | None => raise (IndexError "list index out of range")
      end
  end.

(** [rand_node(df)], on the row labels of [df]: [df.loc[label]] is a row,
    which has a name, when the label is that of one row only, and a frame,
    which has none, when several rows carry it. *)
Definition rand_node (df : list Z) : Rand Z :=
  label <- random_choice df ;;
  if Nat.ltb 1 (count_occ Z.eq_dec df label)
  then raise (AttributeError "'DataFrame' object has no attribute 'name'")
  else ret label.

Fixpoint remove_nth {A : Type} (i : nat) (l : list A) : list A :=
  match l, i with
  | [], _ => []
  | _ :: l', O => l'
  | x :: l', S i' => x :: remove_nth i' l'
  end.

Fixpoint draw_distinct (n : nat) (pool : list Z) : Rand (list Z) :=
  match n with
  | O => ret []
  | S n' =>
      u <- random_sample ;;
      let i := Z.to_nat (Qfloor (u * inject_Z (Z.of_nat (List.length pool)))) in
      match nth_error pool i with
      | Some x => rest <- draw_distinct n' (remove_nth i pool) ;; ret (x :: rest)
      | None => raise (IndexError "index out of bounds")
      end
  end.

(** [df.sample(n).index]: [n] row labels, uniform, without replacement. *)
Definition sample (n : nat) (pool : list Z) : Rand (list Z) :=
  if Nat.ltb (List.length pool) n
  then raise (ValueError
         "Cannot take a larger sample than population when 'replace=False'")
  else draw_distinct n pool.

(** The checks of [sample] on a column of weights. *)
Definition check_weights (ws : list Q) : outcome unit :=
  if existsb (fun w => Qltb w 0) ws
  then Raise (ValueError "weight vector many not include negative values")
  else if Qeq_bool (Qsum ws) 0
  then Raise (ValueError "Invalid weights: weights sum to zero")
  else Ok tt.

(** The first label whose cumulated weight exceeds [target]. *)
Fixpoint searchsorted (items : list (Z * Q)) (acc target : Q) : option Z :=
  match items with
  | [] => None
  | (n, w) :: rest =>
      if Qltb target (acc + w) then Some n
      else searchsorted rest (acc + w) target
  end.

(** One weighted draw: a uniform variate looked up in the cumulated
    weights. *)
Definition choice (items : list (Z * Q)) : Rand Z :=
  u <- random_sample ;;
  match searchsorted items 0 (u * Qsum (map snd items)) with
  | Some n => ret n
  | None => raise (IndexError "index out of bounds")
  end.

(** [df.sample(n, weights=col, replace=True).index], and
    [df.sample(1, weights=col).index] for [n = 1]. *)
Definition sample_weighted (n : nat) (items : list (Z * Q)) : Rand (list Z) :=
  lift (check_weights (map snd items)) ;;; replicateM n (choice items).

(** ** Time *)

Definition ns_per_s : Z := 1000000000.

(** The nanoseconds that a [timedelta64[ns]] can hold: a 64-bit integer
    other than the least one, which stands for [NaT]. *)
Definition in_int64 (z : Z) : bool :=
  Z.ltb (- 2 ^ 63) z && Z.ltb z (2 ^ 63).

(** Python's [round]: the nearest integer, the even one of two that are
    equally near. *)
Definition round_half_even (q : Q) : Z :=
  let f := Qfloor q in
  match Qcompare (q - inject_Z f) (1 # 2) with
  | Lt => f
  | Gt => (f + 1)%Z
  | Eq => if Z.even f then f else (f + 1)%Z
  end.

(** [pd.Timedelta(x, 's')] for a number [x], in nanoseconds.  pandas
    converts the whole seconds and the fraction apart, the fraction rounded
    to nine digits, and refuses what 64 bits do not hold.  (The float
    product of the fraction may come out one nanosecond nearer to zero than
    the rounded fraction; for a duration that is not negative this changes
    no whole second, and whole seconds are all that is kept below.) *)
Definition nanoseconds (x : Q) : Z :=
  let base := int_of x in
  let frac := x - inject_Z base in
  (base * ns_per_s + round_half_even (frac * inject_Z ns_per_s))%Z.

Definition Timedelta_s (x : Q) : outcome Z :=
  if in_int64 (nanoseconds x) then Ok (nanoseconds x)
  else Raise (OutOfBoundsTimedelta
                "Cannot cast to timedelta64[ns] without overflow").

(** [pd.Timedelta(x, 's').floor('s')]: whole seconds, [NaT] for [NaN]. *)
Definition timedelta_floor (x : option Q) : outcome (option Z) :=
  match x with
  | Some q =>
      match Timedelta_s q with
      | Ok ns => Ok (Some (ns / ns_per_s)%Z)
      | Raise e => Raise e
      | Diverge => Diverge
      end
  | None => Ok None
  end.

(** [(td / k).dt.floor('1s')] on a duration of whole seconds.  The division
    is the one of [timedelta64[ns]] by a number: the quotient, in
    nanoseconds, is cut towards zero, and is [NaT] when it is not finite or
    not within 64 bits.  The quotient is taken exactly here, where numpy
    takes it in float64 for a float [k]; the two give the same nanoseconds
    under the condition [exact_quotient] below. *)
Definition timedelta_div_floor (td : option Z) (k : Q) : option Z :=
  match td with
  | Some t =>
      if Qeq_bool k 0 then None
      else
        let q := int_of (inject_Z (t * ns_per_s) / k) in
        if in_int64 q then Some (q / ns_per_s)%Z else None
  | None => None
  end.

(** [timestamp + timedelta], [NaT] when one of them is. *)
Definition time_add (a b : option Z) : option Z :=
  match a, b with
  | Some x, Some y => Some (x + y)%Z
  | _, _ => None
  end.

(** The order of [sort_values]: missing values last. *)
Definition treq_le (a b : Request) : bool :=
  match treq a, treq b with
  | Some x, Some y => Z.leb x y
  | _, None => true
  | None, Some _ => false
  end.

Fixpoint insert_by_treq (r : Request) (l : list Request) : list Request :=
  match l with
  | [] => [r]
  | r' :: l' =>
      if treq_le r r' then r :: l else r' :: insert_by_treq r l'
  end.

(** [requests.sort_values('treq')].  Rows with the same request time keep
    their order here; the sort of pandas may leave them in another order,
    and no statement below depends on which. *)
Definition sort_values_treq (l : list Request) : list Request :=
  fold_right insert_by_treq [] l.

(** ** The generators *)

(** [Series.mean()], of a series that is not empty. *)
Definition mean (l : list Q) : Q :=
  Qsum l / inject_Z (Z.of_nat (List.length l)).

Record Candidate : Type := {
  node : Z;
  distance : Q;
  p_origin : Q;
  p_destination : Q
}.

Definition empty_request (i : Z) : Request :=
  {| req_index := i; pax_id := None; origin := None; destination := None;
     treq := None; ttrav := None; tarr := None; dist := None;
     shareable := None |}.

(** [empty_series(df, name)]: a row of missing values named [name]. *)
Definition empty_series (name : Z) : Vehicle :=
  {| veh_index := name; veh_pos := None; event := None; platform := None;
     shift_start := None; shift_end := None |}.

(** [pd.concat(objs, axis=1, keys=keys).T]: the series are paired with the
    keys, up to the shorter of the two, and each pair is a row labelled by its
    key. *)
Definition concat_keys (objs : list Vehicle) (keys : list Z)
  : outcome (list Vehicle) :=
  match objs with
  | [] => Raise (ValueError "No objects to concatenate")
  | _ :: _ =>
      match combine keys objs with
      | [] => Raise (ValueError "All objects passed were None")
      | kv => Ok (map (fun p => set_veh_index (snd p) (fst p)) kv)
      end
  end.

(** [requests.dist >= dist_threshold], false on a missing distance. *)
Definition too_far (thr : Q) (r : Request) : bool :=
  match dist r with
  | Some d => Qle_bool thr d
  | None => false
  end.

(** [_inData.skim.loc[request.origin, request.destination]] *)
Definition request_dist (sk : DataFrame) (r : Request) : outcome (option Q) :=
  match origin r, destination r with
  | Some o, Some d => loc sk o d
  | _, _ => Raise (KeyError "nan")
  end.

Definition compute_dist (sk : DataFrame) (r : Request) : Rand Request :=
  d <- lift (request_dist sk r) ;; ret (set_dist r d).

Section Generators.

(** [math.exp]: a float, or no answer where the source raises its
    [OverflowError] for a result beyond the floats. *)
Variable math_exp : Q -> option Q.

(** [osmnx.distance.get_nearest_node(G, (y, x))] *)
Variable get_nearest_node : Graph -> Q * Q -> Z.

(** For a graph without nodes the frame of line 94 has no column [1]. *)
Definition networkstats (inData : InData) : outcome Stats :=
  match G inData with
  | [] => Raise (KeyError "1")
  | _ :: _ =>
      let center_x := mean (map (fun n => fst (snd n)) (G inData)) in
      let center_y := mean (map (fun n => snd (snd n)) (G inData)) in
      let nearest := get_nearest_node (G inData) (center_y, center_x) in
      match column (skim inData) nearest with
      | Ok s => Ok {| center := nearest; radius := quantile (3 # 4) s |}
      | Raise e => Raise e
      | Diverge => Diverge
      end
  end.

Definition generate_vehicles (_inData : InData) (nV : nat)
  : Rand (list Vehicle) :=
  let vehs := map empty_series (range 0 (nV + 1)) in
  vehs <- lift (concat_keys vehs (range 1 (nV + 1))) ;;
  let vehs :=
    map (fun v =>
           {| veh_index := veh_index v; veh_pos := veh_pos v;
              event := Some driverEvent.STARTS_DAY; platform := Some 0%Z;
              shift_start := Some 0%Z; shift_end := Some (60 * 60 * 24)%Z |})
        vehs in
  mapM (fun v => n <- rand_node (nodes _inData) ;; ret (set_veh_pos v (Some n)))
       vehs.

(** Lines 141-143: the fresh passenger table. *)
Definition init_passengers (_inData : InData) (_params : Params)
  : Rand (list Passenger) :=
  let df :=
    map (fun i => {| pax_index := i; pos := None; status := None;
                     platforms := None |})
        (range 0 (nP _params)) in
  let df := map (fun p => set_status p (Some travellerEvent.STARTS_DAY)) df in
  drawn <- sample (nP _params) (nodes _inData) ;;
  lift (assign set_pos df (map Some drawn)).

Definition exp_of (x : Q) : outcome Q :=
  match math_exp x with
  | Some v => Ok v
  | None => Raise (OverflowError "math range error")
  end.

(** Lines 150-152: the column [p_origin] is added to a row of [distances]. *)
Definition with_p_origin (_params : Params) (nd : Z * Q)
  : outcome (Z * Q * Q) :=
  match exp_of (origins_dispertion _params * snd nd) with
  | Ok w => Ok (nd, w)
  | Raise e => Raise e
  | Diverge => Diverge
  end.

(** Lines 154-155: the column [p_destination] is added. *)
Definition with_p_destination (_params : Params) (row : Z * Q * Q)
  : outcome Candidate :=
  match exp_of (destinations_dispertion _params * snd (fst row)) with
  | Ok w =>
      Ok {| node := fst (fst row); distance := snd (fst row);
            p_origin := snd row; p_destination := w |}
  | Raise e => Raise e
  | Diverge => Diverge
  end.

(** Lines 146-155: the nodes nearer to the center than the threshold, with
    their two weights. *)
Definition candidate_set (_inData : InData) (_params : Params)
  : outcome (list Candidate) :=
  match column (skim _inData) (center (stats _inData)) with
  | Ok s =>
      let distances :=
        filter (fun nd => Qltb (snd nd) (dist_threshold _params)) (dropna s) in
      match each (with_p_origin _params) distances with
      | Ok distances => each (with_p_destination _params) distances
      | Raise e => Raise e
      | Diverge => Diverge
      end
  | Raise e => Raise e
  | Diverge => Diverge
  end.

Definition origin_weights (distances : list Candidate) : list (Z * Q) :=
  map (fun c => (node c, p_origin c)) distances.

Definition destination_weights (distances : list Candidate) : list (Z * Q) :=
  map (fun c => (node c, p_destination c)) distances.

(** Lines 156-164: the request times relative to [t0], [None] for a
    distribution that is neither of the two. *)
Definition draw_treq (_params : Params) : Rand (option (list Q)) :=
  let half := simTime _params * 60 * 60 / 2 in
  if String.eqb (temporal_distribution _params) "uniform" then
    let low := - simTime _params * 60 * 60 / 2 in
    l <- replicateM (nP _params)
           (u <- random_sample ;; ret (low + (half - low) * u)) ;;
    ret (Some l)
  else if String.eqb (temporal_distribution _params) "normal" then
    let scale := temporal_dispertion _params * simTime _params * 60 * 60 / 2 in
    if Qltb scale 0 then raise (ValueError "scale < 0")
    else
      l <- replicateM (nP _params) (z <- variate ;; ret (half + scale * z)) ;;
      ret (Some l)
  else ret None.

(** Lines 173-181: one round of the loop. *)
Definition resample_origin (thr : Q) (distances : list Candidate)
    (request : Request) : Rand Request :=
  if too_far thr request then
    drawn <- sample_weighted 1 (origin_weights distances) ;;
    match drawn with
    | o :: _ => ret (set_origin request (Some o))
    | [] => raise (IndexError "index 0 is out of bounds")
    end
  else ret request.

Definition resample_destination (thr : Q) (distances : list Candidate)
    (request : Request) : Rand Request :=
  if too_far thr request then
    drawn <- sample_weighted 1 (destination_weights distances) ;;
    match drawn with
    | d :: _ => ret (set_destination request (Some d))
    | [] => raise (IndexError "index 0 is out of bounds")
    end
  else ret request.

Definition resample_round (sk : DataFrame) (thr : Q)
    (distances : list Candidate) (reqs : list Request) : Rand (list Request) :=
  reqs <- mapM (resample_origin thr distances) reqs ;;
  reqs <- mapM (resample_destination thr distances) reqs ;;
  mapM (compute_dist sk) reqs.

(** Lines 172-181: the loop, allowed [fuel] rounds. *)
Fixpoint resample_loop (fuel : nat) (sk : DataFrame) (thr : Q)
    (distances : list Candidate) (reqs : list Request) : Rand (list Request) :=
  if existsb (too_far thr) reqs then
    match fuel with
    | O => fun _ => Diverge
    | S fuel' =>
        reqs <- resample_round sk thr distances reqs ;;
        resample_loop fuel' sk thr distances reqs
    end
  else ret reqs.

(** Line 171: the column [dist] is made.  On a frame without rows [apply]
    gives a frame, not a column, and the assignment refuses it. *)
Definition first_dist (sk : DataFrame) (reqs : list Request)
  : Rand (list Request) :=
  match reqs with
  | [] =>
      raise (ValueError
        "Cannot set a DataFrame with multiple columns to the single column dist")
  | _ :: _ => mapM (compute_dist sk) reqs
  end.

(** Lines 183-191: travel time, arrival, order, labels. *)
Definition travel_time (request : Request) : outcome Request :=
  match timedelta_floor (dist request) with
  | Ok v => Ok (set_ttrav request v)
  | Raise e => Raise e
  | Diverge => Diverge
  end.

Definition finish_requests (_params : Params) (avg_speed : bool)
    (df : list Passenger) (reqs : list Request) : outcome (list Request) :=
  match each travel_time reqs with
  | Ok reqs =>
      let reqs :=
        if avg_speed
        then map (fun r => set_ttrav r
                    (timedelta_div_floor (ttrav r) (speeds_ride _params))) reqs
        else reqs in
      let reqs :=
        map (fun r => set_tarr r (time_add (treq r) (ttrav r))) reqs in
      let reqs := sort_values_treq reqs in
      match assign set_req_index reqs (map pax_index df) with
      | Ok reqs =>
          match assign set_pax_id reqs
                  (map (fun p => Some (pax_index p)) df) with
          | Ok reqs => Ok (map (fun r => set_shareable r (Some false)) reqs)
          | Raise e => Raise e
          | Diverge => Diverge
          end
      | Raise e => Raise e
      | Diverge => Diverge
      end
  | Raise e => Raise e
  | Diverge => Diverge
  end.

(** Lines 145-191: the request table, from the passenger table [df]. *)
Definition build_requests (fuel : nat) (_inData : InData) (_params : Params)
    (avg_speed : bool) (df : list Passenger) : Rand (list Request) :=
  let reqs := map (fun p => empty_request (pax_index p)) df in
  distances <- lift (candidate_set _inData _params) ;;
  treq <- draw_treq _params ;;
  stamps <- match treq with
            | Some l => ret (map (fun x => Some (t0 _params + int_of x)%Z) l)
            | None => raise (TypeError "'NoneType' object is not iterable")
            end ;;
  reqs <- lift (assign set_treq reqs stamps) ;;
  origins <- sample_weighted (nP _params) (origin_weights distances) ;;
  reqs <- lift (assign set_origin reqs (map Some origins)) ;;
  destinations <-
    sample_weighted (nP _params) (destination_weights distances) ;;
  reqs <- lift (assign set_destination reqs (map Some destinations)) ;;
  reqs <- first_dist (skim _inData) reqs ;;
  reqs <- resample_loop fuel (skim _inData) (dist_threshold _params)
            distances reqs ;;
  lift (finish_requests _params avg_speed df reqs).

(** [_inData.passengers.pos = _inData.requests.origin]: by row label. *)
Definition origin_of (reqs : list Request) (i : Z) : option Z :=
  match find (fun r => Z.eqb (req_index r) i) reqs with
  | Some r => origin r
  | None => None
  end.

(** Lines 193-196. *)
Definition publish (_inData : InData) (reqs : list Request) : InData :=
  let d := set_requests _inData reqs in
  let d :=
    set_passengers d
      (map (fun p => set_pos p (origin_of (requests d) (pax_index p)))
           (passengers d)) in
  set_passengers d
    (map (fun p => set_platforms p (Some [0%Z])) (passengers d)).

(** [generate_demand(_inData, _params, avg_speed)].  The object [_inData] is
    changed in place: the answer carries it as it is when the call ends,
    also when the call ends in an exception. *)
Definition generate_demand (fuel : nat) (_inData : InData) (_params : Params)
    (avg_speed : bool) (g : rng) : InData * outcome rng :=
  match init_passengers _inData _params g with
  | Ok (df, g1) =>
      let d := set_passengers _inData df in
      match build_requests fuel d _params avg_speed df g1 with
      | Ok (reqs, g2) => (publish d reqs, Ok g2)
      | Raise e => (d, Raise e)
      | Diverge => (d, Diverge)
      end
  | Raise e => (_inData, Raise e)
  | Diverge => (_inData, Diverge)
  end.

End Generators.

(** [generate_demand] returned, rather than raising or running forever. *)
Definition returned {A : Type} (o : outcome A) : bool :=
  match o with
  | Ok _ => true
  | _ => false
  end.

Unset Implicit Arguments.

(** ** Notions used in the statements *)

Definition treq_order (a b : Request) : Prop := treq_le a b = true.

(** A request after lines 186-187, and after lines 183-187: travel time and
    arrival are set. *)
Definition arrive (_params : Params) (avg_speed : bool) (r1 : Request)
  : Request :=
  let r2 :=
    if avg_speed
    then set_ttrav r1 (timedelta_div_floor (ttrav r1) (speeds_ride _params))
    else r1 in
  set_tarr r2 (time_add (treq r2) (ttrav r2)).

Definition timed (_params : Params) (avg_speed : bool) (r : Request)
  : outcome Request :=
  match travel_time r with
  | Ok r1 => Ok (arrive _params avg_speed r1)
  | Raise e => Raise e
  | Diverge => Diverge
  end.

(** Half a nanosecond, in seconds. *)
Definition half_ns : Q := 1 # 2000000000.

(** A duration whose rounding to nanoseconds does not decide its whole
    seconds by less than a quarter of a nanosecond: there the rounding of
    the floats of the source cannot differ from the exact one. *)
Definition clear_of_edge (x : Q) : Prop :=
  Qfloor (x + (1 # 4000000000)) = Qfloor (x + (3 # 4000000000)).

(** Where the quotient of a whole number of seconds by [k] is the same in
    float64 as in exact arithmetic, up to the part that is cut off: [k] is
    positive, and the nanoseconds times the denominator of [k] stay below
    [2 ^ 53]. *)
Definition exact_quotient (secs : Z) (k : Q) : Prop :=
  0 < k /\ (secs * ns_per_s * Zpos (Qden k) < 2 ^ 53)%Z.

(** Two rows that differ in their labels and flags at most. *)
Definition same_trip (a b : Request) : Prop :=
  origin b = origin a /\ destination b = destination a /\
  treq b = treq a /\ ttrav b = ttrav a /\ tarr b = tarr a /\ dist b = dist a.

(** The distance of a row is the entry of the matrix at its origin and its
    destination. *)
Definition located (sk : DataFrame) (r : Request) : Prop :=
  request_dist sk r = Ok (dist r).

(** What one round does to a row. *)
Definition round_of (sk : DataFrame) (thr : Q) (distances : list Candidate)
    (r r' : Request) : Prop :=
  exists r1 r2 g1 g1' g2 g2' g3 g3',
    resample_origin thr distances r g1 = Ok (r1, g1') /\
    resample_destination thr distances r1 g2 = Ok (r2, g2') /\
    compute_dist sk r2 g3 = Ok (r', g3').

Definition has_treq (r : Request) : Prop := exists t, treq r = Some t.

(** The rows of [distances] after line 148: the nodes with a distance to
    the center that is a number below the threshold. *)
Definition near_center (_inData : InData) (_params : Params) : list (Z * Q) :=
  filter (fun nd => Qltb (snd nd) (dist_threshold _params))
    (dropna (map (fun r => (r, cell (skim _inData) r (center (stats _inData))))
               (index (skim _inData)))).

(** [math.exp] answers for the two weights of every such node. *)
Definition weights_defined (math_exp : Q -> option Q) (_inData : InData)
    (_params : Params) : Prop :=
  forall r x,
    In r (index (skim _inData)) ->
    cell (skim _inData) r (center (stats _inData)) = Some x ->
    x < dist_threshold _params ->
    math_exp (origins_dispertion _params * x) <> None /\
    math_exp (destinations_dispertion _params * x) <> None.

(** [Some] of the value of a successful run, [None] otherwise. *)
Definition result {A : Type} (o : outcome (A * rng)) : option A :=
  match o with
  | Ok (a, _) => Some a
  | _ => None
  end.

(** * Worked inputs *)

(** The weights of the examples: with both dispersions at zero every weight
    is [exp 0 = 1]. *)
Definition exp_flat (q : Q) : option Q := Some 1.

(** A random stream that starts with the listed variates. *)
Definition stream (l : list Q) : rng := fun n => nth n l 0.

(** A matrix given row by row. *)
Definition table (rows : list (Z * list (Z * Q))) (r c : Z) : option Q :=
  match find (fun e => Z.eqb (fst e) r) rows with
  | Some (_, cs) =>
      match find (fun e => Z.eqb (fst e) c) cs with
      | Some (_, v) => Some v
      | None => None
      end
  | None => None
  end.

(** A nearest-node search by Euclidean distance, to run [networkstats] on
    the examples; their nodes lie on one line, where the great-circle search
    of osmnx finds the same node. *)
Definition sq_dist (n : Z * (Q * Q)) (pt : Q * Q) : Q :=
  (snd (snd n) - fst pt) * (snd (snd n) - fst pt)
  + (fst (snd n) - snd pt) * (fst (snd n) - snd pt).

Definition nearest_euclidean (gr : Graph) (pt : Q * Q) : Z :=
  match gr with
  | [] => 0%Z
  | n0 :: rest =>
      fst (fold_left
             (fun best n =>
                if Qltb (sq_dist n pt) (sq_dist best pt) then n else best)
             rest n0)
  end.

(** Five nodes on a line, one unit apart; the center is the middle one. *)
Definition line_skim : DataFrame :=
  {| index := [1; 2; 3; 4; 5]%Z; columns := [1; 2; 3; 4; 5]%Z;
     cell := fun r c => Some (inject_Z (Z.abs (r - c))) |}.

Definition line_data : InData :=
  {| G := [(1%Z, (0, 0)); (2%Z, (1, 0)); (3%Z, (2, 0)); (4%Z, (3, 0));
           (5%Z, (4, 0))];
     nodes := [1; 2; 3; 4; 5]%Z; skim := line_skim;
     stats := {| center := 3%Z; radius := Some (8 # 4) |};
     passengers := []; requests := []; vehicles := [] |}.

Definition line_params (n : nat) (thr : Q) (shape : string) : Params :=
  {| nP := n; nV := 2; dist_threshold := thr; simTime := 1; t0 := 1000%Z;
     origins_dispertion := 0; destinations_dispertion := 0;
     temporal_distribution := shape; temporal_dispertion := 1;
     speeds_ride := 8 |}.

Definition line_stream : rng :=
  stream [1 # 10; 5 # 10; 9 # 10; 9 # 10; 1 # 10; 1 # 2; 0; 1 # 3; 9 # 10;
          9 # 10; 1 # 2; 1 # 10; 1 # 2; 1 # 2; 1 # 2; 1 # 2].

(** Three passengers, threshold 3: the third request is drawn from node 1 to
    node 5 and takes one round of the loop. *)
Definition line_tight : Params := line_params 3 3 "uniform".

Definition line_run (avg_speed : bool) : InData * outcome rng :=
  generate_demand exp_flat 5 line_data line_tight avg_speed line_stream.

Definition line_candidates : list Candidate :=
  match candidate_set exp_flat line_data line_tight with
  | Ok l => l
  | _ => []
  end.

Definition line_rows : list Request :=
  [ set_dist (set_destination (set_origin (empty_request 0) (Some 1%Z))
                (Some 5%Z)) (Some 4);
    set_dist (set_destination (set_origin (empty_request 1) (Some 2%Z))
                (Some 3%Z)) (Some 1) ].

Definition line_round : list Request :=
  match result (resample_round line_skim (dist_threshold line_tight)
                  line_candidates line_rows line_stream) with
  | Some l => l
  | None => []
  end.

(** Two nodes a second and a half apart, and a speed factor of one half. *)
Definition short_skim : DataFrame :=
  {| index := [1; 2]%Z; columns := [1; 2]%Z;
     cell := table [(1%Z, [(1%Z, 0); (2%Z, 3 # 2)]);
                    (2%Z, [(1%Z, 3 # 2); (2%Z, 0)])] |}.

Definition short_data : InData :=
  {| G := [(1%Z, (0, 0)); (2%Z, (1, 0))];
     nodes := [1; 2]%Z; skim := short_skim;
     stats := {| center := 1%Z; radius := Some (9 # 8) |};
     passengers := []; requests := []; vehicles := [] |}.

Definition short_params : Params :=
  {| nP := 1; nV := 1; dist_threshold := 10; simTime := 1; t0 := 0%Z;
     origins_dispertion := 0; destinations_dispertion := 0;
     temporal_distribution := "uniform"; temporal_dispertion := 1;
     speeds_ride := 1 # 2 |}.

Definition short_run : InData * outcome rng :=
  generate_demand exp_flat 0 short_data short_params true
    (stream [0; 1 # 2; 0; 9 # 10]).



(** Two nodes; the entry from node 1 to node 2 is missing. *)
Definition gap_skim : DataFrame :=
  {| index := [1; 2]%Z; columns := [1; 2]%Z;
     cell := table [(1%Z, [(1%Z, 0)]);
                    (2%Z, [(1%Z, 1); (2%Z, 0)])] |}.

Definition gap_data : InData :=
  {| G := [(1%Z, (0, 0)); (2%Z, (1, 0))];
     nodes := [1; 2]%Z; skim := gap_skim;
     stats := {| center := 1%Z; radius := Some (3 # 4) |};
     passengers := []; requests := []; vehicles := [] |}.

Definition gap_run : InData * outcome rng :=
  generate_demand exp_flat 0 gap_data short_params false
    (stream [0; 1 # 2; 0; 9 # 10]).

(** ** The claims in the words of the specification *)



(** The travel time as the specification words it: the distance, divided by
    the speed factor when [avg_speed] is asked for, floored. *)
Definition ttrav_as_specified (avg_speed : bool) (speed : Q) (r : Request)
  : Prop :=
  forall x, dist r = Some x ->
            ttrav r = Some (Qfloor (if avg_speed then x / speed else x)).

(** The failure that the specification names. *)
Definition raises_ConfigurationError {A : Type} (o : outcome A) : Prop :=
  exists e, o = Raise e /\ exn_class e = "ConfigurationError".

(** * The rest of the module *)

(** ** Rows of any kind under keys *)

(** [pd.concat(objs, axis=1, keys=keys).T] on series of any kind: the rows,
    each under its key. *)
Definition concat_rows {R : Type} (objs : list R) (keys : list Z)
  : outcome (list (Z * R)) :=
  match objs with
  | [] => Raise (ValueError "No objects to concatenate")
  | _ :: _ =>
      match combine keys objs with
      | [] => Raise (ValueError "All objects passed were None")
      | kv => Ok kv
      end
  end.

(** [generic_generator(generator, n)]: the generator is called for 1, ..., n
    in this order, then the rows are put together. *)
Definition generic_generator {R : Type} (generator : Z -> Rand R) (n : nat)
  : Rand (list (Z * R)) :=
  objs <- mapM generator (range 1 (n + 1)) ;;
  lift (concat_rows objs (range 1 (n + 1))).

(** ** Tables with named columns *)

Inductive value : Type :=
| VInt (z : Z)
| VStr (s : string).

Record Table : Type := {
  tab_columns : list string;
  tab_index_name : option string;
  tab_rows : list (Z * list value)
}.

(** What [initialize_df] may be given: a frame, or a dictionary, of which
    only the keys are read. *)
Inductive frame_or_dict : Type :=
| IsFrame (t : Table)
| IsDict (keys : list string).

(** [initialize_df(df)] *)
Definition initialize_df (df : frame_or_dict) : Table :=
  let cols :=
    match df with
    | IsFrame t => tab_columns t
    | IsDict keys => keys
    end in
  {| tab_columns := cols; tab_index_name := Some "id"; tab_rows := [] |}.

Fixpoint put_row (label : Z) (vals : list value) (rows : list (Z * list value))
  : list (Z * list value) :=
  match rows with
  | [] => [(label, vals)]
  | (l, v) :: rows' =>
      if Z.eqb l label then (l, vals) :: rows'
      else (l, v) :: put_row label vals rows'
  end.

(** [df.loc[label] = vals]: the row is replaced, or added at the end; a list
    that has not one value for each column is refused. *)
Definition loc_set_row (t : Table) (label : Z) (vals : list value)
  : outcome Table :=
  if Nat.eqb (List.length vals) (List.length (tab_columns t))
  then Ok {| tab_columns := tab_columns t;
             tab_index_name := tab_index_name t;
             tab_rows := put_row label vals (tab_rows t) |}
  else Raise (ValueError "cannot set a row with mismatched columns").

(** ** Supply and demand together *)

(** [_inData] with the two parts that [prep_supply_and_demand] touches
    besides the tables of [InData]: the column [platform] of the requests,
    kept beside the rows, and the table of the platforms. *)
Record World : Type := {
  core : InData;
  requests_platform : list (option Z);
  platforms_table : frame_or_dict
}.

Definition set_vehicles (d : InData) (vs : list Vehicle) : InData :=
  {| G := G d; nodes := nodes d; skim := skim d; stats := stats d;
     passengers := passengers d; requests := requests d; vehicles := vs |}.

Definition set_platform (v : Vehicle) (p : option Z) : Vehicle :=
  {| veh_index := veh_index v; veh_pos := veh_pos v; event := event v;
     platform := p; shift_start := shift_start v;
     shift_end := shift_end v |}.

Definition set_core (w : World) (d : InData) : World :=
  {| core := d; requests_platform := requests_platform w;
     platforms_table := platforms_table w |}.

(** [_inData.passengers.loc[row.name].platforms[0]] *)
Definition passenger_platform (ps : list Passenger) (row : Request)
  : outcome (option Z) :=
  match find (fun p => Z.eqb (pax_index p) (req_index row)) ps with
  | None => Raise (KeyError "label not found")
  | Some p =>
      match platforms p with
      | None => Raise (TypeError "'float' object is not subscriptable")
      | Some [] => Raise (IndexError "list index out of range")
      | Some (x :: _) => Ok (Some x)
      end
  end.

Section Preparation.

Variable math_exp : Q -> option Q.

(** [prep_supply_and_demand(_inData, params)].  As [generate_demand], it
    changes [_inData] in place; the answer carries it as it is when the call
    ends. *)
Definition prep_supply_and_demand (fuel : nat) (_inData : World)
    (params : Params) (g : rng) : World * outcome rng :=
  match generate_demand math_exp fuel (core _inData) params true g with
  | (d, Ok g1) =>
      match generate_vehicles d (nV params) g1 with
      | Ok (vehs, g2) =>
          let d := set_vehicles d vehs in
          let d :=
            set_vehicles d
              (map (fun v => set_platform v (Some 0%Z)) (vehicles d)) in
          let d :=
            set_passengers d
              (map (fun p => set_platforms p (Some [0%Z])) (passengers d)) in
          match each (passenger_platform (passengers d)) (requests d) with
          | Ok col =>
              let empty := initialize_df (platforms_table _inData) in
              let w := {| core := d; requests_platform := col;
                          platforms_table := IsFrame empty |} in
              match loc_set_row empty 0 [VInt 1; VStr "Platform"; VInt 1] with
              | Ok t =>
                  ({| core := d; requests_platform := col;
                      platforms_table := IsFrame t |}, Ok g2)
              | Raise e => (w, Raise e)
              | Diverge => (w, Diverge)
              end
          | Raise e => (set_core _inData d, Raise e)
          | Diverge => (set_core _inData d, Diverge)
          end
      | Raise e => (set_core _inData d, Raise e)
      | Diverge => (set_core _inData d, Diverge)
      end
  | (d, Raise e) => (set_core _inData d, Raise e)
  | (d, Diverge) => (set_core _inData d, Diverge)
  end.

End Preparation.

(** ** The search space of the parallel runs *)

Record slice : Type := { start : Z; stop : Z; step : Z }.

(** [sliceme(l)] *)
Definition sliceme {A : Type} (l : list A) : slice :=
  {| start := 0; stop := Z.of_nat (List.length l); step := 1 |}.

(** The three variables of the loop of [slice_space]. *)
Record space : Type := { ret_ : list slice; sizes : list Z; size : Z }.

(** [slice_space(s, replications)]: the slices that are returned, and the
    sizes and the total size that are printed on demand.  The mapping [s] is
    the list of its items, in the order of its keys. *)
Definition slice_space {A : Type} (s : list (string * list A))
    (replications : Z) : space :=
  let after_keys :=
    fold_left
      (fun acc kv =>
         let n := Z.of_nat (List.length (snd kv)) in
         {| ret_ := (ret_ acc ++ [sliceme (snd kv)])%list;
            sizes := (sizes acc ++ [n])%list;
            size := size acc * n |})
      s {| ret_ := []; sizes := []; size := 1 |} in
  if Z.ltb 1 replications
  then {| ret_ := (ret_ after_keys
                   ++ [{| start := 0; stop := replications; step := 1 |}])%list;
          sizes := (sizes after_keys ++ [replications])%list;
          size := size after_keys * replications |}
  else after_keys.

(** [len(range(start, stop, step))] for a slice with a positive step. *)
Definition slice_points (sl : slice) : Z :=
  Z.max 0 ((stop sl - start sl + step sl - 1) / step sl).

(** ** Notions used in the further statements *)

(** Origin and destination are candidate nodes. *)
Definition drawn_from (distances : list Candidate) (r : Request) : Prop :=
  exists o d,
    origin r = Some o /\ destination r = Some d /\
    In o (map node distances) /\ In d (map node distances).

Definition raised {A : Type} (o : outcome A) : bool :=
  match o with
  | Raise _ => true
  | _ => false
  end.

(** The request time of a row comes from one of the drawn offsets. *)
Definition timed_from (_params : Params) (times : list Q) (r : Request) : Prop :=
  exists x, In x times /\ treq r = Some (t0 _params + int_of x)%Z.

(** [math.exp] answers, with a weight above 0 and at most 1, for the two
    weights of every node near the center. *)
Definition weights_positive (math_exp : Q -> option Q) (_inData : InData)
    (_params : Params) : Prop :=
  forall r x,
    In r (index (skim _inData)) ->
    cell (skim _inData) r (center (stats _inData)) = Some x ->
    x < dist_threshold _params ->
    exists wo wd,
      math_exp (origins_dispertion _params * x) = Some wo /\
      math_exp (destinations_dispertion _params * x) = Some wd /\
      0 < wo /\ wo <= 1 /\ 0 < wd /\ wd <= 1.

(** An input on which [generate_demand] finds nothing to refuse:
    - between one passenger and as many as there are nodes;
    - a matrix with unique labels, whose rows are among its columns, the
      center being a column;
    - some node nearer to the center than the threshold, and weights as
      above;
    - between any two nodes a distance that is a number from 0 to
      1 000 000 000 seconds;
    - the uniform distribution over a simulation time from 0 to 1 000 000
      hours, starting between the years 1970 and 2096;
    - a speed factor of at least 1 when [avg_speed] is asked for.
    The bounds on the times keep every timestamp and timedelta of the source
    within 64 bits of nanoseconds; the embedding bounds the timedelta of a
    distance only. *)
Definition well_formed (math_exp : Q -> option Q) (_inData : InData)
    (_params : Params) (avg_speed : bool) : Prop :=
  (1 <= nP _params <= List.length (nodes _inData))%nat /\
  NoDup (index (skim _inData)) /\
  NoDup (columns (skim _inData)) /\
  (forall r, In r (index (skim _inData)) -> In r (columns (skim _inData))) /\
  mem (center (stats _inData)) (columns (skim _inData)) = true /\
  (exists r x, In r (index (skim _inData)) /\
               cell (skim _inData) r (center (stats _inData)) = Some x /\
               x < dist_threshold _params) /\
  weights_positive math_exp _inData _params /\
  (forall o d,
     In o (index (skim _inData)) -> In d (columns (skim _inData)) ->
     exists x, cell (skim _inData) o d = Some x /\
               0 <= x /\ x <= 1000000000) /\
  temporal_distribution _params = "uniform" /\
  0 <= simTime _params /\ simTime _params <= 1000000 /\
  (0 <= t0 _params <= 4000000000)%Z /\
  (avg_speed = true -> 1 <= speeds_ride _params).

(** ** Further worked inputs *)

(** The five nodes on a line with a threshold that any two of them meet. *)
Definition line_wide : Params := line_params 3 5 "uniform".

(** The rows [line_rows] after the whole loop. *)
Definition line_loop : list Request :=
  match result (resample_loop 5 line_skim (dist_threshold line_tight)
                  line_candidates line_rows line_stream) with
  | Some l => l
  | None => []
  end.

(** The five nodes on a line, 37.5 seconds apart, with a threshold that the
    two ends of the line do not meet. *)
Definition coarse_skim : DataFrame :=
  {| index := [1; 2; 3; 4; 5]%Z; columns := [1; 2; 3; 4; 5]%Z;
     cell := fun r c => Some (inject_Z (Z.abs (r - c)) * (75 # 2)) |}.

Definition coarse_data : InData :=
  {| G := G line_data; nodes := [1; 2; 3; 4; 5]%Z; skim := coarse_skim;
     stats := {| center := 3%Z; radius := Some (75 # 2) |};
     passengers := []; requests := []; vehicles := [] |}.

Definition coarse_params : Params := line_params 3 100 "uniform".

Definition coarse_run (avg_speed : bool) : InData * outcome rng :=
  generate_demand exp_flat 5 coarse_data coarse_params avg_speed line_stream.

(** The line network with a table of platforms of three columns. *)
Definition line_world : World :=
  {| core := line_data;
     requests_platform := [];
     platforms_table :=
       IsFrame {| tab_columns := ["fare"; "name"; "batch_time"];
                  tab_index_name := None;
                  tab_rows := [] |} |}.

(** * Properties *)

(** ** Running the monad *)

Lemma bind_Ok {A B : Type} (m : Rand A) (k : A -> Rand B) g b g' :
  bind m k g = Ok (b, g') ->
  exists a g1, m g = Ok (a, g1) /\ k a g1 = Ok (b, g').
Proof.
  unfold bind. destruct (m g) as [[a g1] | e | ]; try discriminate.
  intros H. exists a, g1. split; [reflexivity | exact H].
Qed.

Lemma ret_Ok {A : Type} (a b : A) g g' :
  ret a g = Ok (b, g') -> b = a /\ g' = g.
Proof. unfold ret. intros H. inversion H. split; reflexivity. Qed.

Lemma lift_Ok {A : Type} (o : outcome A) a g g' :
  lift o g = Ok (a, g') -> o = Ok a /\ g' = g.
Proof.
  unfold lift. destruct o; try discriminate.
  intros H. inversion H. split; reflexivity.
Qed.

Lemma raise_Ok {A : Type} e (a : A) g g' : raise e g = Ok (a, g') -> False.
Proof. unfold raise. discriminate. Qed.

(** Peels the first bind of a successful run. *)
Tactic Notation "run_bind" hyp(H) "as" ident(a) ident(g) ident(H1) :=
  apply bind_Ok in H; destruct H as (a & g & H1 & H); cbv beta zeta in H.

(** Ends a successful run: a return, a lifted outcome, or a raise. *)
Ltac run_end H :=
  match type of H with
  | ret _ _ = Ok (_, _) => apply ret_Ok in H; destruct H; subst
  | lift _ _ = Ok (_, _) => apply lift_Ok in H; destruct H; subst
  | raise _ _ = Ok (_, _) => exfalso; exact (raise_Ok _ _ _ _ H)
  end.

Lemma mapM_Ok {A B : Type} (f : A -> Rand B) l :
  forall g l' g',
    mapM f l g = Ok (l', g') ->
    Forall2 (fun a b => exists g1 g2, f a g1 = Ok (b, g2)) l l'.
Proof.
  induction l as [| a l IH]; simpl; intros g l' g' H.
  - run_end H. constructor.
  - run_bind H as b g1 Hb. run_bind H as bs g2 Hbs. run_end H.
    constructor.
    + exists g, g1. assumption.
    + eapply IH. eassumption.
Qed.

Lemma replicateM_Ok {A : Type} (m : Rand A) n :
  forall g l g',
    replicateM n m g = Ok (l, g') ->
    List.length l = n /\ Forall (fun a => exists g1 g2, m g1 = Ok (a, g2)) l.
Proof.
  induction n as [| n IH]; simpl; intros g l g' H.
  - run_end H. split; [reflexivity | constructor].
  - run_bind H as a g1 Ha. run_bind H as l0 g2 Hl. run_end H.
    destruct (IH _ _ _ Hl) as [Hlen Hall].
    split; [simpl; congruence |].
    constructor; [exists g, g1; assumption | assumption].
Qed.

Lemma Forall2_length_eq {A B : Type} (R : A -> B -> Prop) l l' :
  Forall2 R l l' -> List.length l' = List.length l.
Proof. induction 1; simpl; congruence. Qed.

Lemma Forall2_compose {A B C : Type} (R : A -> B -> Prop) (S : B -> C -> Prop)
    l1 l2 l3 :
  Forall2 R l1 l2 -> Forall2 S l2 l3 ->
  Forall2 (fun a c => exists b, R a b /\ S b c) l1 l3.
Proof.
  intros H. revert l3.
  induction H as [| a b l1 l2 Hab _ IH]; intros l3 H3; inversion H3; subst.
  - constructor.
  - constructor; [exists b; split; assumption | apply IH; assumption].
Qed.

Lemma Forall2_impl {A B : Type} (R S : A -> B -> Prop) l l' :
  (forall a b, R a b -> S a b) -> Forall2 R l l' -> Forall2 S l l'.
Proof. intros HRS. induction 1; constructor; auto. Qed.

Lemma Forall2_Forall_r {A B : Type} (R : A -> B -> Prop) (P : B -> Prop) l l' :
  (forall a b, R a b -> P b) -> Forall2 R l l' -> Forall P l'.
Proof. intros HRP. induction 1; constructor; eauto. Qed.

Lemma Forall2_Forall_transport {A B : Type} (R : A -> B -> Prop)
    (P : A -> Prop) (Q : B -> Prop) l l' :
  (forall a b, R a b -> P a -> Q b) ->
  Forall2 R l l' -> Forall P l -> Forall Q l'.
Proof.
  intros HR. induction 1; intros HP; inversion HP; subst; constructor; eauto.
Qed.

(** ** Column assignment *)

Lemma assign_Ok {R V : Type} (set : R -> V -> R) rows vals rows' :
  assign set rows vals = Ok rows' ->
  List.length vals = List.length rows /\
  rows' = map (fun rv => set (fst rv) (snd rv)) (combine rows vals).
Proof.
  unfold assign.
  destruct (Nat.eqb_spec (List.length vals) (List.length rows)); try discriminate.
  intros H. inversion H. split; [assumption | reflexivity].
Qed.

Lemma assign_Forall2 {R V : Type} (set : R -> V -> R) rows vals rows' :
  assign set rows vals = Ok rows' ->
  Forall2 (fun r r' => exists v, In v vals /\ r' = set r v) rows rows'.
Proof.
  intros H. apply assign_Ok in H. destruct H as [Hlen ->].
  revert vals Hlen.
  induction rows as [| r rows IH]; intros [| v vals] Hlen; simpl in *;
    try discriminate; constructor.
  - exists v. split; [left; reflexivity | reflexivity].
  - eapply Forall2_impl; [| apply IH; lia].
    intros a b (w & Hw & ->). exists w. split; [right; assumption | reflexivity].
Qed.

Lemma assign_length {R V : Type} (set : R -> V -> R) rows vals rows' :
  assign set rows vals = Ok rows' -> List.length rows' = List.length rows.
Proof. intros H. eapply Forall2_length_eq, assign_Forall2, H. Qed.

Lemma range_length lo hi : List.length (range lo hi) = (hi - lo)%nat.
Proof. unfold range. rewrite length_map, length_seq. reflexivity. Qed.

(** ** Sorting by request time *)

Lemma treq_le_total a b : treq_le a b = false -> treq_le b a = true.
Proof.
  unfold treq_le. destruct (treq a), (treq b); try discriminate; auto.
  intros H. apply Z.leb_le. apply Z.leb_gt in H. lia.
Qed.

Lemma insert_by_treq_perm r l : Permutation (insert_by_treq r l) (r :: l).
Proof.
  induction l as [| r' l IH]; simpl.
  - apply Permutation_refl.
  - destruct (treq_le r r').
    + apply Permutation_refl.
    + eapply perm_trans; [apply perm_skip, IH | apply perm_swap].
Qed.

Lemma sort_values_treq_perm l : Permutation (sort_values_treq l) l.
Proof.
  induction l as [| r l IH]; simpl.
  - constructor.
  - eapply perm_trans; [apply insert_by_treq_perm | apply perm_skip, IH].
Qed.

Lemma insert_by_treq_hd r a l :
  treq_order a r -> HdRel treq_order a l ->
  HdRel treq_order a (insert_by_treq r l).
Proof.
  intros Har Hal. destruct l as [| r' l]; simpl.
  - constructor. assumption.
  - destruct (treq_le r r'); constructor; [assumption |].
    inversion Hal; assumption.
Qed.

Lemma insert_by_treq_sorted r l :
  Sorted treq_order l -> Sorted treq_order (insert_by_treq r l).
Proof.
  induction 1 as [| r' l Hs IH Hhd]; simpl.
  - repeat constructor.
  - destruct (treq_le r r') eqn:E.
    + constructor; [constructor; assumption | constructor; exact E].
    + constructor; [exact IH |].
      apply insert_by_treq_hd; [apply treq_le_total, E | assumption].
Qed.

Lemma sort_values_treq_sorted l : Sorted treq_order (sort_values_treq l).
Proof.
  induction l as [| r l IH]; simpl.
  - constructor.
  - apply insert_by_treq_sorted, IH.
Qed.

(** ** The last stage of [generate_demand] *)

Lemma each_Ok {A B : Type} (f : A -> outcome B) l :
  forall l', each f l = Ok l' -> Forall2 (fun a b => f a = Ok b) l l'.
Proof.
  induction l as [| a l IH]; simpl; intros l' H.
  - inversion H. constructor.
  - destruct (f a) as [b | |] eqn:Ea; try discriminate.
    destruct (each f l) as [bs | |] eqn:El; try discriminate.
    inversion H. subst l'. constructor; [exact Ea | apply IH; reflexivity].
Qed.

Lemma each_defined {A B : Type} (f : A -> outcome B) l :
  (forall a, In a l -> exists b, f a = Ok b) ->
  exists l', each f l = Ok l'.
Proof.
  induction l as [| a l IH]; intros H; simpl.
  - exists []. reflexivity.
  - destruct (H a (or_introl eq_refl)) as [b Hb]. rewrite Hb.
    destruct IH as [bs Hbs]; [intros a' Ha'; apply H; right; exact Ha' |].
    rewrite Hbs. exists (b :: bs). reflexivity.
Qed.

Lemma Forall2_map_r {A B C : Type} (h : B -> C) (R : A -> C -> Prop) l l' :
  Forall2 (fun a b => R a (h b)) l l' -> Forall2 R l (map h l').
Proof. induction 1; simpl; constructor; assumption. Qed.

Lemma Forall2_In_l {A B : Type} (R : A -> B -> Prop) l l' :
  Forall2 R l l' -> forall b, In b l' -> exists a, In a l /\ R a b.
Proof.
  induction 1 as [| a b0 l l' Hab _ IH]; intros b Hb; [contradiction |].
  destruct Hb as [<- | Hb].
  - exists a. split; [left; reflexivity | exact Hab].
  - destruct (IH b Hb) as (a' & Ha' & Hr). exists a'. split; [right |]; auto.
Qed.

Lemma finish_requests_Ok _params avg_speed df reqs reqs' :
  finish_requests _params avg_speed df reqs = Ok reqs' ->
  exists mids,
    Forall2 (fun r m => timed _params avg_speed r = Ok m) reqs mids /\
    Forall2 (fun m r' => same_trip m r' /\ shareable r' = Some false)
            (sort_values_treq mids) reqs'.
Proof.
  unfold finish_requests.
  destruct (each travel_time reqs) as [r0 | |] eqn:E0; try discriminate.
  apply each_Ok in E0.
  assert (Hmap :
    map (fun r => set_tarr r (time_add (treq r) (ttrav r)))
        (if avg_speed
         then map (fun r => set_ttrav r
                     (timedelta_div_floor (ttrav r) (speeds_ride _params))) r0
         else r0)
    = map (arrive _params avg_speed) r0).
  { destruct avg_speed; rewrite ?map_map; apply map_ext; intros r;
      reflexivity. }
  rewrite Hmap. clear Hmap.
  set (mid := sort_values_treq (map (arrive _params avg_speed) r0)).
  destruct (assign set_req_index mid (map pax_index df)) as [r1 | |] eqn:E1;
    try discriminate.
  destruct (assign set_pax_id r1 (map (fun p => Some (pax_index p)) df))
    as [r2 | |] eqn:E2; try discriminate.
  intros H. inversion H. subst reqs'. clear H.
  exists (map (arrive _params avg_speed) r0). split.
  { apply Forall2_map_r. eapply Forall2_impl; [| exact E0].
    intros a b Hab. unfold timed. cbv beta in Hab. rewrite Hab. reflexivity. }
  fold mid.
  apply assign_Forall2 in E1. apply assign_Forall2 in E2.
  pose proof (Forall2_compose _ _ _ _ _ E1 E2) as H12.
  clear E1 E2.
  induction H12 as [| a c l1 l3 (b & (v & _ & ->) & (w & _ & ->)) _ IH];
    simpl; constructor.
  - split; [repeat split | reflexivity].
  - exact IH.
Qed.

Lemma finish_requests_length _params avg_speed df reqs reqs' :
  finish_requests _params avg_speed df reqs = Ok reqs' ->
  List.length reqs' = List.length reqs.
Proof.
  intros H. apply finish_requests_Ok in H. destruct H as (mids & Hm & H).
  rewrite (Forall2_length_eq _ _ _ H).
  rewrite (Permutation_length (sort_values_treq_perm _)).
  exact (Forall2_length_eq _ _ _ Hm).
Qed.

Lemma finish_requests_In _params avg_speed df reqs reqs' r' :
  finish_requests _params avg_speed df reqs = Ok reqs' ->
  In r' reqs' ->
  exists r m, In r reqs /\ timed _params avg_speed r = Ok m /\
              same_trip m r' /\ shareable r' = Some false.
Proof.
  intros H Hin. apply finish_requests_Ok in H. destruct H as (mids & Hm & H).
  destruct (Forall2_In_l _ _ _ H r' Hin) as (m & Hmin & Htrip & Hsh).
  apply (Permutation_in _ (sort_values_treq_perm _)) in Hmin.
  destruct (Forall2_In_l _ _ _ Hm m Hmin) as (r & Hr & Ht).
  exists r, m. auto.
Qed.

Lemma finish_requests_sorted _params avg_speed df reqs reqs' :
  finish_requests _params avg_speed df reqs = Ok reqs' ->
  Sorted treq_order reqs'.
Proof.
  intros H. apply finish_requests_Ok in H. destruct H as (mids & _ & H).
  pose proof (sort_values_treq_sorted mids) as Hs.
  revert H Hs.
  generalize (sort_values_treq mids) as mid.
  intros mid H Hs.
  assert (Hrel : Forall2 (fun m r' => treq r' = treq m) mid reqs').
  { eapply Forall2_impl; [| exact H]. intros a b [(_ & _ & Ht & _) _]. exact Ht. }
  clear H. revert Hs.
  induction Hrel as [| m x l l' Hmx Hrel IH]; intros Hs.
  - constructor.
  - inversion Hs as [| ? ? Hs' Hhd]; subst.
    constructor; [apply IH; assumption |].
    inversion Hrel; subst; constructor.
    inversion Hhd; subst.
    unfold treq_order, treq_le in *. rewrite Hmx.
    match goal with Hy : treq _ = treq _ |- _ => rewrite Hy end.
    assumption.
Qed.

(** ** Weighted draws *)

Lemma searchsorted_In items : forall acc target n,
  searchsorted items acc target = Some n -> In n (map fst items).
Proof.
  induction items as [| [m w] items IH]; simpl; intros acc target n H.
  - discriminate.
  - destruct (Qltb target (acc + w)).
    + inversion H. left. reflexivity.
    + right. eapply IH. eassumption.
Qed.

Lemma choice_In items g n g' :
  choice items g = Ok (n, g') -> In n (map fst items).
Proof.
  unfold choice. intros H. run_bind H as u g1 Hu.
  destruct (searchsorted items 0 (u * Qsum (map snd items))) eqn:E.
  - run_end H. eapply searchsorted_In. eassumption.
  - run_end H.
Qed.

Lemma sample_weighted_Ok n items g l g' :
  sample_weighted n items g = Ok (l, g') ->
  check_weights (map snd items) = Ok tt /\
  List.length l = n /\
  Forall (fun x => exists g1 g2, choice items g1 = Ok (x, g2)) l.
Proof.
  unfold sample_weighted. intros H. run_bind H as u g1 Hu.
  run_end Hu. destruct u.
  apply replicateM_Ok in H. destruct H. auto.
Qed.

Lemma origin_weights_nodes distances :
  map fst (origin_weights distances) = map node distances.
Proof. unfold origin_weights. rewrite map_map. reflexivity. Qed.

Lemma destination_weights_nodes distances :
  map fst (destination_weights distances) = map node distances.
Proof. unfold destination_weights. rewrite map_map. reflexivity. Qed.

(** ** The rejection loop *)

Lemma too_far_false thr r x :
  too_far thr r = false -> dist r = Some x -> x < thr.
Proof.
  unfold too_far. intros H Hx. rewrite Hx in H.
  apply Qnot_le_lt. intros Hle. apply Qle_bool_iff in Hle. congruence.
Qed.

Lemma too_far_true thr r :
  too_far thr r = true <-> exists x, dist r = Some x /\ thr <= x.
Proof.
  unfold too_far. split.
  - destruct (dist r) as [x |]; [| discriminate].
    intros H. exists x. split; [reflexivity | apply Qle_bool_iff, H].
  - intros (x & -> & Hle). apply Qle_bool_iff, Hle.
Qed.

Lemma below_not_too_far thr r x :
  dist r = Some x -> x < thr -> too_far thr r = false.
Proof.
  intros Hx Hlt. destruct (too_far thr r) eqn:E; [| reflexivity].
  apply too_far_true in E. destruct E as (y & Hy & Hle).
  rewrite Hx in Hy. inversion Hy. subst y.
  exfalso. exact (Qlt_not_le _ _ Hlt Hle).
Qed.

Lemma compute_dist_Ok sk r g r' g' :
  compute_dist sk r g = Ok (r', g') ->
  exists d, request_dist sk r = Ok d /\ r' = set_dist r d.
Proof.
  unfold compute_dist. intros H. run_bind H as d g1 Hd. run_end Hd. run_end H.
  exists d. auto.
Qed.

Lemma compute_dist_located sk r g r' g' :
  compute_dist sk r g = Ok (r', g') -> located sk r'.
Proof.
  intros H. apply compute_dist_Ok in H. destruct H as (d & Hd & ->).
  exact Hd.
Qed.

Lemma resample_origin_Ok thr distances r g r' g' :
  resample_origin thr distances r g = Ok (r', g') ->
  (too_far thr r = false /\ r' = r) \/
  (too_far thr r = true /\
   exists o g1 g2, choice (origin_weights distances) g1 = Ok (o, g2) /\
                   r' = set_origin r (Some o)).
Proof.
  unfold resample_origin. destruct (too_far thr r); intros H.
  - right. split; [reflexivity |].
    run_bind H as drawn g1 Hd.
    apply sample_weighted_Ok in Hd. destruct Hd as (_ & _ & Hall).
    destruct drawn as [| o drawn]; run_end H.
    inversion Hall as [| ? ? (g2 & g3 & Hc) _]; subst.
    exists o, g2, g3. auto.
  - left. run_end H. auto.
Qed.

Lemma resample_destination_Ok thr distances r g r' g' :
  resample_destination thr distances r g = Ok (r', g') ->
  (too_far thr r = false /\ r' = r) \/
  (too_far thr r = true /\
   exists d g1 g2, choice (destination_weights distances) g1 = Ok (d, g2) /\
                   r' = set_destination r (Some d)).
Proof.
  unfold resample_destination. destruct (too_far thr r); intros H.
  - right. split; [reflexivity |].
    run_bind H as drawn g1 Hd.
    apply sample_weighted_Ok in Hd. destruct Hd as (_ & _ & Hall).
    destruct drawn as [| d drawn]; run_end H.
    inversion Hall as [| ? ? (g2 & g3 & Hc) _]; subst.
    exists d, g2, g3. auto.
  - left. run_end H. auto.
Qed.

Lemma resample_round_Ok sk thr distances reqs g reqs' g' :
  resample_round sk thr distances reqs g = Ok (reqs', g') ->
  Forall2 (round_of sk thr distances) reqs reqs'.
Proof.
  unfold resample_round. intros H.
  run_bind H as l1 g1 H1. run_bind H as l2 g2 H2.
  apply mapM_Ok in H1, H2, H.
  pose proof (Forall2_compose _ _ _ _ _ (Forall2_compose _ _ _ _ _ H1 H2) H) as Hall.
  eapply Forall2_impl; [| exact Hall].
  intros r r' (r2 & (r1 & (ga & ga' & Ha) & (gb & gb' & Hb)) & (gc & gc' & Hc)).
  exists r1, r2, ga, ga', gb, gb', gc, gc'. auto.
Qed.

Lemma round_of_located sk thr distances r r' :
  round_of sk thr distances r r' -> located sk r'.
Proof.
  intros (r1 & r2 & g1 & g1' & g2 & g2' & g3 & g3' & _ & _ & H).
  eapply compute_dist_located, H.
Qed.

Lemma round_of_treq sk thr distances r r' :
  round_of sk thr distances r r' -> treq r' = treq r.
Proof.
  intros (r1 & r2 & g1 & g1' & g2 & g2' & g3 & g3' & Ho & Hd & Hc).
  apply compute_dist_Ok in Hc. destruct Hc as (d & _ & ->).
  apply resample_origin_Ok in Ho. apply resample_destination_Ok in Hd.
  destruct Ho as [[_ ->] | [_ (o & ? & ? & _ & ->)]];
    destruct Hd as [[_ ->] | [_ (d' & ? & ? & _ & ->)]]; reflexivity.
Qed.

Lemma resample_loop_Ok fuel sk thr distances :
  forall reqs g reqs' g',
    resample_loop fuel sk thr distances reqs g = Ok (reqs', g') ->
    existsb (too_far thr) reqs' = false /\
    List.length reqs' = List.length reqs /\
    Forall2 (fun r r' => treq r' = treq r) reqs reqs' /\
    (Forall (located sk) reqs -> Forall (located sk) reqs').
Proof.
  induction fuel as [| fuel IH]; intros reqs g reqs' g' H; simpl in H;
    destruct (existsb (too_far thr) reqs) eqn:E; try discriminate.
  - run_end H. repeat split; auto.
    clear. induction reqs; constructor; auto.
  - run_bind H as mid g1 Hmid.
    apply resample_round_Ok in Hmid.
    destruct (IH _ _ _ _ H) as (Hfar & Hlen & Htreq & Hloc).
    split; [exact Hfar |]. split; [| split].
    + rewrite Hlen. eapply Forall2_length_eq, Hmid.
    + pose proof (Forall2_compose _ _ _ _ _ Hmid Htreq) as Hc.
      eapply Forall2_impl; [| exact Hc].
      intros r r' (m & Hm & Ht). rewrite Ht. eapply round_of_treq, Hm.
    + intros _. apply Hloc.
      eapply Forall2_Forall_r; [| exact Hmid].
      intros a b. apply round_of_located.
  - run_end H. repeat split; auto.
    clear. induction reqs; constructor; auto.
Qed.

(** ** Taking [generate_demand] apart *)

Section Runs.

Variable math_exp : Q -> option Q.

Lemma mapM_compute_dist sk reqs g reqs' g' :
  mapM (compute_dist sk) reqs g = Ok (reqs', g') ->
  Forall (located sk) reqs' /\
  Forall2 (fun r r' => treq r' = treq r) reqs reqs'.
Proof.
  intros H. apply mapM_Ok in H. split.
  - eapply Forall2_Forall_r; [| exact H].
    intros a b (g1 & g2 & Hc). eapply compute_dist_located, Hc.
  - eapply Forall2_impl; [| exact H].
    intros a b (g1 & g2 & Hc). apply compute_dist_Ok in Hc.
    destruct Hc as (d & _ & ->). reflexivity.
Qed.

Lemma first_dist_Ok sk reqs g reqs' g' :
  first_dist sk reqs g = Ok (reqs', g') ->
  reqs <> [] /\ mapM (compute_dist sk) reqs g = Ok (reqs', g').
Proof.
  unfold first_dist. destruct reqs as [| r reqs]; [discriminate |].
  intros H. split; [discriminate | exact H].
Qed.

Lemma build_requests_Ok fuel _inData _params avg_speed df g reqs' g' :
  build_requests math_exp fuel _inData _params avg_speed df g = Ok (reqs', g') ->
  exists pre,
    finish_requests _params avg_speed df pre = Ok reqs' /\
    existsb (too_far (dist_threshold _params)) pre = false /\
    Forall (located (skim _inData)) pre /\
    Forall has_treq pre /\
    List.length pre = List.length df /\
    List.length df = nP _params.
Proof.
  unfold build_requests. intros H.
  run_bind H as distances g1 Hdist.
  run_bind H as times g2 Htimes.
  run_bind H as stamps g3 Hstamps.
  run_bind H as reqs1 g4 H1. run_end H1.
  run_bind H as origins g5 Ho.
  run_bind H as reqs2 g6 H2. run_end H2.
  run_bind H as destinations g7 Hd.
  run_bind H as reqs3 g8 H3. run_end H3.
  run_bind H as reqs4 g9 H4.
  run_bind H as pre g10 Hloop.
  run_end H.
  match goal with Hf : finish_requests _ _ _ _ = Ok _ |- _ =>
    rename Hf into Hfin end.
  match goal with Ha : assign set_treq _ _ = Ok _ |- _ => rename Ha into A1 end.
  match goal with Ha : assign set_origin _ _ = Ok _ |- _ => rename Ha into A2 end.
  match goal with Ha : assign set_destination _ _ = Ok _ |- _ =>
    rename Ha into A3 end.
  apply resample_loop_Ok in Hloop.
  destruct Hloop as (Hfar & Hlen & Htreq & Hloc).
  apply first_dist_Ok in H4. destruct H4 as [_ H4].
  apply mapM_compute_dist in H4. destruct H4 as [Hloc4 Htreq4].
  exists pre. split; [exact Hfin |]. split; [exact Hfar |].
  split; [apply Hloc, Hloc4 |].
  (* the request times are set once and kept *)
  assert (Hstamps' : Forall (fun v : option Z => exists t, v = Some t) stamps).
  { destruct times as [l |]; run_end Hstamps.
    apply Forall_forall. intros v Hv. apply in_map_iff in Hv.
    destruct Hv as (x & <- & _). eexists. reflexivity. }
  assert (T1 : Forall has_treq reqs1).
  { eapply Forall2_Forall_r; [| apply (assign_Forall2 _ _ _ _ A1)].
    intros a b (v & Hv & ->). simpl.
    rewrite Forall_forall in Hstamps'. destruct (Hstamps' v Hv) as [t ->].
    exists t. reflexivity. }
  assert (T2 : Forall has_treq reqs2).
  { eapply Forall2_Forall_transport; [| apply (assign_Forall2 _ _ _ _ A2) | exact T1].
    intros a b (v & _ & ->) Ha. exact Ha. }
  assert (T3 : Forall has_treq reqs3).
  { eapply Forall2_Forall_transport; [| apply (assign_Forall2 _ _ _ _ A3) | exact T2].
    intros a b (v & _ & ->) Ha. exact Ha. }
  assert (T4 : Forall has_treq reqs4).
  { eapply Forall2_Forall_transport; [| exact Htreq4 | exact T3].
    intros a b Hab [t Ht]. exists t. congruence. }
  split.
  { eapply Forall2_Forall_transport; [| exact Htreq | exact T4].
    intros a b Hab [t Ht]. exists t. congruence. }
  (* the number of rows *)
  pose proof (assign_length _ _ _ _ A1) as L1.
  pose proof (assign_length _ _ _ _ A2) as L2.
  pose proof (assign_length _ _ _ _ A3) as L3.
  pose proof (Forall2_length_eq _ _ _ Htreq4) as L4.
  rewrite length_map in L1.
  split; [congruence |].
  apply assign_Ok in A2. destruct A2 as [A2 _].
  apply sample_weighted_Ok in Ho. destruct Ho as (_ & Ho & _).
  rewrite length_map in A2. congruence.
Qed.

(** A request table is made for at least one passenger only. *)
Lemma build_requests_some fuel _inData _params avg_speed df g reqs' g' :
  build_requests math_exp fuel _inData _params avg_speed df g = Ok (reqs', g') ->
  df <> [].
Proof.
  unfold build_requests. intros H.
  run_bind H as distances g1 Hdist.
  run_bind H as times g2 Htimes.
  run_bind H as stamps g3 Hstamps.
  run_bind H as reqs1 g4 H1. run_end H1.
  run_bind H as origins g5 Ho.
  run_bind H as reqs2 g6 H2. run_end H2.
  run_bind H as destinations g7 Hd.
  run_bind H as reqs3 g8 H3. run_end H3.
  run_bind H as reqs4 g9 H4.
  match goal with Ha : assign set_treq _ _ = Ok _ |- _ => rename Ha into A1 end.
  match goal with Ha : assign set_origin _ _ = Ok _ |- _ => rename Ha into A2 end.
  match goal with Ha : assign set_destination _ _ = Ok _ |- _ =>
    rename Ha into A3 end.
  apply first_dist_Ok in H4. destruct H4 as [Hne _].
  pose proof (assign_length _ _ _ _ A1) as L1.
  pose proof (assign_length _ _ _ _ A2) as L2.
  pose proof (assign_length _ _ _ _ A3) as L3.
  rewrite length_map in L1.
  intros ->. apply Hne. destruct reqs3; [reflexivity |].
  simpl in *. lia.
Qed.

Lemma map_pos_assigned rows vals :
  List.length vals = List.length rows ->
  map pos (map (fun rv => set_pos (fst rv) (snd rv)) (combine rows vals)) = vals.
Proof.
  revert vals.
  induction rows as [| r rows IH]; intros [| x vals] Hlen; simpl in *;
    try discriminate; try reflexivity.
  f_equal. apply IH. lia.
Qed.

Lemma init_passengers_Ok _inData _params g df g' :
  init_passengers _inData _params g = Ok (df, g') ->
  exists drawn,
    sample (nP _params) (nodes _inData) g = Ok (drawn, g') /\
    map pos df = map Some drawn /\
    List.length df = nP _params.
Proof.
  unfold init_passengers. intros H. run_bind H as drawn g1 Hs. run_end H.
  match goal with Ha : assign _ _ _ = Ok _ |- _ => rename Ha into A end.
  exists drawn. split; [exact Hs |].
  pose proof (assign_length _ _ _ _ A) as L.
  rewrite !length_map, range_length, Nat.sub_0_r in L.
  split; [| exact L].
  apply assign_Ok in A. destruct A as [Hlen ->].
  apply map_pos_assigned. exact Hlen.
Qed.

Lemma generate_demand_returned fuel _inData _params avg_speed g :
  returned (snd (generate_demand math_exp fuel _inData _params avg_speed g)) = true ->
  exists df g1 reqs g2,
    init_passengers _inData _params g = Ok (df, g1) /\
    build_requests math_exp fuel (set_passengers _inData df) _params avg_speed
      df g1 = Ok (reqs, g2) /\
    fst (generate_demand math_exp fuel _inData _params avg_speed g)
      = publish (set_passengers _inData df) reqs.
Proof.
  unfold generate_demand.
  destruct (init_passengers _inData _params g) as [[df g1] | e |] eqn:E1;
    simpl; try discriminate.
  destruct (build_requests math_exp fuel (set_passengers _inData df) _params
              avg_speed df g1) as [[reqs g2] | e |] eqn:E2;
    simpl; try discriminate.
  intros _. exists df, g1, reqs, g2. repeat split; [exact E2].
Qed.

Lemma publish_requests d reqs : requests (publish d reqs) = reqs.
Proof. reflexivity. Qed.

Lemma publish_passengers_length d reqs :
  List.length (passengers (publish d reqs)) = List.length (passengers d).
Proof. unfold publish. simpl. rewrite !length_map. reflexivity. Qed.

End Runs.

Lemma result_Some {A : Type} (o : outcome (A * rng)) a :
  result o = Some a -> exists g, o = Ok (a, g).
Proof.
  destruct o as [[b g] | |]; simpl; try discriminate.
  intros H. inversion H. exists g. reflexivity.
Qed.

Lemma timed_Ok p avg r m :
  timed p avg r = Ok m ->
  exists v,
    timedelta_floor (dist r) = Ok v /\
    origin m = origin r /\ destination m = destination r /\
    dist m = dist r /\ treq m = treq r /\
    ttrav m = (if avg then timedelta_div_floor v (speeds_ride p) else v) /\
    tarr m = time_add (treq m) (ttrav m).
Proof.
  unfold timed, travel_time.
  destruct (timedelta_floor (dist r)) as [v | |]; try discriminate.
  intros H. inversion H. exists v. destruct avg; repeat split; reflexivity.
Qed.

Lemma timed_origin p avg r m : timed p avg r = Ok m -> origin m = origin r.
Proof. intros H. apply timed_Ok in H. destruct H as (v & _ & H & _). exact H. Qed.

Lemma timed_destination p avg r m :
  timed p avg r = Ok m -> destination m = destination r.
Proof.
  intros H. apply timed_Ok in H. destruct H as (v & _ & _ & H & _). exact H.
Qed.

Lemma timed_dist p avg r m : timed p avg r = Ok m -> dist m = dist r.
Proof.
  intros H. apply timed_Ok in H. destruct H as (v & _ & _ & _ & H & _). exact H.
Qed.

Lemma timed_treq p avg r m : timed p avg r = Ok m -> treq m = treq r.
Proof.
  intros H. apply timed_Ok in H.
  destruct H as (v & _ & _ & _ & _ & H & _). exact H.
Qed.

Lemma timed_tarr p avg r m :
  timed p avg r = Ok m -> tarr m = time_add (treq m) (ttrav m).
Proof.
  intros H. apply timed_Ok in H.
  destruct H as (v & _ & _ & _ & _ & _ & _ & H). exact H.
Qed.

Lemma mem_In z l : mem z l = true <-> In z l.
Proof.
  unfold mem. rewrite existsb_exists. split.
  - intros (x & Hx & E). apply Z.eqb_eq in E. subst. exact Hx.
  - intros H. exists z. split; [exact H | apply Z.eqb_refl].
Qed.

Lemma loc_labels sk o d v :
  loc sk o d = Ok v -> In o (index sk) /\ In d (columns sk).
Proof.
  unfold loc. destruct (mem o (index sk)) eqn:Eo; [| discriminate].
  destruct (mem d (columns sk)) eqn:Ed; [| discriminate].
  intros _. split; apply mem_In; assumption.
Qed.

Lemma loc_Ok sk o d v : loc sk o d = Ok v -> v = cell sk o d.
Proof.
  unfold loc. destruct (mem o (index sk) && mem d (columns sk));
    intros H; inversion H; reflexivity.
Qed.

Lemma located_inv sk r :
  located sk r ->
  exists o d, origin r = Some o /\ destination r = Some d /\
              loc sk o d = Ok (dist r).
Proof.
  unfold located, request_dist.
  destruct (origin r) as [o |]; [| discriminate].
  destruct (destination r) as [d |]; [| discriminate].
  intros H. exists o, d. auto.
Qed.

Lemma Sorted_consecutive {A : Type} (R : A -> A -> Prop) l :
  Sorted R l ->
  forall i a b, nth_error l i = Some a -> nth_error l (S i) = Some b -> R a b.
Proof.
  induction 1 as [| x l Hs IH Hhd]; intros i a b Ha Hb.
  - destruct i; discriminate.
  - destruct i as [| i]; simpl in *.
    + inversion Ha; subst. destruct l as [| y l]; [discriminate |].
      simpl in Hb. inversion Hb; subst. inversion Hhd; assumption.
    + eapply IH; eassumption.
Qed.

(** ** Whole seconds *)

Lemma int_of_nonneg q : 0 <= q -> int_of q = Qfloor q.
Proof.
  destruct q as [n d]. unfold Qle, int_of, Qfloor. simpl. intros H.
  apply Z.quot_div_nonneg; lia.
Qed.

Lemma Qfloor_div_pos q (n : positive) :
  (Qfloor q / Zpos n)%Z = Qfloor (q / inject_Z (Zpos n)).
Proof.
  destruct q as [a b]. unfold Qfloor, Qdiv, Qmult, Qinv. simpl.
  rewrite Z.mul_1_r. rewrite Pos2Z.inj_mul.
  apply Z.div_div; lia.
Qed.

Lemma Qfloor_unique z q :
  inject_Z z <= q -> q < inject_Z (z + 1) -> Qfloor q = z.
Proof.
  intros Hlo Hhi.
  pose proof (Qfloor_le q) as H1. pose proof (Qlt_floor q) as H2.
  assert (A : (z < Qfloor q + 1)%Z).
  { rewrite Zlt_Qlt. eapply Qle_lt_trans; [exact Hlo | exact H2]. }
  assert (B : (Qfloor q < z + 1)%Z).
  { rewrite Zlt_Qlt. eapply Qle_lt_trans; [exact H1 | exact Hhi]. }
  lia.
Qed.

Lemma round_half_even_range q :
  (Qfloor q <= round_half_even q <= Qfloor q + 1)%Z.
Proof.
  unfold round_half_even.
  destruct (Qcompare (q - inject_Z (Qfloor q)) (1 # 2)); [| lia | lia].
  destruct (Z.even (Qfloor q)); lia.
Qed.

Lemma round_half_even_below q :
  q - inject_Z (Qfloor q) < 1 # 2 -> round_half_even q = Qfloor q.
Proof.
  intros H. unfold round_half_even.
  destruct (Qcompare (q - inject_Z (Qfloor q)) (1 # 2)) eqn:E.
  - apply Qeq_alt in E. exfalso. lra.
  - reflexivity.
  - apply Qgt_alt in E. exfalso. lra.
Qed.

Lemma round_half_even_above q :
  1 # 2 <= q - inject_Z (Qfloor q) -> Z.even (Qfloor q) = false ->
  round_half_even q = (Qfloor q + 1)%Z.
Proof.
  intros H Hodd. unfold round_half_even.
  destruct (Qcompare (q - inject_Z (Qfloor q)) (1 # 2)) eqn:E.
  - rewrite Hodd. reflexivity.
  - apply Qlt_alt in E. exfalso. lra.
  - reflexivity.
Qed.

(** The nanoseconds of a duration that is not negative, and its whole
    seconds: half a nanosecond short of a second counts as the second. *)
Lemma nanoseconds_nonneg x :
  0 <= x ->
  (0 <= nanoseconds x)%Z /\
  (nanoseconds x <= (Qfloor x + 1) * ns_per_s)%Z /\
  (nanoseconds x / ns_per_s)%Z = Qfloor (x + half_ns).
Proof.
  intros Hx. unfold nanoseconds. cbv zeta. rewrite (int_of_nonneg _ Hx).
  set (b := Qfloor x).
  set (y := (x - inject_Z b) * inject_Z ns_per_s).
  pose proof (Qfloor_le x) as Hlo. pose proof (Qlt_floor x) as Hhi.
  fold b in Hlo, Hhi. rewrite inject_Z_plus in Hhi.
  change (inject_Z 1) with 1 in Hhi.
  assert (Hb : (0 <= b)%Z).
  { unfold b. change 0%Z with (Qfloor 0). apply Qfloor_resp_le, Hx. }
  assert (Ey : y == (x - inject_Z b) * 1000000000) by reflexivity.
  assert (Hy0 : 0 <= y) by (rewrite Ey; lra).
  assert (Hy1 : y < 1000000000) by (rewrite Ey; lra).
  assert (Hf0 : (0 <= Qfloor y)%Z).
  { change 0%Z with (Qfloor 0). apply Qfloor_resp_le, Hy0. }
  assert (Hf1 : (Qfloor y <= 999999999)%Z).
  { assert (Qfloor y < 1000000000)%Z; [| lia].
    rewrite Zlt_Qlt. eapply Qle_lt_trans; [apply Qfloor_le | exact Hy1]. }
  pose proof (round_half_even_range y) as Hr.
  pose proof (Qfloor_le y) as Hfl. pose proof (Qlt_floor y) as Hfh.
  rewrite inject_Z_plus in Hfh. change (inject_Z 1) with 1 in Hfh.
  destruct (Qlt_le_dec y (1999999999 # 2)) as [Hlt | Hge].
  - (* the fraction is rounded within the second *)
    assert (Hr1 : (round_half_even y <= 999999999)%Z).
    { destruct (Z.eq_dec (Qfloor y) 999999999) as [E | E]; [| lia].
      rewrite round_half_even_below; [lia |].
      rewrite E. change (inject_Z 999999999) with 999999999. lra. }
    split; [unfold ns_per_s; lia |].
    split; [unfold ns_per_s; lia |].
    transitivity b.
    + symmetry. apply (Z.div_unique _ _ b (round_half_even y));
        unfold ns_per_s; lia.
    + symmetry. apply Qfloor_unique; unfold half_ns.
      * lra.
      * rewrite inject_Z_plus. change (inject_Z 1) with 1.
        rewrite Ey in Hlt. lra.
  - (* the fraction is rounded up to the next second *)
    assert (E : Qfloor y = 999999999%Z).
    { apply Qfloor_unique.
      - change (inject_Z 999999999) with 999999999. lra.
      - change (inject_Z (999999999 + 1)) with 1000000000. exact Hy1. }
    assert (Hr1 : round_half_even y = 1000000000%Z).
    { rewrite round_half_even_above; rewrite E; [reflexivity | | reflexivity].
      change (inject_Z 999999999) with 999999999. lra. }
    rewrite Hr1.
    split; [unfold ns_per_s; lia |].
    split; [unfold ns_per_s; lia |].
    transitivity (b + 1)%Z.
    + symmetry. apply (Z.div_unique _ _ (b + 1)%Z 0%Z);
        unfold ns_per_s; lia.
    + symmetry. apply Qfloor_unique; unfold half_ns.
      * rewrite inject_Z_plus. change (inject_Z 1) with 1.
        rewrite Ey in Hge. lra.
      * rewrite !inject_Z_plus. change (inject_Z 1) with 1. lra.
Qed.

Lemma in_int64_iff z :
  in_int64 z = true <-> (- 2 ^ 63 < z < 2 ^ 63)%Z.
Proof.
  unfold in_int64. rewrite andb_true_iff, !Z.ltb_lt. tauto.
Qed.

(** The travel time of line 183, for a distance that is not negative. *)
Lemma timedelta_floor_nonneg x v :
  0 <= x -> timedelta_floor (Some x) = Ok v ->
  v = Some (Qfloor (x + half_ns)).
Proof.
  intros Hx. unfold timedelta_floor, Timedelta_s.
  destruct (in_int64 (nanoseconds x)); [| discriminate].
  intros H. inversion H.
  destruct (nanoseconds_nonneg x Hx) as (_ & _ & ->). reflexivity.
Qed.

Lemma timedelta_floor_defined x :
  0 <= x -> x <= 9000000000 ->
  timedelta_floor (Some x) = Ok (Some (Qfloor (x + half_ns))).
Proof.
  intros Hx Hm. unfold timedelta_floor, Timedelta_s.
  destruct (nanoseconds_nonneg x Hx) as (H0 & H1 & H2).
  assert (Hb : (Qfloor x <= 9000000000)%Z).
  { change 9000000000%Z with (Qfloor 9000000000).
    apply Qfloor_resp_le, Hm. }
  assert (Hin : in_int64 (nanoseconds x) = true).
  { apply in_int64_iff. unfold ns_per_s in H1. lia. }
  rewrite Hin, H2. reflexivity.
Qed.

Lemma timedelta_floor_set x v :
  timedelta_floor (Some x) = Ok v -> exists t, v = Some t.
Proof.
  unfold timedelta_floor. destruct (Timedelta_s x); try discriminate.
  intros H. inversion H. eexists. reflexivity.
Qed.

Lemma timedelta_floor_missing v : timedelta_floor None = Ok v -> v = None.
Proof. intros H. inversion H. reflexivity. Qed.

(** The travel time of line 186: for a duration that is not negative and a
    positive speed, the quotient floored, as long as it stays below
    9 000 000 000 seconds. *)
Lemma timedelta_div_floor_whole t k :
  (0 <= t)%Z -> 0 < k -> inject_Z t / k <= 9000000000 ->
  timedelta_div_floor (Some t) k = Some (Qfloor (inject_Z t / k)).
Proof.
  intros Ht Hk Hm. unfold timedelta_div_floor.
  destruct (Qeq_bool k 0) eqn:E.
  { apply Qeq_bool_iff in E. rewrite E in Hk. exfalso.
    exact (Qlt_irrefl 0 Hk). }
  assert (Hk0 : ~ k == 0).
  { intros Hk0. rewrite Hk0 in Hk. exact (Qlt_irrefl 0 Hk). }
  assert (Hq0 : 0 <= inject_Z (t * ns_per_s) / k).
  { apply Qle_shift_div_l; [exact Hk |]. rewrite Qmult_0_l.
    rewrite <- (Zle_Qle 0). unfold ns_per_s. lia. }
  assert (Eq : inject_Z (t * ns_per_s) / k
               == inject_Z t / k * 1000000000).
  { rewrite inject_Z_mult. unfold ns_per_s.
    change (inject_Z 1000000000) with 1000000000. field. exact Hk0. }
  cbv zeta. rewrite (int_of_nonneg _ Hq0).
  assert (Hin : in_int64 (Qfloor (inject_Z (t * ns_per_s) / k)) = true).
  { apply in_int64_iff. split.
    - assert (0 <= Qfloor (inject_Z (t * ns_per_s) / k))%Z; [| lia].
      change 0%Z with (Qfloor 0). apply Qfloor_resp_le, Hq0.
    - assert (Qfloor (inject_Z (t * ns_per_s) / k)
              <= 9000000000000000000)%Z; [| lia].
      change 9000000000000000000%Z with (Qfloor 9000000000000000000).
      apply Qfloor_resp_le. rewrite Eq. lra. }
  rewrite Hin. f_equal.
  unfold ns_per_s. rewrite Qfloor_div_pos.
  apply Qfloor_comp. unfold ns_per_s in Eq. rewrite Eq.
  change (inject_Z 1000000000) with 1000000000. field. exact Hk0.
Qed.

(** A quotient that float64 takes exactly is far below that bound. *)
Lemma exact_quotient_small secs k :
  (0 <= secs)%Z -> exact_quotient secs k ->
  inject_Z secs / k <= 9000000000.
Proof.
  intros Hs [Hk Hb]. destruct k as [n d]. simpl in Hb.
  assert (Hn : (0 < n)%Z).
  { unfold Qlt in Hk. simpl in Hk. lia. }
  destruct n as [| p | p]; try lia.
  unfold Qle, Qdiv, Qmult, Qinv. simpl.
  unfold ns_per_s in Hb. nia.
Qed.

(** The travel time of a finished row, from its distance. *)
Lemma timed_travel p avg r m x :
  timed p avg r = Ok m -> dist r = Some x -> 0 <= x ->
  (avg = false -> ttrav m = Some (Qfloor (x + half_ns))) /\
  (avg = true -> 0 < speeds_ride p ->
   inject_Z (Qfloor (x + half_ns)) / speeds_ride p <= 9000000000 ->
   ttrav m
   = Some (Qfloor (inject_Z (Qfloor (x + half_ns)) / speeds_ride p))).
Proof.
  intros Hm Hd Hx. apply timed_Ok in Hm.
  destruct Hm as (v & Hv & _ & _ & _ & _ & Ht & _).
  rewrite Hd in Hv. apply (timedelta_floor_nonneg _ _ Hx) in Hv. subst v.
  split; intros ->; [exact Ht |].
  intros Hk Hb. rewrite Ht. apply timedelta_div_floor_whole; auto.
  change 0%Z with (Qfloor 0). apply Qfloor_resp_le.
  unfold half_ns. lra.
Qed.

Lemma timed_travel_set p r m x :
  timed p false r = Ok m -> dist r = Some x -> exists v, ttrav m = Some v.
Proof.
  intros Hm Hd. apply timed_Ok in Hm.
  destruct Hm as (v & Hv & _ & _ & _ & _ & Ht & _).
  rewrite Hd in Hv. apply timedelta_floor_set in Hv. destruct Hv as [t ->].
  exists t. exact Ht.
Qed.

Lemma timed_travel_missing p avg r m :
  timed p avg r = Ok m -> dist r = None -> ttrav m = None.
Proof.
  intros Hm Hd. apply timed_Ok in Hm.
  destruct Hm as (v & Hv & _ & _ & _ & _ & Ht & _).
  rewrite Hd in Hv. apply timedelta_floor_missing in Hv. subst v.
  rewrite Ht. destruct avg; reflexivity.
Qed.

(** The whole seconds of a distance, over the speed, stay within the bound
    when the distance and one second more do. *)
Lemma seconds_bound x k :
  0 <= x -> 0 < k -> x + 1 <= 9000000000 * k ->
  inject_Z (Qfloor (x + half_ns)) / k <= 9000000000.
Proof.
  intros Hx Hk Hb. apply Qle_shift_div_r; [exact Hk |].
  pose proof (Qfloor_le (x + half_ns)) as H. unfold half_ns in *. lra.
Qed.

Lemma seconds_nonneg x : 0 <= x -> (0 <= Qfloor (x + half_ns))%Z.
Proof.
  intros Hx. change 0%Z with (Qfloor 0). apply Qfloor_resp_le.
  unfold half_ns. lra.
Qed.

Section Claims.

Variable math_exp : Q -> option Q.

(** What a successful call leaves in [_inData]: the rows [pre] that left
    the loop, finished against the passenger table [df]. *)
Lemma generate_demand_requests fuel _inData _params avg_speed g :
  returned (snd (generate_demand math_exp fuel _inData _params avg_speed g)) = true ->
  exists df pre,
    finish_requests _params avg_speed df pre
    = Ok (requests (fst (generate_demand math_exp fuel _inData _params
                           avg_speed g))) /\
    List.length df = nP _params /\
    List.length pre = List.length df /\
    List.length
      (passengers (fst (generate_demand math_exp fuel _inData _params
                          avg_speed g))) = List.length df /\
    existsb (too_far (dist_threshold _params)) pre = false /\
    Forall (located (skim _inData)) pre /\
    Forall has_treq pre.
Proof.
  intros H. apply generate_demand_returned in H.
  destruct H as (df & g1 & reqs & g2 & Hinit & Hbuild & Hfst).
  apply build_requests_Ok in Hbuild.
  destruct Hbuild as (pre & Hfin & Hfar & Hloc & Htreq & Hlen & HnP).
  exists df, pre.
  rewrite Hfst, publish_requests, publish_passengers_length.
  simpl. auto 10.
Qed.

(** C1. Distance invariant: when [generate_demand] returns, every row of the
    request table has a distance that is the matrix entry at its origin and
    destination and lies strictly below [dist_threshold].  The matrix is the
    one of the data model: every entry is a number. *)
Theorem generate_demand_distance_invariant fuel _inData _params avg_speed g :
  (forall o d, cell (skim _inData) o d <> None) ->
  returned (snd (generate_demand math_exp fuel _inData _params avg_speed g)) = true ->
  Forall (fun r =>
            exists o d x,
              origin r = Some o /\ destination r = Some d /\
              loc (skim _inData) o d = Ok (Some x) /\
              dist r = Some x /\ x < dist_threshold _params)
         (requests (fst (generate_demand math_exp fuel _inData _params
                           avg_speed g))).
Proof.
  intros Hnum H. apply generate_demand_requests in H.
  destruct H as (df & pre & Hfin & _ & _ & _ & Hfar & Hloc & _).
  apply Forall_forall. intros r' Hr'.
  destruct (finish_requests_In _ _ _ _ _ _ Hfin Hr')
    as (r & m & Hr & Htimed & Htrip & _).
  destruct Htrip as (Ho & Hd & _ & _ & _ & Hdist).
  rewrite (timed_origin _ _ _ _ Htimed) in Ho. rewrite (timed_destination _ _ _ _ Htimed) in Hd.
  rewrite (timed_dist _ _ _ _ Htimed) in Hdist.
  rewrite Forall_forall in Hloc.
  destruct (located_inv _ _ (Hloc r Hr)) as (o & d & Hor & Hde & Hlo).
  pose proof (loc_Ok _ _ _ _ Hlo) as Hcell.
  destruct (dist r) as [x |] eqn:Ex; [| exfalso; exact (Hnum o d (eq_sym Hcell))].
  exists o, d, x. repeat split; try congruence.
  apply (too_far_false (dist_threshold _params) r x); [| exact Ex].
  destruct (too_far (dist_threshold _params) r) eqn:E; [| reflexivity].
  assert (existsb (too_far (dist_threshold _params)) pre = true).
  { apply existsb_exists. exists r. auto. }
  congruence.
Qed.

Lemma concat_keys_length objs keys vehs :
  concat_keys objs keys = Ok vehs ->
  List.length vehs = Nat.min (List.length keys) (List.length objs).
Proof.
  unfold concat_keys. destruct objs as [| v objs]; [discriminate |].
  destruct (combine keys (v :: objs)) as [| kv l] eqn:E; [discriminate |].
  intros H. inversion H; subst vehs.
  rewrite <- length_combine, E. simpl. rewrite length_map. reflexivity.
Qed.

Lemma generate_vehicles_length _inData nV g vehs :
  result (generate_vehicles _inData nV g) = Some vehs ->
  List.length vehs = nV.
Proof.
  intros H. apply result_Some in H. destruct H as [g' H].
  unfold generate_vehicles in H. run_bind H as rows g1 Hc. run_end Hc.
  apply mapM_Ok in H. rewrite (Forall2_length_eq _ _ _ H), length_map.
  match goal with Hk : concat_keys _ _ = Ok _ |- _ =>
    apply concat_keys_length in Hk; rewrite Hk end.
  rewrite length_map, !range_length. lia.
Qed.

(** C2. Cardinality: the passenger table and the request table that
    [generate_demand] produces have [nP] rows each, and the vehicle table that
    [generate_vehicles] produces has [nV] rows. *)
Theorem generate_cardinality fuel _inData _params avg_speed g n gv :
  (returned (snd (generate_demand math_exp fuel _inData _params avg_speed g)) = true ->
   List.length (passengers (fst (generate_demand math_exp fuel _inData _params
                                   avg_speed g))) = nP _params /\
   List.length (requests (fst (generate_demand math_exp fuel _inData _params
                                 avg_speed g))) = nP _params) /\
  (forall vehs,
     result (generate_vehicles _inData n gv) = Some vehs ->
     List.length vehs = n).
Proof.
  split.
  - intros H. apply generate_demand_requests in H.
    destruct H as (df & pre & Hfin & HnP & Hpre & Hpas & _).
    split; [congruence |].
    rewrite (finish_requests_length _ _ _ _ _ Hfin). congruence.
  - intros vehs. apply generate_vehicles_length.
Qed.

(** C6. Temporal ordering: in the request table that [generate_demand]
    produces, the request times of two consecutive rows do not decrease. *)
Theorem generate_demand_sorted_by_treq fuel _inData _params avg_speed g :
  returned (snd (generate_demand math_exp fuel _inData _params avg_speed g)) = true ->
  forall i r1 r2,
    nth_error (requests (fst (generate_demand math_exp fuel _inData _params
                                avg_speed g))) i = Some r1 ->
    nth_error (requests (fst (generate_demand math_exp fuel _inData _params
                                avg_speed g))) (S i) = Some r2 ->
    exists t1 t2, treq r1 = Some t1 /\ treq r2 = Some t2 /\ (t1 <= t2)%Z.
Proof.
  intros H i r1 r2 H1 H2. apply generate_demand_requests in H.
  destruct H as (df & pre & Hfin & _ & _ & _ & _ & _ & Htreq).
  assert (Hhas : forall r', In r' (requests (fst (generate_demand math_exp fuel
                   _inData _params avg_speed g))) -> has_treq r').
  { intros r' Hr'.
    destruct (finish_requests_In _ _ _ _ _ _ Hfin Hr')
    as (r & m & Hr & Htimed & Htrip & _).
    destruct Htrip as (_ & _ & Ht & _). rewrite (timed_treq _ _ _ _ Htimed) in Ht.
    rewrite Forall_forall in Htreq. destruct (Htreq r Hr) as [t Hrt].
    exists t. congruence. }
  destruct (Hhas r1 (nth_error_In _ _ H1)) as [t1 Ht1].
  destruct (Hhas r2 (nth_error_In _ _ H2)) as [t2 Ht2].
  exists t1, t2. split; [exact Ht1 |]. split; [exact Ht2 |].
  pose proof (Sorted_consecutive _ _ (finish_requests_sorted _ _ _ _ _ Hfin) _ _ _ H1 H2)
    as Hle.
  unfold treq_order, treq_le in Hle. rewrite Ht1, Ht2 in Hle.
  apply Z.leb_le, Hle.
Qed.

(** C7. Arrival consistency: in every row of the request table that
    [generate_demand] produces, the arrival time is the request time plus the
    travel time.  The request time is always set; the travel time, and with
    it the arrival time, is set for every row whose distance is a number,
    provided, when [avg_speed] is asked for, that the distance is not
    negative, the speed factor is positive, and the quotient stays within the
    range of a timedelta (distance plus one second at most 9 000 000 000
    times the speed).  A row with a missing distance, or with a quotient that
    is not finite, has [NaT] in both. *)
Theorem generate_demand_tarr fuel _inData _params avg_speed g :
  returned (snd (generate_demand math_exp fuel _inData _params avg_speed g)) = true ->
  Forall (fun r =>
            tarr r = time_add (treq r) (ttrav r) /\
            exists t, treq r = Some t /\
                      (forall v, ttrav r = Some v -> tarr r = Some (t + v)%Z) /\
                      (forall x,
                         dist r = Some x ->
                         (avg_speed = true ->
                          0 <= x /\ 0 < speeds_ride _params /\
                          x + 1 <= 9000000000 * speeds_ride _params) ->
                         exists v, ttrav r = Some v /\
                                   tarr r = Some (t + v)%Z))
         (requests (fst (generate_demand math_exp fuel _inData _params
                           avg_speed g))).
Proof.
  intros H. apply generate_demand_requests in H.
  destruct H as (df & pre & Hfin & _ & _ & _ & _ & _ & Htreq).
  apply Forall_forall. intros r' Hr'.
  destruct (finish_requests_In _ _ _ _ _ _ Hfin Hr')
    as (r & m & Hr & Htimed & Htrip & _).
  destruct Htrip as (_ & _ & Ht & Hv & Ha & Hd).
  rewrite (timed_tarr _ _ _ _ Htimed) in Ha. rewrite <- Ht, <- Hv in Ha.
  split; [exact Ha |].
  rewrite (timed_treq _ _ _ _ Htimed) in Ht.
  rewrite (timed_dist _ _ _ _ Htimed) in Hd.
  rewrite Forall_forall in Htreq. destruct (Htreq r Hr) as [t Hrt].
  assert (Hsum : forall v, ttrav r' = Some v -> tarr r' = Some (t + v)%Z).
  { intros v Hv'. rewrite Ha, Ht, Hrt, Hv'. reflexivity. }
  exists t. split; [congruence |]. split; [exact Hsum |].
  intros x Hx Hspeed. rewrite Hd in Hx.
  assert (Hset : exists v, ttrav m = Some v).
  { destruct avg_speed.
    - destruct (Hspeed eq_refl) as (Hx0 & Hk & Hb).
      destruct (timed_travel _ _ _ _ _ Htimed Hx Hx0) as [_ Hq].
      eexists. apply (Hq eq_refl Hk). apply seconds_bound; assumption.
    - eapply timed_travel_set; eassumption. }
  destruct Hset as [v Hset]. exists v. rewrite Hv.
  split; [exact Hset |]. apply Hsum. congruence.
Qed.

(** C3. Frame of one round of the rejection loop: a row whose distance is
    below the threshold (or missing) keeps its origin and its destination; a
    row at or above the threshold gets an origin drawn with the weights
    [p_origin] and a destination drawn with the weights [p_destination], both
    from the candidate nodes; the distance of every row is then the matrix
    entry at its origin and destination. *)
Theorem resample_round_frame sk thr distances reqs g reqs' :
  result (resample_round sk thr distances reqs g) = Some reqs' ->
  Forall2
    (fun r r' =>
       (forall x, dist r = Some x -> x < thr ->
                  origin r' = origin r /\ destination r' = destination r) /\
       (dist r = None ->
        origin r' = origin r /\ destination r' = destination r) /\
       (forall x, dist r = Some x -> thr <= x ->
          (exists o g1 g2,
              choice (origin_weights distances) g1 = Ok (o, g2) /\
              In o (map node distances) /\ origin r' = Some o) /\
          (exists d g1 g2,
              choice (destination_weights distances) g1 = Ok (d, g2) /\
              In d (map node distances) /\ destination r' = Some d)) /\
       request_dist sk r' = Ok (dist r'))
    reqs reqs'.
Proof.
  intros H. apply result_Some in H. destruct H as [g' H].
  apply resample_round_Ok in H.
  eapply Forall2_impl; [| exact H]. clear H.
  intros r r' (r1 & r2 & g1 & g1' & g2 & g2' & g3 & g3' & Ho & Hd & Hc).
  assert (Hloc : located sk r') by (eapply compute_dist_located; exact Hc).
  apply compute_dist_Ok in Hc. destruct Hc as (v & _ & ->).
  apply resample_origin_Ok in Ho. apply resample_destination_Ok in Hd.
  assert (Hfar1 : too_far thr r1 = too_far thr r).
  { destruct Ho as [[_ ->] | [_ (o & ? & ? & _ & ->)]]; reflexivity. }
  rewrite Hfar1 in Hd.
  assert (Hkeep : too_far thr r = false ->
                  origin (set_dist r2 v) = origin r /\
                  destination (set_dist r2 v) = destination r).
  { intros Hf. rewrite Hf in Ho, Hd.
    destruct Ho as [[_ ->] | [Hx _]]; [| discriminate].
    destruct Hd as [[_ ->] | [Hx _]]; [| discriminate].
    split; reflexivity. }
  split; [| split; [| split]].
  - intros x Hx Hlt. apply Hkeep. eapply below_not_too_far; eassumption.
  - intros Hx. apply Hkeep. unfold too_far. rewrite Hx. reflexivity.
  - intros x Hx Hle.
    assert (Hf : too_far thr r = true).
    { apply too_far_true. exists x. auto. }
    rewrite Hf in Ho, Hd.
    destruct Ho as [[Hx' _] | [_ (o & ga & gb & Hco & ->)]]; [discriminate |].
    destruct Hd as [[Hx' _] | [_ (d & gc & gd & Hcd & ->)]]; [discriminate |].
    split.
    + exists o, ga, gb. split; [exact Hco |]. split; [| reflexivity].
      rewrite <- origin_weights_nodes. eapply choice_In, Hco.
    + exists d, gc, gd. split; [exact Hcd |]. split; [| reflexivity].
      rewrite <- destination_weights_nodes. eapply choice_In, Hcd.
  - exact Hloc.
Qed.

(** The loop runs a round exactly when some row is at or above the
    threshold. *)
Lemma resample_loop_unfold fuel sk thr distances reqs :
  resample_loop (S fuel) sk thr distances reqs =
  if existsb (too_far thr) reqs
  then bind (resample_round sk thr distances reqs)
            (resample_loop fuel sk thr distances)
  else ret reqs.
Proof. reflexivity. Qed.

End Claims.

(** ** Whole seconds and unit variates *)

Lemma unit_part_range q : 0 <= unit_part q /\ unit_part q < 1.
Proof.
  unfold unit_part.
  pose proof (Qfloor_le q) as Hlo. pose proof (Qlt_floor q) as Hhi.
  rewrite inject_Z_plus in Hhi. change (inject_Z 1) with 1 in Hhi.
  split; lra.
Qed.

Lemma scaled_index_lt u (n : nat) :
  0 <= u -> u < 1 -> (0 < n)%nat ->
  (Z.to_nat (Qfloor (u * inject_Z (Z.of_nat n))) < n)%nat.
Proof.
  intros H0 H1 Hn.
  set (x := u * inject_Z (Z.of_nat n)).
  assert (Hn' : 0 < inject_Z (Z.of_nat n)).
  { rewrite <- (Zlt_Qlt 0). lia. }
  assert (Hx0 : 0 <= x) by (apply Qmult_le_0_compat; [exact H0 | apply Qlt_le_weak, Hn']).
  assert (Hx1 : x < inject_Z (Z.of_nat n)).
  { unfold x. rewrite <- (Qmult_1_l (inject_Z (Z.of_nat n))) at 2.
    apply Qmult_lt_compat_r; assumption. }
  assert (Hf0 : (0 <= Qfloor x)%Z).
  { change 0%Z with (Qfloor 0). apply Qfloor_resp_le, Hx0. }
  assert (Hf1 : (Qfloor x < Z.of_nat n)%Z).
  { rewrite Zlt_Qlt. eapply Qle_lt_trans; [apply Qfloor_le | exact Hx1]. }
  lia.
Qed.

(** ** Sampling without replacement *)

Lemma random_sample_run g :
  random_sample g = Ok (unit_part (g 0%nat), fun n => g (S n)).
Proof. reflexivity. Qed.

Lemma remove_nth_length {A : Type} (l : list A) :
  forall i, (i < List.length l)%nat ->
            List.length (remove_nth i l) = (List.length l - 1)%nat.
Proof.
  induction l as [| x l IH]; intros [| i] Hi; simpl in *; try lia.
  rewrite IH by lia. lia.
Qed.

Lemma remove_nth_incl {A : Type} (l : list A) :
  forall i x, In x (remove_nth i l) -> In x l.
Proof.
  induction l as [| y l IH]; intros [| i] x H; simpl in *;
    try contradiction.
  - right. exact H.
  - destruct H as [-> | H]; [left; reflexivity | right; eapply IH, H].
Qed.

Lemma remove_nth_NoDup {A : Type} (l : list A) :
  forall i, NoDup l -> NoDup (remove_nth i l).
Proof.
  induction l as [| y l IH]; intros [| i] H; simpl; try constructor;
    inversion H as [| ? ? Hy Hl]; subst.
  - exact Hl.
  - intros Hin. apply Hy. eapply remove_nth_incl, Hin.
  - apply IH, Hl.
Qed.

Lemma remove_nth_drops {A : Type} (l : list A) :
  forall i x, NoDup l -> nth_error l i = Some x -> ~ In x (remove_nth i l).
Proof.
  induction l as [| y l IH]; intros i x Hnd Hnth; [destruct i; discriminate |].
  inversion Hnd as [| ? ? Hy Hl]; subst.
  destruct i as [| i]; simpl in *.
  - inversion Hnth; subst. exact Hy.
  - intros [-> | Hin].
    + apply Hy. eapply nth_error_In, Hnth.
    + exact (IH _ _ Hl Hnth Hin).
Qed.

Lemma draw_distinct_Ok n :
  forall pool g l g',
    draw_distinct n pool g = Ok (l, g') ->
    List.length l = n /\ (forall x, In x l -> In x pool) /\
    (NoDup pool -> NoDup l).
Proof.
  induction n as [| n IH]; intros pool g l g' H; cbn [draw_distinct] in H.
  - run_end H. split; [reflexivity |].
    split; [intros x [] | intros _; constructor].
  - run_bind H as u g1 Hu.
    destruct (nth_error pool
                (Z.to_nat (Qfloor (u * inject_Z (Z.of_nat (List.length pool))))))
      as [x |] eqn:E; [| run_end H].
    run_bind H as rest g2 Hrest. run_end H.
    destruct (IH _ _ _ _ Hrest) as (Hlen & Hin & Hnd).
    split; [simpl; congruence |]. split.
    + intros y [<- | Hy]; [eapply nth_error_In, E |].
      eapply remove_nth_incl, Hin, Hy.
    + intros Hpool. constructor.
      * intros Hx. apply Hin in Hx. exact (remove_nth_drops _ _ _ Hpool E Hx).
      * apply Hnd, remove_nth_NoDup, Hpool.
Qed.

Lemma draw_distinct_total n :
  forall pool g, (n <= List.length pool)%nat ->
                 exists l g', draw_distinct n pool g = Ok (l, g').
Proof.
  induction n as [| n IH]; intros pool g Hn; cbn [draw_distinct].
  - exists [], g. reflexivity.
  - unfold bind at 1. rewrite random_sample_run.
    destruct (unit_part_range (g 0%nat)) as [H0 H1].
    pose proof (scaled_index_lt _ (List.length pool) H0 H1 ltac:(lia)) as Hi.
    destruct (nth_error pool
                (Z.to_nat (Qfloor (unit_part (g 0%nat)
                                   * inject_Z (Z.of_nat (List.length pool))))))
      as [x |] eqn:E.
    + destruct (IH (remove_nth
                      (Z.to_nat (Qfloor (unit_part (g 0%nat)
                                   * inject_Z (Z.of_nat (List.length pool)))))
                      pool) (fun k => g (S k))) as (l & g' & Hl).
      { rewrite remove_nth_length by exact Hi. lia. }
      exists (x :: l), g'. unfold bind. rewrite Hl. reflexivity.
    + apply nth_error_None in E. lia.
Qed.

Lemma init_passengers_total _inData _params g :
  (nP _params <= List.length (nodes _inData))%nat ->
  exists df g', init_passengers _inData _params g = Ok (df, g').
Proof.
  intros Hn. unfold init_passengers, sample.
  destruct (Nat.ltb_spec (List.length (nodes _inData)) (nP _params)); [lia |].
  destruct (draw_distinct_total (nP _params) (nodes _inData) g Hn)
    as (l & g' & Hl).
  unfold bind. rewrite Hl.
  pose proof Hl as Hlen. apply draw_distinct_Ok in Hlen.
  destruct Hlen as (Hlen & _).
  unfold assign. rewrite !length_map, range_length, Nat.sub_0_r, Hlen.
  rewrite Nat.eqb_refl. simpl. eexists. eexists. reflexivity.
Qed.

Lemma init_passengers_too_many _inData _params g :
  (List.length (nodes _inData) < nP _params)%nat ->
  init_passengers _inData _params g =
  Raise (ValueError
           "Cannot take a larger sample than population when 'replace=False'").
Proof.
  intros Hn. unfold init_passengers, sample.
  destruct (Nat.ltb_spec (List.length (nodes _inData)) (nP _params)); [| lia].
  reflexivity.
Qed.

(** ** The request times *)

Lemma replicateM_total {A : Type} (m : Rand A) :
  (forall g, exists a g', m g = Ok (a, g')) ->
  forall n g, exists l g',
    replicateM n m g = Ok (l, g') /\ List.length l = n.
Proof.
  intros Hm. induction n as [| n IH]; intros g; simpl.
  - exists [], g. split; reflexivity.
  - destruct (Hm g) as (a & g1 & Ha). destruct (IH g1) as (l & g2 & Hl & Hlen).
    exists (a :: l), g2. unfold bind. rewrite Ha, Hl.
    split; [reflexivity | simpl; congruence].
Qed.

(** [draw_treq] gives the times for the two known distributions, nothing
    for any other, and refuses a negative scale. *)
Lemma draw_treq_run _params g :
  match draw_treq _params g with
  | Ok (Some l, _) =>
      List.length l = nP _params /\
      (temporal_distribution _params = "uniform" \/
       temporal_distribution _params = "normal")
  | Ok (None, _) =>
      temporal_distribution _params <> "uniform" /\
      temporal_distribution _params <> "normal"
  | Raise e =>
      temporal_distribution _params = "normal" /\
      e = ValueError "scale < 0"
  | Diverge => False
  end.
Proof.
  unfold draw_treq.
  destruct (String.eqb_spec (temporal_distribution _params) "uniform") as [Eu | Eu].
  - match goal with |- context [replicateM ?n ?m] =>
      destruct (replicateM_total m
                  ltac:(intros g0; eexists; eexists; reflexivity) n g)
        as (l & g' & Hl & Hlen) end.
    unfold bind at 1. rewrite Hl. simpl. auto.
  - destruct (String.eqb_spec (temporal_distribution _params) "normal") as [En | En].
    + destruct (Qltb (temporal_dispertion _params * simTime _params * 60 * 60 / 2) 0).
      * simpl. auto.
      * match goal with |- context [replicateM ?n ?m] =>
          destruct (replicateM_total m
                      ltac:(intros g0; eexists; eexists; reflexivity) n g)
            as (l & g' & Hl & Hlen) end.
        unfold bind at 1. rewrite Hl. simpl. auto.
    + simpl. auto.
Qed.

Lemma bind_run_Ok {A B : Type} (m : Rand A) (k : A -> Rand B) g a g1 :
  m g = Ok (a, g1) -> bind m k g = k a g1.
Proof. unfold bind. intros ->. reflexivity. Qed.

Lemma bind_run_Raise {A B : Type} (m : Rand A) (k : A -> Rand B) g e :
  m g = Raise e -> bind m k g = Raise e.
Proof. unfold bind. intros ->. reflexivity. Qed.

Lemma lift_assign_defined {R V : Type} (set : R -> V -> R) rows vals g :
  List.length vals = List.length rows ->
  lift (assign set rows vals) g
  = Ok (map (fun rv => set (fst rv) (snd rv)) (combine rows vals), g).
Proof.
  intros H. unfold lift, assign. rewrite H, Nat.eqb_refl. reflexivity.
Qed.


(** ** The candidate set *)

Lemma each_Raise {A B : Type} (f : A -> outcome B) l e :
  each f l = Raise e -> exists a, In a l /\ f a = Raise e.
Proof.
  induction l as [| a l IH]; simpl; [discriminate |].
  destruct (f a) as [b | e' |] eqn:Ea; try discriminate.
  - destruct (each f l) as [bs | e' |]; try discriminate.
    intros H. destruct (IH H) as (a' & Ha' & Hf).
    exists a'. split; [right |]; assumption.
  - intros H. inversion H. subst e'. exists a. split; [left |]; auto.
Qed.

Lemma each_Diverge {A B : Type} (f : A -> outcome B) l :
  each f l = Diverge -> exists a, In a l /\ f a = Diverge.
Proof.
  induction l as [| a l IH]; simpl; [discriminate |].
  destruct (f a) as [b | e' |] eqn:Ea; try discriminate.
  - destruct (each f l) as [bs | e' |]; try discriminate.
    intros _. destruct (IH eq_refl) as (a' & Ha' & Hf).
    exists a'. split; [right |]; assumption.
  - intros _. exists a. split; [left |]; auto.
Qed.

Lemma dropna_In r x (s : list (Z * option Q)) :
  In (r, Some x) s <-> In (r, x) (dropna s).
Proof.
  induction s as [| [a [v |]] s IH]; simpl; [tauto | |].
  - rewrite <- IH. split; intros [H | H]; auto; left; congruence.
  - rewrite <- IH. split; [intros [H | H]; [discriminate | exact H] | auto].
Qed.

Lemma near_center_In _inData _params r x :
  In (r, x) (near_center _inData _params) <->
  In r (index (skim _inData)) /\
  cell (skim _inData) r (center (stats _inData)) = Some x /\
  x < dist_threshold _params.
Proof.
  unfold near_center. rewrite filter_In, <- dropna_In, in_map_iff. simpl.
  assert (Hlt : Qltb x (dist_threshold _params) = true
                <-> x < dist_threshold _params).
  { unfold Qltb. rewrite negb_true_iff. split.
    - intros H. apply Qnot_le_lt. intros Hle. apply Qle_bool_iff in Hle.
      congruence.
    - intros H. destruct (Qle_bool (dist_threshold _params) x) eqn:E;
        [| reflexivity].
      apply Qle_bool_iff in E. exfalso. exact (Qlt_not_le _ _ H E). }
  rewrite Hlt. split.
  - intros [(r0 & E & Hr) H]. inversion E. subst. auto.
  - intros (Hr & Hc & H). split; [| exact H]. exists r. rewrite Hc. auto.
Qed.

Section Candidates.

Variable math_exp : Q -> option Q.

Lemma exp_of_Ok x v : exp_of math_exp x = Ok v <-> math_exp x = Some v.
Proof.
  unfold exp_of. destruct (math_exp x); split; intros H; inversion H;
    reflexivity.
Qed.

Lemma exp_of_Raise x e :
  exp_of math_exp x = Raise e ->
  math_exp x = None /\ e = OverflowError "math range error".
Proof.
  unfold exp_of. destruct (math_exp x); intros H; inversion H. auto.
Qed.

Lemma exp_of_Diverge x : exp_of math_exp x <> Diverge.
Proof. unfold exp_of. destruct (math_exp x); discriminate. Qed.

Lemma candidate_set_eq _inData _params :
  candidate_set math_exp _inData _params
  = if mem (center (stats _inData)) (columns (skim _inData))
    then match each (with_p_origin math_exp _params)
                 (near_center _inData _params) with
         | Ok rows => each (with_p_destination math_exp _params) rows
         | Raise e => Raise e
         | Diverge => Diverge
         end
    else Raise (KeyError "column not found").
Proof.
  unfold candidate_set, column, near_center.
  destruct (mem (center (stats _inData)) (columns (skim _inData)));
    reflexivity.
Qed.

(** What [candidate_set] answers: the nodes near the center, each with its
    distance and the two weights that [math.exp] gives. *)
Lemma candidate_set_inv _inData _params distances :
  candidate_set math_exp _inData _params = Ok distances ->
  mem (center (stats _inData)) (columns (skim _inData)) = true /\
  Forall2 (fun nd c =>
             node c = fst nd /\ distance c = snd nd /\
             math_exp (origins_dispertion _params * snd nd)
             = Some (p_origin c) /\
             math_exp (destinations_dispertion _params * snd nd)
             = Some (p_destination c))
          (near_center _inData _params) distances.
Proof.
  rewrite candidate_set_eq.
  destruct (mem (center (stats _inData)) (columns (skim _inData)));
    [| discriminate].
  destruct (each (with_p_origin math_exp _params) (near_center _inData _params))
    as [rows | |] eqn:E1; try discriminate.
  intros E2. split; [reflexivity |].
  apply each_Ok in E1. apply each_Ok in E2.
  pose proof (Forall2_compose _ _ _ _ _ E1 E2) as H.
  eapply Forall2_impl; [| exact H].
  intros nd c (row & H1 & H2). cbv beta in H1, H2.
  unfold with_p_origin in H1. unfold with_p_destination in H2.
  destruct (exp_of math_exp (origins_dispertion _params * snd nd))
    as [w | |] eqn:Ew; try discriminate.
  inversion H1. subst row. simpl in H2.
  destruct (exp_of math_exp (destinations_dispertion _params * snd nd))
    as [w' | |] eqn:Ew'; try discriminate.
  inversion H2. simpl.
  apply exp_of_Ok in Ew. apply exp_of_Ok in Ew'. auto.
Qed.

Lemma candidate_set_nodes _inData _params distances :
  candidate_set math_exp _inData _params = Ok distances ->
  map node distances = map fst (near_center _inData _params).
Proof.
  intros H. apply candidate_set_inv in H. destruct H as [_ H].
  induction H as [| nd c l l' (Hn & _) _ IH]; simpl; [reflexivity |].
  rewrite Hn, IH. reflexivity.
Qed.

(** How [candidate_set] fails: the center is no column of the matrix, or
    [math.exp] overflows on a node near the center. *)
Lemma candidate_set_Raise _inData _params e :
  candidate_set math_exp _inData _params = Raise e ->
  (mem (center (stats _inData)) (columns (skim _inData)) = false /\
   e = KeyError "column not found") \/
  (mem (center (stats _inData)) (columns (skim _inData)) = true /\
   e = OverflowError "math range error" /\
   ~ weights_defined math_exp _inData _params).
Proof.
  rewrite candidate_set_eq.
  destruct (mem (center (stats _inData)) (columns (skim _inData)));
    [| intros H; inversion H; left; auto].
  intros H. right. split; [reflexivity |].
  destruct (each (with_p_origin math_exp _params) (near_center _inData _params))
    as [rows | e' |] eqn:E1; try discriminate.
  - pose proof (each_Ok _ _ _ E1) as F.
    apply each_Raise in H. destruct H as (row & Hrow & Hf).
    destruct (Forall2_In_l _ _ _ F row Hrow) as ([r x] & Hnd & Hw).
    cbv beta in Hw. unfold with_p_origin in Hw.
    destruct (exp_of math_exp (origins_dispertion _params * snd (r, x)));
      try discriminate.
    inversion Hw. subst row. clear Hw.
    unfold with_p_destination in Hf. simpl in Hf.
    destruct (exp_of math_exp (destinations_dispertion _params * x))
      as [w | e1 |] eqn:Ew; try discriminate.
    inversion Hf. subst e1. apply exp_of_Raise in Ew. destruct Ew as [En ->].
    split; [reflexivity |]. intros Hdef.
    apply near_center_In in Hnd. destruct Hnd as (Hr & Hc & Hlt).
    destruct (Hdef r x Hr Hc Hlt) as [_ Hd]. exact (Hd En).
  - inversion H. subst e'. clear H.
    apply each_Raise in E1. destruct E1 as ([r x] & Hnd & Hf).
    unfold with_p_origin in Hf. simpl in Hf.
    destruct (exp_of math_exp (origins_dispertion _params * x))
      as [w | e1 |] eqn:Ew; try discriminate.
    inversion Hf. subst e1. apply exp_of_Raise in Ew. destruct Ew as [En ->].
    split; [reflexivity |]. intros Hdef.
    apply near_center_In in Hnd. destruct Hnd as (Hr & Hc & Hlt).
    destruct (Hdef r x Hr Hc Hlt) as [Ho _]. exact (Ho En).
Qed.

Lemma candidate_set_returns_or_raises _inData _params :
  candidate_set math_exp _inData _params <> Diverge.
Proof.
  rewrite candidate_set_eq.
  destruct (mem (center (stats _inData)) (columns (skim _inData)));
    [| discriminate].
  destruct (each (with_p_origin math_exp _params) _) as [rows | e' |] eqn:E1;
    try discriminate.
  - intros H. apply each_Diverge in H. destruct H as (row & _ & H).
    unfold with_p_destination in H.
    destruct (exp_of math_exp _) eqn:E; try discriminate.
    exact (exp_of_Diverge _ E).
  - exfalso. apply each_Diverge in E1. destruct E1 as (nd & _ & H).
    unfold with_p_origin in H.
    destruct (exp_of math_exp _) eqn:E; try discriminate.
    exact (exp_of_Diverge _ E).
Qed.

(** With the center a column and [math.exp] answering, the candidate set is
    made. *)
Lemma candidate_set_defined _inData _params :
  mem (center (stats _inData)) (columns (skim _inData)) = true ->
  weights_defined math_exp _inData _params ->
  exists distances, candidate_set math_exp _inData _params = Ok distances.
Proof.
  intros Hc Hdef.
  destruct (candidate_set math_exp _inData _params) as [l | e |] eqn:E.
  - exists l. reflexivity.
  - exfalso. apply candidate_set_Raise in E.
    destruct E as [[E _] | (_ & _ & E)]; [congruence | exact (E Hdef)].
  - exfalso. exact (candidate_set_returns_or_raises _ _ E).
Qed.

End Candidates.

Section Raising.

Variable math_exp : Q -> option Q.

Lemma generate_demand_failed fuel _inData _params avg_speed g :
  returned (snd (generate_demand math_exp fuel _inData _params avg_speed g)) = false ->
  requests (fst (generate_demand math_exp fuel _inData _params avg_speed g))
  = requests _inData.
Proof.
  unfold generate_demand.
  destruct (init_passengers _inData _params g) as [[df g1] | e |];
    try reflexivity.
  destruct (build_requests math_exp fuel (set_passengers _inData df) _params
              avg_speed df g1) as [[reqs g2] | e |]; simpl;
    try reflexivity; discriminate.
Qed.



End Raising.

Lemma NoDup_map_Some {A : Type} (l : list A) :
  NoDup l -> NoDup (map Some l).
Proof.
  induction 1 as [| x l Hx _ IH]; simpl; constructor; [| exact IH].
  intros Hin. apply in_map_iff in Hin. destruct Hin as (y & Hy & Hin).
  inversion Hy; subst. exact (Hx Hin).
Qed.

(** Where dividing the floored distance and dividing the distance agree: a
    speed that is a whole positive number. *)
Lemma ttrav_whole_speed x (s : positive) :
  Qfloor (inject_Z (Qfloor x) / inject_Z (Zpos s))
  = Qfloor (x / inject_Z (Zpos s)).
Proof. rewrite <- Zdiv_Qdiv. apply Qfloor_div_pos. Qed.

Section Failing.

Variable math_exp : Q -> option Q.

(** C4, as amended. Travel time.  The distance is first made a timedelta:
    it is rounded to the nearest nanosecond and floored to whole seconds,
    which for a distance [x >= 0] are [floor (x + 0.5 ns)] seconds.  Without
    [avg_speed] these are the travel time.  With [avg_speed] the whole
    seconds are divided by [speeds.ride] and floored again:
    [floor (floor (x + 0.5 ns) / speed)], for a positive speed factor and a
    quotient that float64 takes exactly.  A row with a missing distance has
    no travel time.  The distance is taken clear of the edge where its
    rounding to nanoseconds turns the second. *)
Theorem generate_demand_ttrav fuel _inData _params avg_speed g :
  returned (snd (generate_demand math_exp fuel _inData _params avg_speed g)) = true ->
  Forall (fun r =>
            (dist r = None -> ttrav r = None) /\
            forall x, dist r = Some x -> 0 <= x -> clear_of_edge x ->
              (avg_speed = false -> ttrav r = Some (Qfloor (x + half_ns))) /\
              (avg_speed = true ->
               exact_quotient (Qfloor (x + half_ns)) (speeds_ride _params) ->
               ttrav r =
               Some (Qfloor (inject_Z (Qfloor (x + half_ns))
                             / speeds_ride _params))))
         (requests (fst (generate_demand math_exp fuel _inData _params
                           avg_speed g))).
Proof.
  intros H. apply generate_demand_requests in H.
  destruct H as (df & pre & Hfin & _).
  apply Forall_forall. intros r' Hr'.
  destruct (finish_requests_In _ _ _ _ _ _ Hfin Hr')
    as (r & m & Hr & Htimed & Htrip & _).
  destruct Htrip as (_ & _ & _ & Hv & _ & Hd).
  rewrite (timed_dist _ _ _ _ Htimed) in Hd. rewrite Hv, Hd. split.
  - apply (timed_travel_missing _ _ _ _ Htimed).
  - intros x Hx Hx0 _.
    destruct (timed_travel _ _ _ _ _ Htimed Hx Hx0) as [Hplain Hspeed].
    split; [exact Hplain |].
    intros Havg Hex. apply (Hspeed Havg (proj1 Hex)).
    apply exact_quotient_small; [apply seconds_nonneg, Hx0 | exact Hex].
Qed.

(** C10. The first positions of the passengers are drawn without
    replacement: a call with more passengers than nodes fails at once, with
    [_inData] as it was; with at most as many the draw succeeds, and its
    [nP] positions are nodes that differ from each other when the node ids
    do. *)
Theorem initial_positions_without_replacement fuel _inData _params avg_speed g :
  ((List.length (nodes _inData) < nP _params)%nat ->
   generate_demand math_exp fuel _inData _params avg_speed g
   = (_inData,
      Raise (ValueError
        "Cannot take a larger sample than population when 'replace=False'"))) /\
  ((nP _params <= List.length (nodes _inData))%nat ->
   exists df g1, init_passengers _inData _params g = Ok (df, g1)) /\
  (forall df,
     NoDup (nodes _inData) ->
     result (init_passengers _inData _params g) = Some df ->
     List.length df = nP _params /\
     NoDup (map pos df) /\
     Forall (fun q => exists n, q = Some n /\ In n (nodes _inData))
            (map pos df)).
Proof.
  split; [| split].
  - intros Hn. unfold generate_demand.
    rewrite (init_passengers_too_many _ _ g Hn). reflexivity.
  - apply init_passengers_total.
  - intros df Hnd H. apply result_Some in H. destruct H as [g' H].
    apply init_passengers_Ok in H. destruct H as (drawn & Hs & Hpos & Hlen).
    unfold sample in Hs.
    destruct (Nat.ltb (List.length (nodes _inData)) (nP _params));
      [run_end Hs |].
    apply draw_distinct_Ok in Hs. destruct Hs as (_ & Hin & Hdis).
    split; [exact Hlen |]. rewrite Hpos. split.
    + apply NoDup_map_Some, Hdis, Hnd.
    + apply Forall_forall. intros q Hq. apply in_map_iff in Hq.
      destruct Hq as (n & <- & Hn). exists n. split; [reflexivity | auto].
Qed.

Lemma build_requests_unknown_distribution fuel _inData _params avg_speed df g :
  temporal_distribution _params <> "uniform" ->
  temporal_distribution _params <> "normal" ->
  (exists e, build_requests math_exp fuel _inData _params avg_speed df g
             = Raise e) /\
  (mem (center (stats _inData)) (columns (skim _inData)) = true ->
   weights_defined math_exp _inData _params ->
   build_requests math_exp fuel _inData _params avg_speed df g
   = Raise (TypeError "'NoneType' object is not iterable")) /\
  (mem (center (stats _inData)) (columns (skim _inData)) = true ->
   ~ weights_defined math_exp _inData _params ->
   build_requests math_exp fuel _inData _params avg_speed df g
   = Raise (OverflowError "math range error")).
Proof.
  intros Hu Hn. unfold build_requests.
  destruct (candidate_set math_exp _inData _params) as [c | e |] eqn:Ec.
  - erewrite bind_run_Ok by reflexivity.
    pose proof (draw_treq_run _params g) as Ht.
    destruct (draw_treq _params g) as [[[l |] g1] | e |] eqn:Et;
      try contradiction.
    + destruct Ht as [_ [H | H]]; contradiction.
    + erewrite bind_run_Ok by exact Et.
      erewrite bind_run_Raise by reflexivity.
      split; [eexists; reflexivity |].
      split; [intros _ _; reflexivity |].
      intros _ Hnd. exfalso. apply Hnd. intros r x Hr Hx Hlt.
      apply candidate_set_inv in Ec. destruct Ec as [_ F].
      assert (Hin : In (r, x) (near_center _inData _params))
        by (apply near_center_In; auto).
      clear -F Hin. induction F as [| nd c0 l0 l' (_ & _ & Ho & Hd) _ IH];
        [contradiction |].
      destruct Hin as [-> | Hin]; [| exact (IH Hin)].
      simpl in Ho, Hd. rewrite Ho, Hd. split; discriminate.
    + destruct Ht as [H _]. contradiction.
  - erewrite bind_run_Raise by reflexivity.
    split; [eexists; reflexivity |].
    apply candidate_set_Raise in Ec.
    destruct Ec as [[Ec _] | (_ & -> & Ec)].
    + split; intros Hc; congruence.
    + split; [intros _ Hd; contradiction | intros _ _; reflexivity].
  - exfalso. exact (candidate_set_returns_or_raises _ _ _ Ec).
Qed.

(** C8, as amended. A temporal distribution that is neither [uniform] nor
    [normal] makes [generate_demand] raise: no request table is produced and
    [_inData.requests] is as before.  When the passengers could be drawn and
    the center is a column of the matrix (whose column labels are unique),
    [_inData.passengers] is already the fresh table of [nP] rows, and the
    exception is the [TypeError] of iterating over [None] unless [math.exp]
    overflowed on a weight before, which gives its [OverflowError]. *)
Theorem unknown_temporal_distribution_raises fuel _inData _params avg_speed g :
  temporal_distribution _params <> "uniform" ->
  temporal_distribution _params <> "normal" ->
  (exists e,
      snd (generate_demand math_exp fuel _inData _params avg_speed g)
      = Raise e) /\
  requests (fst (generate_demand math_exp fuel _inData _params avg_speed g))
  = requests _inData /\
  ((nP _params <= List.length (nodes _inData))%nat ->
   mem (center (stats _inData)) (columns (skim _inData)) = true ->
   NoDup (columns (skim _inData)) ->
   List.length
     (passengers (fst (generate_demand math_exp fuel _inData _params
                         avg_speed g))) = nP _params /\
   (weights_defined math_exp _inData _params ->
    snd (generate_demand math_exp fuel _inData _params avg_speed g)
    = Raise (TypeError "'NoneType' object is not iterable")) /\
   (~ weights_defined math_exp _inData _params ->
    snd (generate_demand math_exp fuel _inData _params avg_speed g)
    = Raise (OverflowError "math range error"))).
Proof.
  intros Hu Hn.
  assert (Hraise : exists e,
             snd (generate_demand math_exp fuel _inData _params avg_speed g)
             = Raise e).
  { unfold generate_demand.
    destruct (init_passengers _inData _params g) as [[df g1] | e |] eqn:Ei.
    - destruct (build_requests_unknown_distribution fuel
                  (set_passengers _inData df) _params avg_speed df g1 Hu Hn)
        as [[e He] _].
      rewrite He. exists e. reflexivity.
    - exists e. reflexivity.
    - exfalso. destruct (Nat.le_gt_cases (nP _params) (List.length (nodes _inData)))
        as [Hle | Hgt].
      + destruct (init_passengers_total _inData _params g Hle) as (? & ? & E).
        congruence.
      + rewrite (init_passengers_too_many _ _ g Hgt) in Ei. discriminate. }
  split; [exact Hraise |]. split.
  - apply generate_demand_failed. destruct Hraise as [e ->]. reflexivity.
  - intros Hle Hc _. unfold generate_demand.
    destruct (init_passengers_total _inData _params g Hle) as (df & g1 & Ei).
    rewrite Ei.
    destruct (build_requests_unknown_distribution fuel
                (set_passengers _inData df) _params avg_speed df g1 Hu Hn)
      as (_ & Hty & Hov).
    apply init_passengers_Ok in Ei. destruct Ei as (_ & _ & _ & Hlen).
    split; [| split].
    + destruct (build_requests math_exp fuel (set_passengers _inData df)
                  _params avg_speed df g1) as [[reqs g2] | e |];
        simpl; rewrite ?length_map; exact Hlen.
    + intros Hdef. rewrite (Hty Hc Hdef). reflexivity.
    + intros Hdef. rewrite (Hov Hc Hdef). reflexivity.
Qed.


End Failing.

(** ** The bound on the loop does not show in a result *)

Lemma resample_loop_more_fuel fuel sk thr distances :
  forall reqs g out,
    resample_loop fuel sk thr distances reqs g = Ok out ->
    forall k, resample_loop (fuel + k) sk thr distances reqs g = Ok out.
Proof.
  induction fuel as [| fuel IH]; intros reqs g [out g'] H k.
  - simpl in H. destruct (existsb (too_far thr) reqs) eqn:E; [discriminate |].
    destruct k as [| k]; simpl; rewrite E; exact H.
  - simpl in H. simpl. destruct (existsb (too_far thr) reqs); [| exact H].
    run_bind H as mid g1 Hmid.
    erewrite bind_run_Ok by exact Hmid. apply IH. exact H.
Qed.

Section Fuel.

Variable math_exp : Q -> option Q.

Lemma build_requests_more_fuel fuel _inData _params avg_speed df g out :
  build_requests math_exp fuel _inData _params avg_speed df g = Ok out ->
  forall k,
    build_requests math_exp (fuel + k) _inData _params avg_speed df g = Ok out.
Proof.
  destruct out as [out g']. unfold build_requests. intros H k.
  run_bind H as distances g1 H1. erewrite bind_run_Ok by exact H1.
  run_bind H as times g2 H2. erewrite bind_run_Ok by exact H2.
  run_bind H as stamps g3 H3. erewrite bind_run_Ok by exact H3.
  run_bind H as reqs1 g4 H4. erewrite bind_run_Ok by exact H4.
  run_bind H as origins g5 H5. erewrite bind_run_Ok by exact H5.
  run_bind H as reqs2 g6 H6. erewrite bind_run_Ok by exact H6.
  run_bind H as destinations g7 H7. erewrite bind_run_Ok by exact H7.
  run_bind H as reqs3 g8 H8. erewrite bind_run_Ok by exact H8.
  run_bind H as reqs4 g9 H9. erewrite bind_run_Ok by exact H9.
  run_bind H as pre g10 H10.
  erewrite bind_run_Ok by (apply resample_loop_more_fuel; exact H10).
  exact H.
Qed.

(** A call that returns with [fuel] rounds allowed returns the same with
    more. *)
Lemma generate_demand_more_fuel fuel _inData _params avg_speed g k :
  returned (snd (generate_demand math_exp fuel _inData _params avg_speed g)) = true ->
  generate_demand math_exp (fuel + k) _inData _params avg_speed g
  = generate_demand math_exp fuel _inData _params avg_speed g.
Proof.
  unfold generate_demand.
  destruct (init_passengers _inData _params g) as [[df g1] | e |];
    try discriminate.
  destruct (build_requests math_exp fuel (set_passengers _inData df) _params
              avg_speed df g1) as [[reqs g2] | e |] eqn:E; try discriminate.
  intros _. rewrite (build_requests_more_fuel _ _ _ _ _ _ _ E k). reflexivity.
Qed.

End Fuel.

(** ** The vehicles *)

Lemma mapM_total {A B : Type} (f : A -> Rand B) :
  (forall a g, exists b g', f a g = Ok (b, g')) ->
  forall l g, exists l' g', mapM f l g = Ok (l', g').
Proof.
  intros Hf. induction l as [| a l IH]; intros g; simpl.
  - exists [], g. reflexivity.
  - destruct (Hf a g) as (b & g1 & Hb). destruct (IH g1) as (l' & g2 & Hl).
    exists (b :: l'), g2. unfold bind. rewrite Hb, Hl. reflexivity.
Qed.

Lemma random_choice_total df g :
  df <> [] -> exists n g', random_choice df g = Ok (n, g') /\ In n df.
Proof.
  intros Hne. unfold random_choice.
  destruct df as [| x df]; [contradiction |].
  erewrite bind_run_Ok by apply random_sample_run.
  destruct (unit_part_range (g 0%nat)) as [H0 H1].
  pose proof (scaled_index_lt _ (List.length (x :: df)) H0 H1
                ltac:(simpl; lia)) as Hi.
  destruct (nth_error (x :: df)
              (Z.to_nat (Qfloor (unit_part (g 0%nat)
                 * inject_Z (Z.of_nat (List.length (x :: df)))))))
    as [n |] eqn:E.
  - exists n. eexists. split; [reflexivity | eapply nth_error_In, E].
  - apply nth_error_None in E. lia.
Qed.

Lemma random_choice_Ok df g n g' :
  random_choice df g = Ok (n, g') -> In n df.
Proof.
  unfold random_choice. destruct df as [| x df]; [discriminate |].
  intros H. run_bind H as u g1 Hu.
  destruct (nth_error (x :: df)
              (Z.to_nat (Qfloor (u * inject_Z (Z.of_nat (List.length (x :: df)))))))
    as [y |] eqn:E; run_end H.
  eapply nth_error_In, E.
Qed.

Lemma random_choice_empty g :
  random_choice [] g
  = Raise (IndexError "Cannot choose from an empty sequence").
Proof. reflexivity. Qed.

(** On a table whose labels are unique [rand_node] answers a label. *)
Lemma rand_node_total df g :
  df <> [] -> NoDup df ->
  exists n g', rand_node df g = Ok (n, g') /\ In n df.
Proof.
  intros Hne Hnd. unfold rand_node.
  destruct (random_choice_total df g Hne) as (n & g' & Hn & Hin).
  exists n, g'. split; [| exact Hin].
  erewrite bind_run_Ok by exact Hn.
  rewrite NoDup_count_occ with (decA := Z.eq_dec) in Hnd.
  specialize (Hnd n).
  destruct (Nat.ltb_spec 1 (count_occ Z.eq_dec df n)); [lia | reflexivity].
Qed.

Lemma rand_node_Ok df g n g' :
  rand_node df g = Ok (n, g') ->
  In n df /\ count_occ Z.eq_dec df n = 1%nat.
Proof.
  unfold rand_node. intros H. run_bind H as label g1 Hl.
  apply random_choice_Ok in Hl.
  destruct (Nat.ltb_spec 1 (count_occ Z.eq_dec df label)); run_end H.
  split; [exact Hl |].
  apply (count_occ_In Z.eq_dec) in Hl. lia.
Qed.

Section Supply.

Variable math_exp : Q -> option Q.
Variable get_nearest_node : Graph -> Q * Q -> Z.

(** With at least one vehicle asked for and at least one node, the labels
    of the nodes being unique, [generate_vehicles] returns. *)
Lemma generate_vehicles_returns _inData n g :
  (0 < n)%nat -> nodes _inData <> [] -> NoDup (nodes _inData) ->
  exists vehs g', generate_vehicles _inData n g = Ok (vehs, g').
Proof.
  intros Hn Hne Hnd. unfold generate_vehicles. cbv zeta.
  destruct (concat_keys (map empty_series (range 0 (n + 1))) (range 1 (n + 1)))
    as [rows | e |] eqn:E.
  - erewrite bind_run_Ok by reflexivity.
    apply mapM_total. intros v g0.
    destruct (rand_node_total (nodes _inData) g0 Hne Hnd) as (x & g1 & Hx & _).
    eexists. eexists. erewrite bind_run_Ok by exact Hx. reflexivity.
  - exfalso. destruct n as [| n]; [lia |].
    unfold concat_keys, range in E.
    replace (S n + 1 - 0)%nat with (S (S n)) in E by lia.
    replace (S n + 1 - 1)%nat with (S n) in E by lia.
    simpl in E. discriminate.
  - exfalso. unfold concat_keys in E.
    destruct (map empty_series (range 0 (n + 1))); [discriminate |].
    destruct (combine (range 1 (n + 1)) (v :: l)); discriminate.
Qed.

(** With no vehicle asked for, the one series that is built has no key to go
    with, and the concatenation refuses. *)
Lemma generate_vehicles_none _inData g :
  generate_vehicles _inData 0 g
  = Raise (ValueError "All objects passed were None").
Proof. reflexivity. Qed.



End Supply.

(** ** The examples, run *)

Example line_networkstats :
  networkstats nearest_euclidean line_data
  = Ok {| center := 3%Z; radius := Some (8 # 4) |}.
Proof. vm_compute. reflexivity. Qed.

Example line_run_rows :
  map (fun r => (origin r, destination r, dist r, treq r, tarr r))
      (requests (fst (line_run false)))
  = [(Some 2%Z, Some 3%Z, Some 1, Some (-440)%Z, Some (-439)%Z);
     (Some 3%Z, Some 3%Z, Some 0, Some 1000%Z, Some 1000%Z);
     (Some 3%Z, Some 3%Z, Some 0, Some 2440%Z, Some 2440%Z)].
Proof. vm_compute. reflexivity. Qed.

(** Without a round allowed the same call does not come back: the loop is
    entered. *)
Example line_run_enters_loop :
  snd (generate_demand exp_flat 0 line_data line_tight false line_stream)
  = Diverge.
Proof. vm_compute. reflexivity. Qed.

Lemma generate_demand_distance_invariant_witness :
  (forall o d, cell (skim line_data) o d <> None) /\
  returned (snd (line_run false)) = true /\
  Forall (fun r =>
            exists o d x,
              origin r = Some o /\ destination r = Some d /\
              loc (skim line_data) o d = Ok (Some x) /\
              dist r = Some x /\ x < dist_threshold line_tight)
         (requests (fst (line_run false))).
Proof.
  unfold line_run.
  assert (H1 : forall o d, cell (skim line_data) o d <> None)
    by (intros o d; discriminate).
  assert (H2 : returned (snd (generate_demand exp_flat 5 line_data line_tight
                                false line_stream)) = true)
    by (vm_compute; reflexivity).
  split; [exact H1 |]. split; [exact H2 |].
  apply generate_demand_distance_invariant; assumption.
Defined.

Lemma generate_cardinality_witness :
  returned (snd (line_run false)) = true /\
  (List.length (passengers (fst (line_run false))) = nP line_tight /\
   List.length (requests (fst (line_run false))) = nP line_tight) /\
  exists vehs,
    result (generate_vehicles line_data 2 line_stream) = Some vehs /\
    List.length vehs = 2%nat.
Proof.
  unfold line_run.
  assert (H : returned (snd (generate_demand exp_flat 5 line_data line_tight
                               false line_stream)) = true)
    by (vm_compute; reflexivity).
  split; [exact H |]. split.
  - apply (proj1 (generate_cardinality exp_flat 5 line_data line_tight false
                    line_stream 2 line_stream)). exact H.
  - destruct (result (generate_vehicles line_data 2 line_stream))
      as [vehs |] eqn:E; [| vm_compute in E; discriminate].
    exists vehs. split; [reflexivity |].
    apply (proj2 (generate_cardinality exp_flat 5 line_data line_tight false
                    line_stream 2 line_stream)). exact E.
Defined.

Lemma resample_round_frame_witness :
  result (resample_round line_skim (dist_threshold line_tight) line_candidates
            line_rows line_stream)
  = Some line_round /\
  Forall2
    (fun r r' =>
       (forall x, dist r = Some x -> x < dist_threshold line_tight ->
                  origin r' = origin r /\ destination r' = destination r) /\
       (dist r = None ->
        origin r' = origin r /\ destination r' = destination r) /\
       (forall x, dist r = Some x -> dist_threshold line_tight <= x ->
          (exists o g1 g2,
              choice (origin_weights line_candidates) g1 = Ok (o, g2) /\
              In o (map node line_candidates) /\ origin r' = Some o) /\
          (exists d g1 g2,
              choice (destination_weights line_candidates) g1 = Ok (d, g2) /\
              In d (map node line_candidates) /\ destination r' = Some d)) /\
       request_dist line_skim r' = Ok (dist r'))
    line_rows line_round.
Proof.
  assert (H : result (resample_round line_skim (dist_threshold line_tight)
                        line_candidates line_rows line_stream)
              = Some line_round)
    by (vm_compute; reflexivity).
  split; [exact H |].
  apply (resample_round_frame line_skim (dist_threshold line_tight)
           line_candidates line_rows line_stream line_round). exact H.
Defined.

Example line_round_rows :
  map (fun r => (origin r, destination r, dist r)) line_round
  = [(Some 1%Z, Some 3%Z, Some 2); (Some 2%Z, Some 3%Z, Some 1)].
Proof. vm_compute. reflexivity. Qed.

Lemma generate_demand_ttrav_witness :
  returned (snd short_run) = true /\
  Forall (fun r =>
            (dist r = None -> ttrav r = None) /\
            forall x, dist r = Some x -> 0 <= x -> clear_of_edge x ->
              (true = false -> ttrav r = Some (Qfloor (x + half_ns))) /\
              (true = true ->
               exact_quotient (Qfloor (x + half_ns)) (speeds_ride short_params) ->
               ttrav r =
               Some (Qfloor (inject_Z (Qfloor (x + half_ns))
                             / speeds_ride short_params))))
         (requests (fst short_run)).
Proof.
  unfold short_run.
  assert (H : returned (snd (generate_demand exp_flat 0 short_data
                               short_params true
                               (stream [0; 1 # 2; 0; 9 # 10]))) = true)
    by (vm_compute; reflexivity).
  split; [exact H |].
  exact (generate_demand_ttrav exp_flat 0 short_data short_params true
           (stream [0; 1 # 2; 0; 9 # 10]) H).
Defined.

(** The row of that run: a second and a half, of which one whole second is
    kept and divided by one half. *)
Example short_run_rows :
  map (fun r => (dist r, ttrav r)) (requests (fst short_run))
  = [(Some (3 # 2), Some 2%Z)] /\
  clear_of_edge (3 # 2) /\
  exact_quotient (Qfloor ((3 # 2) + half_ns)) (speeds_ride short_params).
Proof.
  split; [vm_compute; reflexivity |].
  split; [vm_compute; reflexivity |].
  split; [reflexivity | vm_compute; reflexivity].
Qed.

(** A distance that is less than half a nanosecond short of three seconds
    makes three seconds; one beyond the range of a timedelta is refused; a
    quotient beyond it is [NaT]. *)
Example timedelta_floor_rounds :
  timedelta_floor (Some (29999999999 # 10000000000)) = Ok (Some 3%Z) /\
  timedelta_floor (Some (29999999 # 10000000)) = Ok (Some 2%Z) /\
  returned (timedelta_floor (Some 10000000000)) = false /\
  timedelta_div_floor (Some 9000000000%Z) (1 # 2) = None /\
  timedelta_div_floor (Some 3%Z) 0 = None.
Proof. repeat split; vm_compute; reflexivity. Qed.

Lemma generate_demand_sorted_by_treq_witness :
  returned (snd (line_run false)) = true /\
  forall i r1 r2,
    nth_error (requests (fst (line_run false))) i = Some r1 ->
    nth_error (requests (fst (line_run false))) (S i) = Some r2 ->
    exists t1 t2, treq r1 = Some t1 /\ treq r2 = Some t2 /\ (t1 <= t2)%Z.
Proof.
  unfold line_run.
  assert (H : returned (snd (generate_demand exp_flat 5 line_data line_tight
                               false line_stream)) = true)
    by (vm_compute; reflexivity).
  split; [exact H |].
  apply generate_demand_sorted_by_treq. exact H.
Defined.

Lemma generate_demand_tarr_witness :
  returned (snd short_run) = true /\
  Forall (fun r =>
            tarr r = time_add (treq r) (ttrav r) /\
            exists t, treq r = Some t /\
                      (forall v, ttrav r = Some v -> tarr r = Some (t + v)%Z) /\
                      (forall x,
                         dist r = Some x ->
                         (true = true ->
                          0 <= x /\ 0 < speeds_ride short_params /\
                          x + 1 <= 9000000000 * speeds_ride short_params) ->
                         exists v, ttrav r = Some v /\
                                   tarr r = Some (t + v)%Z))
         (requests (fst short_run)).
Proof.
  unfold short_run.
  assert (H : returned (snd (generate_demand exp_flat 0 short_data
                               short_params true
                               (stream [0; 1 # 2; 0; 9 # 10]))) = true)
    by (vm_compute; reflexivity).
  split; [exact H |].
  exact (generate_demand_tarr exp_flat 0 short_data short_params true
           (stream [0; 1 # 2; 0; 9 # 10]) H).
Defined.

(** The times of that run, and of a run on the matrix with a missing entry:
    there the travel time and the arrival are [NaT]. *)
Example short_run_times :
  map (fun r => (treq r, ttrav r, tarr r)) (requests (fst short_run))
  = [(Some 0%Z, Some 2%Z, Some 2%Z)] /\
  map (fun r => (dist r, ttrav r, tarr r)) (requests (fst gap_run))
  = [(None, None, None)].
Proof. split; vm_compute; reflexivity. Qed.

(** C4, as specified, fails: for a distance of a second and a half and a
    speed factor of one half the call leaves a travel time of 2 seconds
    ([floor (floor 1.5 / 0.5)]), where the specification has 3
    ([floor (1.5 / 0.5)]). *)
Lemma generate_demand_ttrav_not_as_specified :
  returned (snd short_run) = true /\
  map (fun r => (dist r, ttrav r)) (requests (fst short_run))
  = [(Some (3 # 2), Some 2%Z)] /\
  ~ Forall (ttrav_as_specified true (speeds_ride short_params))
           (requests (fst short_run)).
Proof.
  split; [vm_compute; reflexivity |].
  split; [vm_compute; reflexivity |].
  intros H.
  assert (E : exists r, requests (fst short_run) = [r] /\
                        dist r = Some (3 # 2) /\ ttrav r = Some 2%Z).
  { eexists. split; [vm_compute; reflexivity |]. split; reflexivity. }
  destruct E as (r & Er & Hd & Ht). rewrite Er in H.
  inversion H as [| ? ? Hr _]; subst.
  specialize (Hr (3 # 2) Hd). rewrite Ht in Hr.
  vm_compute in Hr. discriminate.
Qed.


(** C8, as specified, fails: with the distribution [poisson] the call ends
    in a [TypeError], not in a configuration error, and the passenger table
    of [_inData] has already been replaced. *)
Lemma unknown_temporal_distribution_not_ConfigurationError :
  snd (generate_demand exp_flat 5 line_data (line_params 3 10 "poisson") false
         line_stream)
  = Raise (TypeError "'NoneType' object is not iterable") /\
  List.length
    (passengers
       (fst (generate_demand exp_flat 5 line_data (line_params 3 10 "poisson")
               false line_stream))) = 3%nat /\
  ~ raises_ConfigurationError
      (snd (generate_demand exp_flat 5 line_data (line_params 3 10 "poisson")
              false line_stream)).
Proof.
  assert (E : snd (generate_demand exp_flat 5 line_data
                     (line_params 3 10 "poisson") false line_stream)
              = Raise (TypeError "'NoneType' object is not iterable"))
    by (vm_compute; reflexivity).
  split; [exact E |]. split; [vm_compute; reflexivity |].
  intros (e & He & Hc). rewrite E in He. inversion He; subst e.
  vm_compute in Hc. discriminate.
Qed.

Lemma unknown_temporal_distribution_raises_witness :
  temporal_distribution (line_params 3 10 "poisson") <> "uniform" /\
  temporal_distribution (line_params 3 10 "poisson") <> "normal" /\
  (exists e,
      snd (generate_demand exp_flat 5 line_data (line_params 3 10 "poisson")
             false line_stream) = Raise e) /\
  requests (fst (generate_demand exp_flat 5 line_data
                   (line_params 3 10 "poisson") false line_stream))
  = requests line_data /\
  snd (generate_demand exp_flat 5 line_data (line_params 3 10 "poisson")
         false line_stream)
  = Raise (TypeError "'NoneType' object is not iterable").
Proof.
  assert (H1 : temporal_distribution (line_params 3 10 "poisson") <> "uniform")
    by discriminate.
  assert (H2 : temporal_distribution (line_params 3 10 "poisson") <> "normal")
    by discriminate.
  assert (H3 : (nP (line_params 3 10 "poisson")
                <= List.length (nodes line_data))%nat) by (simpl; lia).
  assert (H4 : NoDup (columns (skim line_data))).
  { simpl. repeat constructor; simpl; intuition discriminate. }
  assert (H5 : weights_defined exp_flat line_data (line_params 3 10 "poisson")).
  { intros r x _ _ _. split; discriminate. }
  split; [exact H1 |]. split; [exact H2 |].
  destruct (unknown_temporal_distribution_raises exp_flat 5 line_data
              (line_params 3 10 "poisson") false line_stream H1 H2)
    as (Hr & Hq & Hrest).
  split; [exact Hr |]. split; [exact Hq |].
  exact (proj1 (proj2 (Hrest H3 eq_refl H4)) H5).
Defined.



Lemma initial_positions_without_replacement_witness :
  (List.length (nodes line_data) < nP (line_params 6 10 "uniform"))%nat /\
  generate_demand exp_flat 5 line_data (line_params 6 10 "uniform") false
    line_stream
  = (line_data,
     Raise (ValueError
       "Cannot take a larger sample than population when 'replace=False'")) /\
  NoDup (nodes line_data) /\
  exists df,
    result (init_passengers line_data line_tight line_stream) = Some df /\
    List.length df = nP line_tight /\
    NoDup (map pos df).
Proof.
  assert (H1 : (List.length (nodes line_data)
                < nP (line_params 6 10 "uniform"))%nat) by (simpl; lia).
  assert (H2 : NoDup (nodes line_data)).
  { simpl. repeat (constructor; [simpl; intuition discriminate |]).
    constructor. }
  split; [exact H1 |]. split.
  - apply (proj1 (initial_positions_without_replacement exp_flat 5 line_data
                    (line_params 6 10 "uniform") false line_stream)).
    exact H1.
  - split; [exact H2 |].
    destruct (result (init_passengers line_data line_tight line_stream))
      as [df |] eqn:E; [| vm_compute in E; discriminate].
    exists df. split; [reflexivity |].
    destruct (proj2 (proj2 (initial_positions_without_replacement exp_flat 5
                              line_data line_tight false line_stream))
                df H2 E) as (Hl & Hn & _).
    split; [exact Hl | exact Hn].
Defined.

Example line_initial_positions :
  option_map (map pos)
    (result (init_passengers line_data line_tight line_stream))
  = Some [Some 1%Z; Some 4%Z; Some 5%Z].
Proof. vm_compute. reflexivity. Qed.

(** A missing entry of the matrix passes the test of the loop: the request
    from node 1 to node 2 is kept with a missing distance.  This is why the
    distance invariant is stated for a matrix whose entries are numbers. *)
Example missing_distance_is_kept :
  returned (snd gap_run) = true /\
  map (fun r => (origin r, destination r, dist r)) (requests (fst gap_run))
  = [(Some 1%Z, Some 2%Z, None)].
Proof. split; vm_compute; reflexivity. Qed.

(** * Further properties *)

(** ** Where the requests start and end *)

Lemma candidate_set_Ok math_exp _inData _params distances :
  candidate_set math_exp _inData _params = Ok distances ->
  mem (center (stats _inData)) (columns (skim _inData)) = true /\
  forall n, In n (map node distances) ->
    In n (index (skim _inData)) /\
    exists x, cell (skim _inData) n (center (stats _inData)) = Some x /\
              x < dist_threshold _params.
Proof.
  intros H. pose proof (candidate_set_nodes _ _ _ _ H) as Hn.
  apply candidate_set_inv in H. destruct H as [Hc _].
  split; [exact Hc |].
  intros n Hin. rewrite Hn in Hin. apply in_map_iff in Hin.
  destruct Hin as ([r x] & <- & Hin). apply near_center_In in Hin.
  destruct Hin as (Hr & Hx & Hlt). simpl. eauto.
Qed.

Lemma round_of_drawn sk thr distances r r' :
  drawn_from distances r -> round_of sk thr distances r r' ->
  drawn_from distances r'.
Proof.
  intros (o & d & Ho & Hd & Hio & Hid)
         (r1 & r2 & g1 & g1' & g2 & g2' & g3 & g3' & H1 & H2 & H3).
  apply compute_dist_Ok in H3. destruct H3 as (v & _ & ->).
  apply resample_origin_Ok in H1. apply resample_destination_Ok in H2.
  destruct H1 as [[_ ->] | [_ (o' & ga & gb & Hc & ->)]];
    destruct H2 as [[_ ->] | [_ (d' & gc & gd & Hc' & ->)]]; simpl.
  - exists o, d. auto.
  - exists o, d'. repeat split; auto.
    rewrite <- destination_weights_nodes. eapply choice_In, Hc'.
  - exists o', d. repeat split; auto.
    rewrite <- origin_weights_nodes. eapply choice_In, Hc.
  - exists o', d'. repeat split.
    + rewrite <- origin_weights_nodes. eapply choice_In, Hc.
    + rewrite <- destination_weights_nodes. eapply choice_In, Hc'.
Qed.

Lemma resample_loop_drawn fuel sk thr distances :
  forall reqs g reqs' g',
    resample_loop fuel sk thr distances reqs g = Ok (reqs', g') ->
    Forall (drawn_from distances) reqs ->
    Forall (drawn_from distances) reqs'.
Proof.
  induction fuel as [| fuel IH]; intros reqs g reqs' g' H Hd; simpl in H;
    destruct (existsb (too_far thr) reqs); try discriminate.
  - run_end H. exact Hd.
  - run_bind H as mid g1 Hmid. apply resample_round_Ok in Hmid.
    eapply IH; [exact H |].
    eapply Forall2_Forall_transport; [| exact Hmid | exact Hd].
    intros a b Hab Ha. eapply round_of_drawn; eassumption.
  - run_end H. exact Hd.
Qed.

Section Stages.

Variable math_exp : Q -> option Q.

(** The rows that leave the loop in a successful [build_requests]: where
    their ends and their request times come from. *)
Lemma build_requests_stages fuel _inData _params avg_speed df g reqs' g' :
  build_requests math_exp fuel _inData _params avg_speed df g = Ok (reqs', g') ->
  exists distances times pre,
    candidate_set math_exp _inData _params = Ok distances /\
    (exists g1, draw_treq _params g = Ok (Some times, g1)) /\
    Forall (drawn_from distances) pre /\
    Forall (timed_from _params times) pre /\
    finish_requests _params avg_speed df pre = Ok reqs'.
Proof.
  unfold build_requests. intros H.
  run_bind H as distances g1 Hdist. run_end Hdist.
  run_bind H as times g2 Htimes.
  run_bind H as stamps g3 Hstamps.
  run_bind H as reqs1 g4 H1. run_end H1.
  run_bind H as origins g5 Ho.
  run_bind H as reqs2 g6 H2. run_end H2.
  run_bind H as destinations g7 Hd.
  run_bind H as reqs3 g8 H3. run_end H3.
  run_bind H as reqs4 g9 H4.
  run_bind H as pre g10 Hloop.
  run_end H.
  match goal with Hf : finish_requests _ _ _ _ = Ok _ |- _ =>
    rename Hf into Hfin end.
  match goal with Ha : assign set_treq _ _ = Ok _ |- _ => rename Ha into A1 end.
  match goal with Ha : assign set_origin _ _ = Ok _ |- _ => rename Ha into A2 end.
  match goal with Ha : assign set_destination _ _ = Ok _ |- _ =>
    rename Ha into A3 end.
  match goal with Hc : candidate_set _ _ _ = Ok _ |- _ => rename Hc into Hcand end.
  destruct times as [times |]; [| run_end Hstamps].
  run_end Hstamps.
  exists distances, times, pre.
  split; [exact Hcand |]. split; [exists g2; exact Htimes |].
  apply sample_weighted_Ok in Ho. destruct Ho as (_ & _ & Ho).
  apply sample_weighted_Ok in Hd. destruct Hd as (_ & _ & Hd).
  pose proof (assign_Forall2 _ _ _ _ A1) as F1.
  pose proof (assign_Forall2 _ _ _ _ A2) as F2.
  pose proof (assign_Forall2 _ _ _ _ A3) as F3.
  apply first_dist_Ok in H4. destruct H4 as [_ H4].
  pose proof (mapM_Ok _ _ _ _ _ H4) as F4.
  pose proof (Forall2_compose _ _ _ _ _
                (Forall2_compose _ _ _ _ _
                   (Forall2_compose _ _ _ _ _ F1 F2) F3) F4) as F.
  assert (Hrow : Forall (fun r => drawn_from distances r /\
                                  timed_from _params times r) reqs4).
  { eapply Forall2_Forall_r; [| exact F].
    intros r0 r4 (r3 & (r2 & (r1 & (v1 & Hv1 & ->) & (v2 & Hv2 & ->))
                        & (v3 & Hv3 & ->)) & (ga & gb & Hc)).
    apply compute_dist_Ok in Hc. destruct Hc as (dd & _ & ->).
    apply in_map_iff in Hv1. destruct Hv1 as (x & <- & Hx).
    apply in_map_iff in Hv2. destruct Hv2 as (o & <- & Hin_o).
    apply in_map_iff in Hv3. destruct Hv3 as (d & <- & Hin_d).
    rewrite Forall_forall in Ho, Hd.
    destruct (Ho o Hin_o) as (gc & gd & Hco).
    destruct (Hd d Hin_d) as (ge & gf & Hcd).
    split.
    - exists o, d. simpl. repeat split.
      + rewrite <- origin_weights_nodes. eapply choice_In, Hco.
      + rewrite <- destination_weights_nodes. eapply choice_In, Hcd.
    - exists x. simpl. split; [exact Hx | reflexivity]. }
  pose proof Hloop as Hkeep. apply resample_loop_Ok in Hkeep.
  destruct Hkeep as (_ & _ & Htreq & _).
  split; [| split].
  - eapply resample_loop_drawn; [exact Hloop |].
    eapply Forall_impl; [| exact Hrow]. intros a [Ha _]. exact Ha.
  - eapply Forall2_Forall_transport; [| exact Htreq | exact Hrow].
    intros a b Hab [_ (x & Hx & Ht)]. exists x. split; [exact Hx | congruence].
  - exact Hfin.
Qed.

Lemma generate_demand_stages fuel _inData _params avg_speed g :
  returned (snd (generate_demand math_exp fuel _inData _params avg_speed g)) = true ->
  exists df distances times pre g0,
    (exists g1, init_passengers _inData _params g = Ok (df, g1)) /\
    candidate_set math_exp _inData _params = Ok distances /\
    (exists g1, draw_treq _params g0 = Ok (Some times, g1)) /\
    Forall (drawn_from distances) pre /\
    Forall (timed_from _params times) pre /\
    finish_requests _params avg_speed df pre
    = Ok (requests (fst (generate_demand math_exp fuel _inData _params
                           avg_speed g))) /\
    passengers (fst (generate_demand math_exp fuel _inData _params avg_speed g))
    = map (fun p => set_platforms p (Some [0%Z]))
        (map (fun p =>
                set_pos p
                  (origin_of
                     (requests (fst (generate_demand math_exp fuel _inData
                                       _params avg_speed g)))
                     (pax_index p))) df).
Proof.
  intros H. apply generate_demand_returned in H.
  destruct H as (df & g1 & reqs & g2 & Hinit & Hbuild & Hfst).
  apply build_requests_stages in Hbuild.
  destruct Hbuild as (distances & times & pre & Hc & Ht & Hd & Htm & Hfin).
  exists df, distances, times, pre, g1. rewrite Hfst.
  split; [exists g1; exact Hinit |].
  split; [exact Hc |]. split; [exact Ht |]. split; [exact Hd |].
  split; [exact Htm |]. split; [exact Hfin | reflexivity].
Qed.

(** X1. Both ends of every request that [generate_demand] produces are
    nodes of the skim whose distance to the center is a number below
    [dist_threshold]. *)
Theorem generate_demand_ends_near_center fuel _inData _params avg_speed g :
  returned (snd (generate_demand math_exp fuel _inData _params avg_speed g)) = true ->
  Forall (fun r =>
            exists o d xo xd,
              origin r = Some o /\ destination r = Some d /\
              In o (index (skim _inData)) /\ In d (index (skim _inData)) /\
              cell (skim _inData) o (center (stats _inData)) = Some xo /\
              cell (skim _inData) d (center (stats _inData)) = Some xd /\
              xo < dist_threshold _params /\ xd < dist_threshold _params)
         (requests (fst (generate_demand math_exp fuel _inData _params
                           avg_speed g))).
Proof.
  intros H. apply generate_demand_stages in H.
  destruct H as (df & distances & times & pre & g0 & _ & Hc & _ & Hd & _ & Hfin & _).
  apply candidate_set_Ok in Hc. destruct Hc as [_ Hc].
  apply Forall_forall. intros r' Hr'.
  destruct (finish_requests_In _ _ _ _ _ _ Hfin Hr')
    as (r & m & Hr & Htimed & Htrip & _).
  destruct Htrip as (Ho & Hde & _).
  rewrite (timed_origin _ _ _ _ Htimed) in Ho. rewrite (timed_destination _ _ _ _ Htimed) in Hde.
  rewrite Forall_forall in Hd.
  destruct (Hd r Hr) as (o & d & Hor & Hdr & Hio & Hid).
  destruct (Hc o Hio) as (Ho1 & xo & Hxo & Hlo).
  destruct (Hc d Hid) as (Hd1 & xd & Hxd & Hld).
  exists o, d, xo, xd. repeat split; try assumption; congruence.
Qed.

End Stages.

(** ** The window of the request times *)

Lemma int_of_neg q : q <= 0 -> int_of q = (- Qfloor (- q))%Z.
Proof.
  destruct q as [n d]. unfold Qle, int_of, Qfloor, Qopp. simpl. intros H.
  rewrite <- (Z.opp_involutive n) at 1.
  rewrite Z.quot_opp_l by lia. f_equal.
  apply Z.quot_div_nonneg; lia.
Qed.

(** Cutting towards zero keeps a number within bounds that are symmetric
    around zero. *)
Lemma int_of_within x h :
  - h <= x -> x <= h ->
  - h <= inject_Z (int_of x) /\ inject_Z (int_of x) <= h.
Proof.
  intros Hlo Hhi. destruct (Qlt_le_dec x 0) as [Hneg | Hpos].
  - rewrite int_of_neg by (apply Qlt_le_weak, Hneg).
    rewrite inject_Z_opp.
    pose proof (Qfloor_le (- x)) as Hf.
    assert (H0 : 0 <= inject_Z (Qfloor (- x))).
    { rewrite <- (Zle_Qle 0). change 0%Z with (Qfloor 0).
      apply Qfloor_resp_le. lra. }
    split; lra.
  - rewrite int_of_nonneg by exact Hpos.
    pose proof (Qfloor_le x) as Hf.
    assert (H0 : 0 <= inject_Z (Qfloor x)).
    { rewrite <- (Zle_Qle 0). change 0%Z with (Qfloor 0).
      apply Qfloor_resp_le, Hpos. }
    split; lra.
Qed.

Lemma draw_treq_uniform _params g times g' :
  temporal_distribution _params = "uniform" ->
  draw_treq _params g = Ok (Some times, g') ->
  Forall (fun x =>
            exists u, 0 <= u /\ u < 1 /\
              x = - simTime _params * 60 * 60 / 2
                  + (simTime _params * 60 * 60 / 2
                     - - simTime _params * 60 * 60 / 2) * u)
         times.
Proof.
  intros Htd. unfold draw_treq. rewrite Htd.
  change (String.eqb "uniform" "uniform") with true. cbv iota.
  intros H. run_bind H as l g1 Hl. run_end H.
  match goal with Heq : Some _ = Some _ |- _ => inversion Heq; subst end.
  apply replicateM_Ok in Hl. destruct Hl as [_ Hl].
  eapply Forall_impl; [| exact Hl].
  intros x (ga & gb & Hx). cbv beta in Hx.
  run_bind Hx as u gc Hu. run_end Hx.
  unfold random_sample in Hu. run_bind Hu as q gd Hq. run_end Hu.
  destruct (unit_part_range q) as [H0 H1].
  exists (unit_part q). auto.
Qed.

Section Window.

Variable math_exp : Q -> option Q.

(** X2. With the uniform distribution and a simulation time that is not
    negative, every request time that [generate_demand] produces lies within
    half the simulation time (in seconds) around [t0]. *)
Theorem generate_demand_treq_window fuel _inData _params avg_speed g :
  temporal_distribution _params = "uniform" ->
  0 <= simTime _params ->
  returned (snd (generate_demand math_exp fuel _inData _params avg_speed g)) = true ->
  Forall (fun r =>
            exists t,
              treq r = Some t /\
              inject_Z (t0 _params) - simTime _params * 60 * 60 / 2
              <= inject_Z t /\
              inject_Z t
              <= inject_Z (t0 _params) + simTime _params * 60 * 60 / 2)
         (requests (fst (generate_demand math_exp fuel _inData _params
                           avg_speed g))).
Proof.
  intros Htd Hsim H. apply generate_demand_stages in H.
  destruct H as (df & distances & times & pre & g0 & _ & _ & [g1 Ht] & _ & Htm
                 & Hfin & _).
  pose proof (draw_treq_uniform _ _ _ _ Htd Ht) as Hu.
  apply Forall_forall. intros r' Hr'.
  destruct (finish_requests_In _ _ _ _ _ _ Hfin Hr')
    as (r & m & Hr & Htimed & Htrip & _).
  destruct Htrip as (_ & _ & Htr & _). rewrite (timed_treq _ _ _ _ Htimed) in Htr.
  rewrite Forall_forall in Htm, Hu.
  destruct (Htm r Hr) as (x & Hx & Hrt).
  destruct (Hu x Hx) as (u & H0 & H1 & Hxu).
  exists (t0 _params + int_of x)%Z. split; [congruence |].
  rewrite inject_Z_plus.
  set (h := simTime _params * 60 * 60 / 2) in *.
  set (lo := - simTime _params * 60 * 60 / 2) in *.
  assert (Eh : h == simTime _params * 1800) by (unfold h; field).
  assert (El : lo == - h) by (unfold lo, h; field).
  assert (Hw : 0 <= h - lo) by lra.
  assert (Hwu0 : 0 <= (h - lo) * u).
  { apply Qmult_le_0_compat; [exact Hw | exact H0]. }
  assert (Hwu1 : (h - lo) * u <= h - lo).
  { pose proof (Qmult_le_compat_r u 1 (h - lo) (Qlt_le_weak _ _ H1) Hw) as Hm.
    rewrite Qmult_1_l in Hm. rewrite Qmult_comm. exact Hm. }
  assert (Hxb : - h <= x /\ x <= h).
  { rewrite Hxu. generalize dependent ((h - lo) * u). intros z _ Hz0 Hz1.
    split; lra. }
  destruct (int_of_within x h (proj1 Hxb) (proj2 Hxb)) as [Ha Hb].
  split; lra.
Qed.

End Window.

(** ** Passengers and their requests *)

Lemma assign_positions {R V : Type} (set : R -> V -> R) rows vals rows' :
  assign set rows vals = Ok rows' ->
  Forall2 (fun v r' => exists r, r' = set r v) vals rows'.
Proof.
  intros H. apply assign_Ok in H. destruct H as [Hlen ->].
  revert vals Hlen.
  induction rows as [| r rows IH]; intros [| v vals] Hlen; simpl in *;
    try discriminate; constructor.
  - exists r. reflexivity.
  - apply IH. lia.
Qed.

Lemma Forall2_map_l {A B C : Type} (f : A -> B) (R : B -> C -> Prop) l l' :
  Forall2 R (map f l) l' -> Forall2 (fun a c => R (f a) c) l l'.
Proof.
  revert l'. induction l as [| a l IH]; intros l' H; inversion H; subst;
    constructor; auto.
Qed.

Lemma Forall2_and {A B : Type} (R S : A -> B -> Prop) l l' :
  Forall2 R l l' -> Forall2 S l l' -> Forall2 (fun a b => R a b /\ S a b) l l'.
Proof.
  induction 1; intros H2; inversion H2; subst; constructor; auto.
Qed.

Lemma Forall2_Forall_and_r {A B : Type} (R : A -> B -> Prop) (P : B -> Prop)
    l l' :
  Forall2 R l l' -> Forall P l' -> Forall2 (fun a b => R a b /\ P b) l l'.
Proof.
  induction 1; intros H2; inversion H2; subst; constructor; auto.
Qed.

Lemma Forall2_In_r {A B : Type} (R : A -> B -> Prop) l l' :
  Forall2 R l l' -> Forall2 (fun a b => R a b /\ In b l') l l'.
Proof.
  induction 1 as [| a b l l' Hab _ IH]; constructor.
  - split; [exact Hab | left; reflexivity].
  - eapply Forall2_impl; [| exact IH].
    intros x y [Hxy Hin]. split; [exact Hxy | right; exact Hin].
Qed.

Lemma Forall2_Forall_and_l {A B : Type} (R : A -> B -> Prop) (P : A -> Prop)
    l l' :
  Forall2 R l l' -> Forall P l -> Forall2 (fun a b => R a b /\ P a) l l'.
Proof.
  induction 1; intros H2; inversion H2; subst; constructor; auto.
Qed.

Lemma Forall2_map_r_inv {A B C : Type} (h : B -> C) (R : A -> C -> Prop) l l' :
  Forall2 (fun a b => R a (h b)) l l' -> Forall2 R l (map h l').
Proof. induction 1; simpl; constructor; auto. Qed.

Lemma Forall2_map_l_inv {A B C : Type} (f : A -> B) (R : B -> C -> Prop) l l' :
  Forall2 (fun a c => R (f a) c) l l' -> Forall2 R (map f l) l'.
Proof. induction 1; simpl; constructor; auto. Qed.

(** The labels that the last stage gives: those of the passengers, by
    position. *)
Lemma finish_requests_labels _params avg_speed df reqs reqs' :
  finish_requests _params avg_speed df reqs = Ok reqs' ->
  Forall2 (fun p r' =>
             req_index r' = pax_index p /\ pax_id r' = Some (pax_index p))
          df reqs'.
Proof.
  unfold finish_requests.
  destruct (each travel_time reqs) as [rows0 | |]; try discriminate.
  match goal with |- context [assign set_req_index ?m _] => set (mid := m) end.
  destruct (assign set_req_index mid (map pax_index df)) as [r1 | |] eqn:E1;
    try discriminate.
  destruct (assign set_pax_id r1 (map (fun p => Some (pax_index p)) df))
    as [r2 | |] eqn:E2; try discriminate.
  intros H. inversion H. subst reqs'. clear H.
  pose proof (Forall2_map_l _ _ _ _ (assign_positions _ _ _ _ E1)) as P1.
  pose proof (Forall2_map_l _ _ _ _ (assign_positions _ _ _ _ E2)) as P2.
  pose proof (assign_Forall2 _ _ _ _ E2) as K2.
  assert (P1' : Forall2 (fun p r => req_index r = pax_index p) df r2).
  { pose proof (Forall2_compose _ _ _ _ _ P1 K2) as Hc.
    eapply Forall2_impl; [| exact Hc].
    intros p r (m & (r0 & ->) & (v & _ & ->)). reflexivity. }
  pose proof (Forall2_and _ _ _ _ P1' P2) as Hboth.
  apply Forall2_map_r_inv.
  eapply Forall2_impl; [| exact Hboth].
  intros p r [Hi (r0 & ->)]. simpl in *. auto.
Qed.

Lemma find_by_label reqs :
  NoDup (map req_index reqs) ->
  forall r, In r reqs ->
            find (fun r' => Z.eqb (req_index r') (req_index r)) reqs = Some r.
Proof.
  induction reqs as [| r0 reqs IH]; intros Hnd r Hin; [contradiction |].
  simpl in Hnd. inversion Hnd as [| ? ? Hnot Hnd']; subst.
  simpl. destruct (Z.eqb_spec (req_index r0) (req_index r)) as [E | E].
  - destruct Hin as [-> | Hin]; [reflexivity |].
    exfalso. apply Hnot. rewrite E. apply in_map. exact Hin.
  - destruct Hin as [-> | Hin]; [contradiction |]. apply IH; assumption.
Qed.

Lemma NoDup_map_injective {A B : Type} (f : A -> B) l :
  (forall a b, f a = f b -> a = b) -> NoDup l -> NoDup (map f l).
Proof.
  intros Hf. induction 1 as [| x l Hx _ IH]; simpl; constructor; [| exact IH].
  intros Hin. apply in_map_iff in Hin. destruct Hin as (y & Hy & Hin).
  apply Hf in Hy. subst y. exact (Hx Hin).
Qed.

Lemma range_NoDup lo hi : NoDup (range lo hi).
Proof.
  unfold range. apply NoDup_map_injective; [| apply seq_NoDup].
  intros a b H. apply Nat2Z.inj, H.
Qed.

Lemma init_passengers_rows _inData _params g df g' :
  init_passengers _inData _params g = Ok (df, g') ->
  map pax_index df = range 0 (nP _params) /\
  Forall (fun p => status p = Some travellerEvent.STARTS_DAY) df.
Proof.
  unfold init_passengers. intros H. run_bind H as drawn g1 Hs. run_end H.
  match goal with Ha : assign _ _ _ = Ok _ |- _ => rename Ha into A end.
  apply assign_Forall2 in A.
  rewrite map_map in A.
  assert (Hrel : Forall2 (fun i p => pax_index p = i /\
                            status p = Some travellerEvent.STARTS_DAY)
                   (range 0 (nP _params)) df).
  { apply Forall2_map_l in A. eapply Forall2_impl; [| exact A].
    intros i p (v & _ & ->). split; reflexivity. }
  split.
  - clear -Hrel. induction Hrel as [| i p l l' [Hi _] _ IH]; simpl;
      [reflexivity | congruence].
  - eapply Forall2_Forall_r; [| exact Hrel]. intros i p [_ Hs']. exact Hs'.
Qed.

Section Alignment.

Variable math_exp : Q -> option Q.

Lemma generate_demand_labelled fuel _inData _params avg_speed g :
  returned (snd (generate_demand math_exp fuel _inData _params avg_speed g)) = true ->
  Forall2 (fun p r => req_index r = pax_index p)
          (passengers (fst (generate_demand math_exp fuel _inData _params
                              avg_speed g)))
          (requests (fst (generate_demand math_exp fuel _inData _params
                            avg_speed g))).
Proof.
  intros H. apply generate_demand_stages in H.
  destruct H as (df & distances & times & pre & g0 & _ & _ & _ & _ & _
                 & Hfin & Hpas).
  rewrite Hpas. apply finish_requests_labels in Hfin.
  rewrite map_map. apply Forall2_map_l_inv.
  eapply Forall2_impl; [| exact Hfin].
  intros p r [Hi _]. exact Hi.
Qed.

(** X3. After [generate_demand] the passengers are labelled 0, ..., nP-1, and
    the request in the same row carries the same label, as index and as
    [pax_id]; the passenger stands at the origin of that request, has
    started the day and may use platform 0 only; no request is shareable. *)
Theorem generate_demand_passengers_and_requests fuel _inData _params avg_speed g :
  returned (snd (generate_demand math_exp fuel _inData _params avg_speed g)) = true ->
  map pax_index
      (passengers (fst (generate_demand math_exp fuel _inData _params
                          avg_speed g)))
  = range 0 (nP _params) /\
  Forall2 (fun p r =>
             req_index r = pax_index p /\ pax_id r = Some (pax_index p) /\
             pos p = origin r /\
             status p = Some travellerEvent.STARTS_DAY /\
             platforms p = Some [0%Z] /\
             shareable r = Some false)
          (passengers (fst (generate_demand math_exp fuel _inData _params
                              avg_speed g)))
          (requests (fst (generate_demand math_exp fuel _inData _params
                            avg_speed g))).
Proof.
  intros H. apply generate_demand_stages in H.
  destruct H as (df & distances & times & pre & g0 & [g1 Hinit] & _ & _ & _ & _
                 & Hfin & Hpas).
  rewrite Hpas. clear Hpas.
  set (reqs := requests (fst (generate_demand math_exp fuel _inData _params
                                avg_speed g))) in *.
  apply init_passengers_rows in Hinit. destruct Hinit as [Hidx Hst].
  pose proof (finish_requests_labels _ _ _ _ _ Hfin) as Hlab.
  assert (Hreqidx : map req_index reqs = map pax_index df).
  { clear -Hlab. induction Hlab as [| p r l l' [Hi _] _ IH]; simpl;
      [reflexivity | congruence]. }
  assert (Hnd : NoDup (map req_index reqs)).
  { rewrite Hreqidx, Hidx. apply range_NoDup. }
  split.
  - rewrite !map_map. simpl. exact Hidx.
  - rewrite map_map. apply Forall2_map_l_inv.
    assert (Hsh : Forall (fun r => shareable r = Some false) reqs).
    { apply Forall_forall. intros r Hr.
      destruct (finish_requests_In _ _ _ _ _ _ Hfin Hr)
        as (_ & _ & _ & _ & _ & Hs).
      exact Hs. }
    pose proof (Forall2_In_r _ _ _
                  (Forall2_Forall_and_l _ _ _ _
                     (Forall2_Forall_and_r _ _ _ _ Hlab Hsh) Hst)) as Hall.
    eapply Forall2_impl; [| exact Hall].
    intros p r ((((Hi & Hp) & Hs) & Hstat) & Hin). simpl.
    repeat split; try assumption.
    unfold origin_of. rewrite <- Hi.
    rewrite (find_by_label reqs Hnd r Hin). reflexivity.
Qed.


End Alignment.

(** ** Requests that are accepted stay *)

Lemma set_dist_same r : set_dist r (dist r) = r.
Proof. destruct r. reflexivity. Qed.

Lemma round_of_keeps sk thr distances r r' :
  located sk r -> too_far thr r = false ->
  round_of sk thr distances r r' -> r' = r.
Proof.
  intros Hloc Hfar (r1 & r2 & g1 & g1' & g2 & g2' & g3 & g3' & H1 & H2 & H3).
  apply resample_origin_Ok in H1. rewrite Hfar in H1.
  destruct H1 as [[_ ->] | [Hx _]]; [| discriminate].
  apply resample_destination_Ok in H2. rewrite Hfar in H2.
  destruct H2 as [[_ ->] | [Hx _]]; [| discriminate].
  apply compute_dist_Ok in H3. destruct H3 as (v & Hv & ->).
  unfold located in Hloc. rewrite Hloc in Hv. inversion Hv.
  apply set_dist_same.
Qed.

(** X4. A request whose distance is below the threshold (or missing) when
    the loop starts leaves the loop as it entered it, however many rounds the
    other requests take. *)
Theorem resample_loop_keeps_accepted fuel sk thr distances :
  forall reqs g reqs',
    Forall (located sk) reqs ->
    result (resample_loop fuel sk thr distances reqs g) = Some reqs' ->
    Forall2 (fun r r' =>
               (forall x, dist r = Some x -> x < thr -> r' = r) /\
               (dist r = None -> r' = r))
            reqs reqs'.
Proof.
  assert (Hmain : forall reqs g reqs' g',
             Forall (located sk) reqs ->
             resample_loop fuel sk thr distances reqs g = Ok (reqs', g') ->
             Forall2 (fun r r' => too_far thr r = false -> r' = r) reqs reqs').
  { induction fuel as [| fuel IH]; intros reqs g reqs' g' Hloc H; simpl in H;
      destruct (existsb (too_far thr) reqs); try discriminate.
    - run_end H. clear. induction reqs; constructor; auto.
    - run_bind H as mid g1 Hmid. apply resample_round_Ok in Hmid.
      assert (Hmidloc : Forall (located sk) mid).
      { eapply Forall2_Forall_r; [| exact Hmid].
        intros a b. apply round_of_located. }
      pose proof (IH _ _ _ _ Hmidloc H) as Hrest.
      pose proof (Forall2_compose _ _ _ _ _
                    (Forall2_Forall_and_l _ _ _ _ Hmid Hloc) Hrest) as Hc.
      eapply Forall2_impl; [| exact Hc].
      intros r r' (m & [Hround Hl] & Hkeep) Hf.
      assert (m = r) by (eapply round_of_keeps; eassumption). subst m.
      apply Hkeep, Hf.
    - run_end H. clear. induction reqs; constructor; auto. }
  intros reqs g reqs' Hloc H. apply result_Some in H. destruct H as [g' H].
  eapply Forall2_impl; [| exact (Hmain _ _ _ _ Hloc H)].
  intros r r' Hk. split.
  - intros x Hx Hlt. apply Hk. eapply below_not_too_far; eassumption.
  - intros Hx. apply Hk. unfold too_far. rewrite Hx. reflexivity.
Qed.

(** ** Arrival after request *)

Section Arrival.

Variable math_exp : Q -> option Q.

(** X5. On a skim whose entries are numbers that are not negative, every
    request that [generate_demand] produces has a travel time that is not
    negative, so that it does not arrive before it is requested.  When
    [avg_speed] is asked for, this needs a positive speed factor and
    quotients within the range of a timedelta (every distance plus one second
    at most 9 000 000 000 times the speed); a quotient beyond it is [NaT]. *)
Theorem generate_demand_arrives_after_request fuel _inData _params avg_speed g :
  (forall o d,
     In o (index (skim _inData)) -> In d (columns (skim _inData)) ->
     exists x,
       cell (skim _inData) o d = Some x /\ 0 <= x /\
       (avg_speed = true -> x + 1 <= 9000000000 * speeds_ride _params)) ->
  (avg_speed = true -> 0 < speeds_ride _params) ->
  returned (snd (generate_demand math_exp fuel _inData _params avg_speed g)) = true ->
  Forall (fun r =>
            exists t v a,
              treq r = Some t /\ ttrav r = Some v /\ tarr r = Some a /\
              (0 <= v)%Z /\ (t <= a)%Z)
         (requests (fst (generate_demand math_exp fuel _inData _params
                           avg_speed g))).
Proof.
  intros Hnum Hspeed H. apply generate_demand_requests in H.
  destruct H as (df & pre & Hfin & _ & _ & _ & _ & Hloc & Htreq).
  apply Forall_forall. intros r' Hr'.
  destruct (finish_requests_In _ _ _ _ _ _ Hfin Hr')
    as (r & m & Hr & Htimed & Htrip & _).
  destruct Htrip as (_ & _ & Ht & Hv & Ha & _).
  rewrite (timed_tarr _ _ _ _ Htimed) in Ha.
  rewrite (timed_treq _ _ _ _ Htimed) in Ht, Ha.
  rewrite Forall_forall in Hloc, Htreq.
  destruct (Htreq r Hr) as [t Hrt].
  destruct (located_inv _ _ (Hloc r Hr)) as (o & d & _ & _ & Hlo).
  destruct (loc_labels _ _ _ _ Hlo) as [Hio Hid].
  apply loc_Ok in Hlo.
  destruct (Hnum o d Hio Hid) as (x & Ex & Hx & Hxb).
  rewrite <- Hlo in Ex.
  destruct (timed_travel _ _ _ _ _ Htimed Ex Hx) as [Hplain Hquot].
  assert (Hv' : exists v, (0 <= v)%Z /\ ttrav m = Some v).
  { destruct avg_speed.
    - pose proof (Hspeed eq_refl) as Hk.
      eexists. split; [| apply (Hquot eq_refl Hk);
                          apply seconds_bound; auto].
      change 0%Z with (Qfloor 0). apply Qfloor_resp_le.
      apply Qle_shift_div_l; [exact Hk |].
      rewrite Qmult_0_l. rewrite <- (Zle_Qle 0). apply seconds_nonneg, Hx.
    - eexists. split; [| apply Hplain; reflexivity].
      apply seconds_nonneg, Hx. }
  destruct Hv' as (v & Hv0 & Hve).
  rewrite Hve in Hv, Ha. rewrite Hrt in Ha, Ht. simpl in Ha.
  exists t, v, (t + v)%Z. repeat split; try assumption; lia.
Qed.

End Arrival.

(** ** What cannot go wrong on a well-formed input *)

Lemma Qsum_nonneg ws : Forall (fun w => 0 <= w) ws -> 0 <= Qsum ws.
Proof.
  induction 1 as [| w ws Hw _ IH]; simpl; [apply Qle_refl | lra].
Qed.

Lemma Qsum_positive ws :
  ws <> [] -> Forall (fun w => 0 < w) ws -> 0 < Qsum ws.
Proof.
  intros Hne H. destruct H as [| w ws Hw Hws]; [contradiction |].
  simpl. assert (0 <= Qsum ws).
  { apply Qsum_nonneg. eapply Forall_impl; [| exact Hws].
    intros a Ha. apply Qlt_le_weak, Ha. }
  lra.
Qed.

Lemma check_weights_positive ws :
  ws <> [] -> Forall (fun w => 0 < w) ws -> check_weights ws = Ok tt.
Proof.
  intros Hne Hpos. unfold check_weights.
  assert (Hneg : existsb (fun w => Qltb w 0) ws = false).
  { apply not_true_is_false. intros H. apply existsb_exists in H.
    destruct H as (w & Hw & Hlt). rewrite Forall_forall in Hpos.
    pose proof (Hpos w Hw) as Hp. unfold Qltb in Hlt.
    apply negb_true_iff in Hlt.
    assert (Hle : Qle_bool 0 w = true)
      by (apply Qle_bool_iff, Qlt_le_weak, Hp).
    congruence. }
  rewrite Hneg.
  destruct (Qeq_bool (Qsum ws) 0) eqn:E; [| reflexivity].
  apply Qeq_bool_iff in E. pose proof (Qsum_positive ws Hne Hpos) as Hs.
  rewrite E in Hs. exfalso. exact (Qlt_irrefl 0 Hs).
Qed.

Lemma searchsorted_total items :
  forall acc target,
    acc <= target -> target < acc + Qsum (map snd items) ->
    exists n, searchsorted items acc target = Some n.
Proof.
  induction items as [| [n w] items IH]; simpl; intros acc target Hlo Hhi.
  - exfalso. lra.
  - unfold Qltb. destruct (Qle_bool (acc + w) target) eqn:E; simpl.
    + apply Qle_bool_iff in E. apply IH; [exact E | lra].
    + exists n. reflexivity.
Qed.

(** A weighted draw on weights that passed the checks always gives a
    label. *)
Lemma choice_total items g :
  check_weights (map snd items) = Ok tt ->
  exists n g', choice items g = Ok (n, g').
Proof.
  unfold check_weights. intros H.
  destruct (existsb (fun w => Qltb w 0) (map snd items)) eqn:Eneg;
    [discriminate |].
  destruct (Qeq_bool (Qsum (map snd items)) 0) eqn:Ez; [discriminate |].
  assert (Hnn : Forall (fun w => 0 <= w) (map snd items)).
  { apply Forall_forall. intros w Hw.
    destruct (Qlt_le_dec w 0) as [Hlt | Hle]; [| exact Hle].
    exfalso. assert (existsb (fun w => Qltb w 0) (map snd items) = true).
    { apply existsb_exists. exists w. split; [exact Hw |].
      unfold Qltb. apply negb_true_iff.
      destruct (Qle_bool 0 w) eqn:E; [| reflexivity].
      apply Qle_bool_iff in E. exfalso. exact (Qlt_not_le _ _ Hlt E). }
    congruence. }
  assert (Hsum : 0 < Qsum (map snd items)).
  { pose proof (Qsum_nonneg _ Hnn) as H0.
    destruct (Qlt_le_dec 0 (Qsum (map snd items))) as [Hp | Hq]; [exact Hp |].
    exfalso. assert (Qsum (map snd items) == 0) by lra.
    apply Qeq_bool_iff in H1. congruence. }
  unfold choice. erewrite bind_run_Ok by apply random_sample_run.
  destruct (unit_part_range (g 0%nat)) as [H0 H1].
  destruct (searchsorted_total items 0
              (unit_part (g 0%nat) * Qsum (map snd items))) as [n Hn].
  - apply Qmult_le_0_compat; [exact H0 | apply Qlt_le_weak, Hsum].
  - rewrite Qplus_0_l.
    rewrite <- (Qmult_1_l (Qsum (map snd items))) at 2.
    apply Qmult_lt_compat_r; assumption.
  - rewrite Hn. eexists. eexists. reflexivity.
Qed.

Lemma sample_weighted_total n items g :
  check_weights (map snd items) = Ok tt ->
  exists l g', sample_weighted n items g = Ok (l, g') /\ List.length l = n.
Proof.
  intros Hc. unfold sample_weighted.
  erewrite bind_run_Ok by (unfold lift; rewrite Hc; reflexivity).
  apply replicateM_total. intros g0. apply choice_total, Hc.
Qed.

Lemma mapM_total_on {A B : Type} (f : A -> Rand B) (P : A -> Prop) :
  (forall a g, P a -> exists b g', f a g = Ok (b, g')) ->
  forall l g, Forall P l -> exists l' g', mapM f l g = Ok (l', g').
Proof.
  intros Hf. induction l as [| a l IH]; intros g Hl; simpl.
  - exists [], g. reflexivity.
  - inversion Hl; subst.
    destruct (Hf a g) as (b & g1 & Hb); [assumption |].
    destruct (IH g1) as (l' & g2 & Hl'); [assumption |].
    exists (b :: l'), g2. unfold bind. rewrite Hb, Hl'. reflexivity.
Qed.

Lemma assign_defined {R V : Type} (set : R -> V -> R) rows vals :
  List.length vals = List.length rows ->
  assign set rows vals
  = Ok (map (fun rv => set (fst rv) (snd rv)) (combine rows vals)).
Proof. intros H. unfold assign. rewrite H, Nat.eqb_refl. reflexivity. Qed.

Lemma finish_requests_total _params avg_speed df reqs :
  List.length reqs = List.length df ->
  (forall r, In r reqs -> exists v, timedelta_floor (dist r) = Ok v) ->
  exists out, finish_requests _params avg_speed df reqs = Ok out.
Proof.
  intros Hlen Htd. unfold finish_requests.
  destruct (each_defined travel_time reqs) as [rows0 E0].
  { intros r Hr. destruct (Htd r Hr) as [v Hv]. unfold travel_time.
    rewrite Hv. eexists. reflexivity. }
  rewrite E0. apply each_Ok in E0.
  pose proof (Forall2_length_eq _ _ _ E0) as L0.
  match goal with |- context [assign set_req_index ?m _] => set (mid := m) end.
  assert (Hmid : List.length mid = List.length df).
  { unfold mid. rewrite (Permutation_length (sort_values_treq_perm _)).
    rewrite length_map. destruct avg_speed; rewrite ?length_map; congruence. }
  rewrite (assign_defined set_req_index mid (map pax_index df))
    by (rewrite length_map; congruence).
  rewrite assign_defined
    by (rewrite !length_map, length_combine, length_map; lia).
  eexists. reflexivity.
Qed.

Lemma draw_treq_known _params g :
  temporal_distribution _params = "uniform" \/
  (temporal_distribution _params = "normal" /\
   0 <= temporal_dispertion _params * simTime _params * 60 * 60 / 2) ->
  exists times g',
    draw_treq _params g = Ok (Some times, g') /\
    List.length times = nP _params.
Proof.
  intros Htd. pose proof (draw_treq_run _params g) as Hrun.
  destruct (draw_treq _params g) as [[[l |] g1] | e |] eqn:E;
    try contradiction.
  - exists l, g1. split; [reflexivity | exact (proj1 Hrun)].
  - destruct Hrun as [Hu Hn]. destruct Htd as [H | [H _]]; contradiction.
  - exfalso. destruct Hrun as [Hn _].
    destruct Htd as [H | [_ H]]; [rewrite Hn in H; discriminate |].
    revert E. unfold draw_treq. rewrite Hn.
    change (String.eqb "normal" "uniform") with false.
    change (String.eqb "normal" "normal") with true.
    cbv iota. unfold Qltb. apply Qle_bool_iff in H. rewrite H.
    change (negb true) with false. cbv iota.
    match goal with |- context [replicateM ?n ?m] =>
      destruct (replicateM_total m
                  ltac:(intros g0; eexists; eexists; reflexivity) n g)
        as (l & g' & Hl & _) end.
    erewrite bind_run_Ok by exact Hl. discriminate.
Qed.

Section Progress.

Variable sk : DataFrame.
Variable thr : Q.
Variable distances : list Candidate.

Hypothesis origin_weights_fine :
  check_weights (map snd (origin_weights distances)) = Ok tt.
Hypothesis destination_weights_fine :
  check_weights (map snd (destination_weights distances)) = Ok tt.
Hypothesis nodes_labelled :
  forall n, In n (map node distances) ->
            In n (index sk) /\ In n (columns sk).

Lemma compute_dist_total r g :
  drawn_from distances r ->
  exists r' g', compute_dist sk r g = Ok (r', g').
Proof.
  intros (o & d & Ho & Hd & Hio & Hid). unfold compute_dist, request_dist.
  rewrite Ho, Hd. unfold loc.
  destruct (nodes_labelled o Hio) as [Hoi _].
  destruct (nodes_labelled d Hid) as [_ Hdc].
  apply mem_In in Hoi. apply mem_In in Hdc. rewrite Hoi, Hdc. simpl.
  eexists. eexists. reflexivity.
Qed.

Lemma resample_origin_total r g :
  exists r' g', resample_origin thr distances r g = Ok (r', g').
Proof.
  unfold resample_origin. destruct (too_far thr r).
  - destruct (sample_weighted_total 1 (origin_weights distances) g
                origin_weights_fine) as (l & g' & Hl & Hlen).
    erewrite bind_run_Ok by exact Hl.
    destruct l as [| o l]; [discriminate |]. eexists. eexists. reflexivity.
  - eexists. eexists. reflexivity.
Qed.

Lemma resample_destination_total r g :
  exists r' g', resample_destination thr distances r g = Ok (r', g').
Proof.
  unfold resample_destination. destruct (too_far thr r).
  - destruct (sample_weighted_total 1 (destination_weights distances) g
                destination_weights_fine) as (l & g' & Hl & Hlen).
    erewrite bind_run_Ok by exact Hl.
    destruct l as [| o l]; [discriminate |]. eexists. eexists. reflexivity.
  - eexists. eexists. reflexivity.
Qed.

Lemma resample_round_total reqs g :
  Forall (drawn_from distances) reqs ->
  exists reqs' g',
    resample_round sk thr distances reqs g = Ok (reqs', g') /\
    Forall (drawn_from distances) reqs'.
Proof.
  intros Hd.
  assert (Hex : exists reqs' g',
             resample_round sk thr distances reqs g = Ok (reqs', g')).
  { unfold resample_round.
    destruct (mapM_total_on (resample_origin thr distances) (fun _ => True)
                (fun a g0 _ => resample_origin_total a g0) reqs g)
      as (l1 & g1 & H1).
    { clear. induction reqs; constructor; auto. }
    erewrite bind_run_Ok by exact H1.
    destruct (mapM_total_on (resample_destination thr distances)
                (fun _ => True)
                (fun a g0 _ => resample_destination_total a g0) l1 g1)
      as (l2 & g2 & H2).
    { clear. induction l1; constructor; auto. }
    erewrite bind_run_Ok by exact H2.
    apply (mapM_total_on (compute_dist sk) (drawn_from distances)
             (fun a g0 Ha => compute_dist_total a g0 Ha)).
    (* the rows after the two redraws are made of candidate nodes *)
    apply mapM_Ok in H1. apply mapM_Ok in H2.
    pose proof (Forall2_compose _ _ _ _ _ H1 H2) as H12.
    eapply Forall2_Forall_transport; [| exact H12 | exact Hd].
    intros r r2 (r1 & (ga & gb & Ha) & (gc & gd & Hb))
           (o & d & Ho & Hde & Hio & Hid).
    apply resample_origin_Ok in Ha. apply resample_destination_Ok in Hb.
    destruct Ha as [[_ ->] | [_ (o' & ? & ? & Hc & ->)]];
      destruct Hb as [[_ ->] | [_ (d' & ? & ? & Hc' & ->)]]; simpl.
    - exists o, d. auto.
    - exists o, d'. repeat split; auto.
      rewrite <- destination_weights_nodes. eapply choice_In, Hc'.
    - exists o', d. repeat split; auto.
      rewrite <- origin_weights_nodes. eapply choice_In, Hc.
    - exists o', d'. repeat split.
      + rewrite <- origin_weights_nodes. eapply choice_In, Hc.
      + rewrite <- destination_weights_nodes. eapply choice_In, Hc'. }
  destruct Hex as (reqs' & g' & H). exists reqs', g'. split; [exact H |].
  apply resample_round_Ok in H.
  eapply Forall2_Forall_transport; [| exact H | exact Hd].
  intros a b Hab Ha. eapply round_of_drawn; eassumption.
Qed.

(** The loop never raises: it returns as many rows as it got, or it uses up
    the rounds it was allowed. *)
Lemma resample_loop_progress fuel :
  forall reqs g,
    Forall (drawn_from distances) reqs ->
    match resample_loop fuel sk thr distances reqs g with
    | Ok (reqs', _) => List.length reqs' = List.length reqs
    | Raise _ => False
    | Diverge => True
    end.
Proof.
  induction fuel as [| fuel IH]; intros reqs g Hd; simpl;
    destruct (existsb (too_far thr) reqs); try exact I;
    try reflexivity.
  destruct (resample_round_total reqs g Hd) as (mid & g1 & Hmid & Hdm).
  erewrite bind_run_Ok by exact Hmid.
  specialize (IH mid g1 Hdm).
  destruct (resample_loop fuel sk thr distances mid g1) as [[out g2] | e |];
    try exact IH.
  rewrite IH. apply resample_round_Ok in Hmid.
  eapply Forall2_length_eq, Hmid.
Qed.

End Progress.

Section WellFormed.

Variable math_exp : Q -> option Q.

Lemma weights_positive_defined _inData _params :
  weights_positive math_exp _inData _params ->
  weights_defined math_exp _inData _params.
Proof.
  intros H r x Hr Hx Hlt.
  destruct (H r x Hr Hx Hlt) as (wo & wd & -> & -> & _).
  split; discriminate.
Qed.

Lemma candidate_set_nonempty _inData _params r x :
  mem (center (stats _inData)) (columns (skim _inData)) = true ->
  weights_defined math_exp _inData _params ->
  In r (index (skim _inData)) ->
  cell (skim _inData) r (center (stats _inData)) = Some x ->
  x < dist_threshold _params ->
  exists distances,
    candidate_set math_exp _inData _params = Ok distances /\
    distances <> [].
Proof.
  intros Hc Hdef Hr Hx Hlt.
  destruct (candidate_set_defined math_exp _inData _params Hc Hdef)
    as [distances Hd].
  exists distances. split; [exact Hd |].
  apply candidate_set_inv in Hd. destruct Hd as [_ F].
  assert (Hin : In (r, x) (near_center _inData _params))
    by (apply near_center_In; auto).
  intros ->. inversion F as [E |]. rewrite <- E in Hin. contradiction.
Qed.

Lemma candidate_weights_fine _inData _params distances :
  candidate_set math_exp _inData _params = Ok distances ->
  distances <> [] ->
  weights_positive math_exp _inData _params ->
  check_weights (map snd (origin_weights distances)) = Ok tt /\
  check_weights (map snd (destination_weights distances)) = Ok tt.
Proof.
  intros Hc Hne Hw.
  assert (Hpos : Forall (fun c => 0 < p_origin c /\ 0 < p_destination c)
                   distances).
  { apply candidate_set_inv in Hc. destruct Hc as [_ F].
    apply Forall_forall. intros c Hin.
    destruct (Forall2_In_l _ _ _ F c Hin) as ([r x] & Hnd & _ & _ & Ho & Hd).
    apply near_center_In in Hnd. destruct Hnd as (Hr & Hx & Hlt).
    destruct (Hw r x Hr Hx Hlt) as (wo & wd & Ewo & Ewd & Hwo & _ & Hwd & _).
    simpl in Ho, Hd.
    assert (p_origin c = wo) by congruence.
    assert (p_destination c = wd) by congruence.
    subst wo wd. auto. }
  unfold origin_weights, destination_weights. rewrite !map_map. simpl.
  split; apply check_weights_positive;
    try (intros Hnil; apply map_eq_nil in Hnil; contradiction);
    apply Forall_forall; intros w Hw'; apply in_map_iff in Hw';
    destruct Hw' as (c & <- & Hin); rewrite Forall_forall in Hpos;
    apply (Hpos c Hin).
Qed.

(** On a well-formed input [build_requests] reaches the loop: everything
    before it succeeds, with rows made of candidate nodes whose distances
    are those of the skim. *)
Lemma build_requests_reaches_loop _inData _params avg_speed df g distances :
  candidate_set math_exp _inData _params = Ok distances ->
  distances <> [] ->
  weights_positive math_exp _inData _params ->
  (forall r, In r (index (skim _inData)) -> In r (columns (skim _inData))) ->
  temporal_distribution _params = "uniform" \/
  (temporal_distribution _params = "normal" /\
   0 <= temporal_dispertion _params * simTime _params * 60 * 60 / 2) ->
  List.length df = nP _params ->
  (0 < nP _params)%nat ->
  exists rows g1,
    Forall (drawn_from distances) rows /\
    Forall (located (skim _inData)) rows /\
    List.length rows = List.length df /\
    forall fuel,
      build_requests math_exp fuel _inData _params avg_speed df g
      = bind (resample_loop fuel (skim _inData) (dist_threshold _params)
                distances rows)
             (fun reqs => lift (finish_requests _params avg_speed df reqs))
             g1.
Proof.
  intros Hc Hne Hw Hsq Htd Hdf HnP.
  destruct (candidate_weights_fine _ _ _ Hc Hne Hw) as [Hwo Hwd].
  assert (Hlab : forall n, In n (map node distances) ->
                   In n (index (skim _inData)) /\ In n (columns (skim _inData))).
  { intros n Hn. destruct (candidate_set_Ok _ _ _ _ Hc) as [_ Hall].
    destruct (Hall n Hn) as [Hi _]. split; [exact Hi | apply Hsq, Hi]. }
  destruct (draw_treq_known _params g Htd) as (times & g2 & Ht & Htlen).
  set (reqs0 := map (fun p => empty_request (pax_index p)) df).
  set (stamps := map (fun x => Some (t0 _params + int_of x)%Z) times).
  set (reqs1 := map (fun rv => set_treq (fst rv) (snd rv))
                  (combine reqs0 stamps)).
  assert (L1 : List.length reqs1 = List.length df).
  { unfold reqs1, reqs0, stamps.
    rewrite length_map, length_combine, !length_map. lia. }
  destruct (sample_weighted_total (nP _params) (origin_weights distances) g2
              Hwo) as (origins & g3 & Ho & Holen).
  set (reqs2 := map (fun rv => set_origin (fst rv) (snd rv))
                  (combine reqs1 (map Some origins))).
  assert (L2 : List.length reqs2 = List.length df).
  { unfold reqs2. rewrite length_map, length_combine, length_map. lia. }
  destruct (sample_weighted_total (nP _params)
              (destination_weights distances) g3 Hwd)
    as (dests & g4 & Hd & Hdlen).
  set (reqs3 := map (fun rv => set_destination (fst rv) (snd rv))
                  (combine reqs2 (map Some dests))).
  assert (L3 : List.length reqs3 = List.length df).
  { unfold reqs3. rewrite length_map, length_combine, length_map. lia. }
  assert (A2 : assign set_origin reqs1 (map Some origins) = Ok reqs2).
  { apply assign_defined. rewrite length_map. lia. }
  assert (A3 : assign set_destination reqs2 (map Some dests) = Ok reqs3).
  { apply assign_defined. rewrite length_map. lia. }
  assert (D3 : Forall (drawn_from distances) reqs3).
  { pose proof (Forall2_compose _ _ _ _ _ (assign_Forall2 _ _ _ _ A2)
                  (assign_Forall2 _ _ _ _ A3)) as F.
    apply sample_weighted_Ok in Ho. destruct Ho as (_ & _ & Ho).
    apply sample_weighted_Ok in Hd. destruct Hd as (_ & _ & Hd).
    eapply Forall2_Forall_r; [| exact F].
    intros r1 r3 (r2 & (v2 & Hv2 & ->) & (v3 & Hv3 & ->)).
    apply in_map_iff in Hv2. destruct Hv2 as (o & <- & Hin_o).
    apply in_map_iff in Hv3. destruct Hv3 as (d & <- & Hin_d).
    rewrite Forall_forall in Ho, Hd.
    destruct (Ho o Hin_o) as (gc & gd & Hco).
    destruct (Hd d Hin_d) as (ge & gf & Hcd).
    exists o, d. simpl. repeat split.
    - rewrite <- origin_weights_nodes. eapply choice_In, Hco.
    - rewrite <- destination_weights_nodes. eapply choice_In, Hcd. }
  destruct (mapM_total_on (compute_dist (skim _inData)) (drawn_from distances)
              (fun a g0 Ha => compute_dist_total (skim _inData) distances
                                Hlab a g0 Ha) reqs3 g4 D3)
    as (rows & g5 & Hrows).
  assert (Hfirst : first_dist (skim _inData) reqs3 g4 = Ok (rows, g5)).
  { unfold first_dist. destruct reqs3 as [| r3 reqs3]; [| exact Hrows].
    simpl in L3. lia. }
  exists rows, g5.
  pose proof (mapM_Ok _ _ _ _ _ Hrows) as Frows.
  split; [| split; [| split]].
  - eapply Forall2_Forall_transport; [| exact Frows | exact D3].
    intros a b (ga & gb & Hab) (o & d & Ho' & Hd' & Hio & Hid).
    apply compute_dist_Ok in Hab. destruct Hab as (v & _ & ->).
    exists o, d. auto.
  - exact (proj1 (mapM_compute_dist _ _ _ _ _ Hrows)).
  - rewrite (Forall2_length_eq _ _ _ Frows). exact L3.
  - intros fuel. unfold build_requests. rewrite Hc.
    erewrite bind_run_Ok by reflexivity.
    erewrite bind_run_Ok by exact Ht.
    erewrite bind_run_Ok by reflexivity.
    erewrite bind_run_Ok
      by (apply lift_assign_defined; rewrite !length_map; lia).
    erewrite bind_run_Ok by exact Ho.
    erewrite bind_run_Ok
      by (apply lift_assign_defined; fold reqs0 stamps reqs1;
          rewrite length_map; lia).
    erewrite bind_run_Ok by exact Hd.
    erewrite bind_run_Ok
      by (apply lift_assign_defined; fold reqs0 stamps reqs1 reqs2;
          rewrite length_map; lia).
    erewrite bind_run_Ok by exact Hfirst.
    reflexivity.
Qed.

(** A row between two candidate nodes, with the distance of the matrix,
    has a distance that line 183 makes a timedelta. *)
Lemma located_in_range sk distances r :
  (forall n, In n (map node distances) -> In n (index sk) /\ In n (columns sk)) ->
  (forall o d,
     In o (index sk) -> In d (columns sk) ->
     exists x, cell sk o d = Some x /\ 0 <= x /\ x <= 1000000000) ->
  drawn_from distances r -> located sk r ->
  exists v, timedelta_floor (dist r) = Ok v.
Proof.
  intros Hlab Hrange (o & d & Ho & Hd & Hio & Hid) Hloc.
  unfold located, request_dist in Hloc. rewrite Ho, Hd in Hloc.
  apply loc_Ok in Hloc.
  destruct (Hrange o d (proj1 (Hlab o Hio)) (proj2 (Hlab d Hid)))
    as (x & Hx & H0 & H1).
  rewrite Hloc, Hx. eexists. apply timedelta_floor_defined; [exact H0 |].
  lra.
Qed.

(** What the hypotheses of a well-formed input give the stages. *)
Lemma well_formed_stages _inData _params avg_speed g :
  well_formed math_exp _inData _params avg_speed ->
  exists df g1 distances rows g2,
    init_passengers _inData _params g = Ok (df, g1) /\
    candidate_set math_exp _inData _params = Ok distances /\
    (forall n, In n (map node distances) ->
               In n (index (skim _inData)) /\ In n (columns (skim _inData))) /\
    check_weights (map snd (origin_weights distances)) = Ok tt /\
    check_weights (map snd (destination_weights distances)) = Ok tt /\
    Forall (drawn_from distances) rows /\
    Forall (located (skim _inData)) rows /\
    List.length rows = List.length df /\
    forall fuel,
      build_requests math_exp fuel (set_passengers _inData df) _params
        avg_speed df g1
      = bind (resample_loop fuel (skim _inData) (dist_threshold _params)
                distances rows)
             (fun reqs => lift (finish_requests _params avg_speed df reqs))
             g2.
Proof.
  intros (HnP & _ & _ & Hsq & Hcen & (r & x & Hr & Hx & Hlt) & Hw & _ & Htd
          & _).
  destruct (candidate_set_nonempty _inData _params r x Hcen
              (weights_positive_defined _ _ Hw) Hr Hx Hlt)
    as (distances & Hc & Hne).
  destruct (init_passengers_total _inData _params g (proj2 HnP))
    as (df & g1 & Hinit).
  pose proof Hinit as Hlen. apply init_passengers_Ok in Hlen.
  destruct Hlen as (_ & _ & _ & Hlen).
  destruct (build_requests_reaches_loop (set_passengers _inData df) _params
              avg_speed df g1 distances Hc Hne Hw Hsq (or_introl Htd) Hlen
              (proj1 HnP))
    as (rows & g2 & Hd & Hloc & Hrl & Hbuild).
  destruct (candidate_weights_fine _ _ _ Hc Hne Hw) as [Hwo Hwd].
  exists df, g1, distances, rows, g2.
  split; [exact Hinit |]. split; [exact Hc |]. split.
  { intros n Hn. destruct (candidate_set_Ok _ _ _ _ Hc) as [_ Hall].
    destruct (Hall n Hn) as [Hi _]. split; [exact Hi | apply Hsq, Hi]. }
  auto 10.
Qed.

End WellFormed.

Section NoException.

Variable math_exp : Q -> option Q.

(** X6. On a well-formed input [generate_demand] raises no exception: the
    call returns, or is still in the loop when its rounds are used up. *)
Theorem generate_demand_never_raises fuel _inData _params avg_speed g :
  well_formed math_exp _inData _params avg_speed ->
  raised (snd (generate_demand math_exp fuel _inData _params avg_speed g))
  = false.
Proof.
  intros Hwf.
  destruct (well_formed_stages math_exp _inData _params avg_speed g Hwf)
    as (df & g1 & distances & rows & g2 & Hinit & Hc & Hlab & Hwo & Hwd & Hd
        & Hloc & Hrl & Hbuild).
  destruct Hwf as (_ & _ & _ & _ & _ & _ & _ & Hrange & _).
  pose proof (resample_loop_progress (skim _inData) (dist_threshold _params)
                distances Hwo Hwd Hlab fuel rows g2 Hd) as Hloop.
  unfold generate_demand. rewrite Hinit, (Hbuild fuel). unfold bind.
  destruct (resample_loop fuel (skim _inData) (dist_threshold _params)
              distances rows g2) as [[pre g3] | e |] eqn:El;
    try contradiction.
  - pose proof (resample_loop_drawn _ _ _ _ _ _ _ _ El Hd) as Hdp.
    pose proof (proj2 (proj2 (proj2 (resample_loop_Ok _ _ _ _ _ _ _ _ El)))
                  Hloc) as Hlp.
    destruct (finish_requests_total _params avg_speed df pre) as [out Hout].
    + congruence.
    + intros r Hr. rewrite Forall_forall in Hdp, Hlp.
      apply (located_in_range (skim _inData) distances r Hlab Hrange
               (Hdp r Hr) (Hlp r Hr)).
    + unfold lift. rewrite Hout. reflexivity.
  - reflexivity.
Qed.

(** X7. When, besides, any two nodes of the skim that are nearer to the
    center than the threshold are nearer to each other than the threshold,
    no round of the loop is needed: [generate_demand] returns. *)
Theorem generate_demand_returns_without_resampling _inData _params avg_speed g :
  well_formed math_exp _inData _params avg_speed ->
  (forall o d xo xd,
     In o (index (skim _inData)) -> In d (index (skim _inData)) ->
     cell (skim _inData) o (center (stats _inData)) = Some xo ->
     xo < dist_threshold _params ->
     cell (skim _inData) d (center (stats _inData)) = Some xd ->
     xd < dist_threshold _params ->
     exists x, cell (skim _inData) o d = Some x /\ x < dist_threshold _params) ->
  returned (snd (generate_demand math_exp 0 _inData _params avg_speed g))
  = true.
Proof.
  intros Hwf Hnear.
  destruct (well_formed_stages math_exp _inData _params avg_speed g Hwf)
    as (df & g1 & distances & rows & g2 & Hinit & Hc & Hlab & Hwo & Hwd & Hd
        & Hloc & Hrl & Hbuild).
  destruct Hwf as (_ & _ & _ & _ & _ & _ & _ & Hrange & _).
  assert (Hfar : existsb (too_far (dist_threshold _params)) rows = false).
  { apply not_true_is_false. intros H. apply existsb_exists in H.
    destruct H as (q & Hq & Hf).
    rewrite Forall_forall in Hd, Hloc.
    destruct (Hd q Hq) as (o & d & Ho & Hde & Hio & Hid).
    destruct (candidate_set_Ok _ _ _ _ Hc) as [_ Hall].
    destruct (Hall o Hio) as (Hoi & xo & Hxo & Hlo).
    destruct (Hall d Hid) as (Hdi & xd & Hxd & Hld).
    destruct (Hnear o d xo xd Hoi Hdi Hxo Hlo Hxd Hld) as (y & Hy & Hylt).
    pose proof (Hloc q Hq) as Hl. unfold located, request_dist in Hl.
    rewrite Ho, Hde in Hl. apply loc_Ok in Hl.
    assert (Hdist : dist q = Some y) by congruence.
    rewrite (below_not_too_far _ _ _ Hdist Hylt) in Hf. discriminate. }
  unfold generate_demand. rewrite Hinit, (Hbuild 0%nat). unfold bind.
  simpl resample_loop. rewrite Hfar. unfold ret.
  destruct (finish_requests_total _params avg_speed df rows) as [out Hout].
  - exact Hrl.
  - intros r Hr. rewrite Forall_forall in Hd, Hloc.
    apply (located_in_range (skim _inData) distances r Hlab Hrange
             (Hd r Hr) (Hloc r Hr)).
  - unfold lift. rewrite Hout. reflexivity.
Qed.

End NoException.

(** ** The vehicles, in full *)

Lemma map_fst_combine {A B : Type} (l : list A) :
  forall l' : list B,
    (List.length l <= List.length l')%nat -> map fst (combine l l') = l.
Proof.
  induction l as [| a l IH]; intros [| b l'] H; simpl in *; try lia;
    try reflexivity.
  f_equal. apply IH. lia.
Qed.

Lemma concat_keys_labels objs keys vehs :
  concat_keys objs keys = Ok vehs ->
  (List.length keys <= List.length objs)%nat ->
  map veh_index vehs = keys.
Proof.
  unfold concat_keys. destruct objs as [| o objs]; [discriminate |].
  intros H Hlen.
  assert (Hv : vehs = map (fun p => set_veh_index (snd p) (fst p))
                        (combine keys (o :: objs))).
  { destruct (combine keys (o :: objs)); [discriminate |].
    inversion H. reflexivity. }
  subst vehs. clear H.
  rewrite map_map. simpl. apply map_fst_combine. exact Hlen.
Qed.

Lemma generate_vehicles_no_node _inData n g :
  (0 < n)%nat -> nodes _inData = [] ->
  generate_vehicles _inData n g
  = Raise (IndexError "Cannot choose from an empty sequence").
Proof.
  intros Hn He. destruct n as [| m]; [lia |].
  unfold generate_vehicles, concat_keys, range. cbv zeta.
  replace (S m + 1 - 0)%nat with (S (S m)) by lia.
  replace (S m + 1 - 1)%nat with (S m) by lia.
  rewrite He. reflexivity.
Qed.

Lemma generate_vehicles_returned _inData n g :
  NoDup (nodes _inData) ->
  (returned (generate_vehicles _inData n g) = true <->
   (0 < n)%nat /\ nodes _inData <> []).
Proof.
  intros Hnd. split.
  - intros H. destruct n as [| m].
    + rewrite generate_vehicles_none in H. discriminate.
    + split; [lia |]. intros He.
      rewrite (generate_vehicles_no_node _inData (S m) g ltac:(lia) He) in H.
      discriminate.
  - intros [Hn Hne].
    destruct (generate_vehicles_returns _inData n g Hn Hne Hnd)
      as (v & g' & H).
    rewrite H. reflexivity.
Qed.

(** X8. On a table of nodes with unique labels, [generate_vehicles] returns
    exactly when at least one vehicle is asked for and there is a node to put
    it on: for no vehicle the concatenation refuses, with vehicles and no
    node the choice of a node fails. *)
Theorem generate_vehicles_returns_iff _inData n g :
  NoDup (nodes _inData) ->
  (returned (generate_vehicles _inData n g) = true <->
   (0 < n)%nat /\ nodes _inData <> []) /\
  (n = 0%nat ->
   generate_vehicles _inData n g
   = Raise (ValueError "All objects passed were None")) /\
  ((0 < n)%nat -> nodes _inData = [] ->
   generate_vehicles _inData n g
   = Raise (IndexError "Cannot choose from an empty sequence")).
Proof.
  intros Hnd. split; [apply generate_vehicles_returned, Hnd | split].
  - intros ->. reflexivity.
  - apply generate_vehicles_no_node.
Qed.

(** X9. The vehicles that [generate_vehicles] produces are labelled
    1, ..., nV in this order; each stands on a node of the network, has
    started the day, belongs to platform 0 and works from second 0 to second
    86400. *)
Theorem generate_vehicles_rows _inData n g vehs :
  result (generate_vehicles _inData n g) = Some vehs ->
  map veh_index vehs = range 1 (n + 1) /\
  Forall (fun v =>
            (exists x, veh_pos v = Some x /\ In x (nodes _inData)) /\
            event v = Some driverEvent.STARTS_DAY /\
            platform v = Some 0%Z /\
            shift_start v = Some 0%Z /\ shift_end v = Some 86400%Z)
         vehs.
Proof.
  intros H. apply result_Some in H. destruct H as [g' H].
  unfold generate_vehicles in H. cbv zeta in H.
  run_bind H as rows g1 Hc. run_end Hc.
  match goal with Hk : concat_keys _ _ = Ok _ |- _ =>
    apply concat_keys_labels in Hk;
      [rename Hk into Hlab | rewrite length_map, !range_length; lia] end.
  apply mapM_Ok in H. apply Forall2_map_l in H.
  assert (Hrel : Forall2 (fun a v =>
                   veh_index v = veh_index a /\
                   (exists x, veh_pos v = Some x /\ In x (nodes _inData)) /\
                   event v = Some driverEvent.STARTS_DAY /\
                   platform v = Some 0%Z /\
                   shift_start v = Some 0%Z /\ shift_end v = Some 86400%Z)
                 rows vehs).
  { eapply Forall2_impl; [| exact H].
    intros a v (ga & gb & Hv). cbv beta in Hv.
    run_bind Hv as x gc Hx. run_end Hv. apply rand_node_Ok in Hx.
    destruct Hx as [Hx _].
    simpl. repeat split. exists x. auto. }
  split.
  - rewrite <- Hlab. clear -Hrel.
    induction Hrel as [| a v l l' [Hi _] _ IH]; simpl;
      [reflexivity | congruence].
  - eapply Forall2_Forall_r; [| exact Hrel]. intros a v [_ Hv]. exact Hv.
Qed.

(** ** The rows of [generic_generator] *)

(** X10. [generic_generator] refuses to make no row, and returns for any
    positive [n] when the generator does; what it returns for [n] are [n]
    rows under the keys 1, ..., n in this order, the row under key [i] being
    what the generator gave for [i]. *)
Theorem generic_generator_rows {R : Type} (generator : Z -> Rand R) n g :
  (n = 0%nat ->
   generic_generator generator n g
   = Raise (ValueError "No objects to concatenate")) /\
  ((0 < n)%nat ->
   (forall i g0, exists r g1, generator i g0 = Ok (r, g1)) ->
   returned (generic_generator generator n g) = true) /\
  (forall rows,
     result (generic_generator generator n g) = Some rows ->
     (0 < n)%nat /\
     map fst rows = range 1 (n + 1) /\
     Forall (fun kr => exists g1 g2,
                 generator (fst kr) g1 = Ok (snd kr, g2)) rows).
Proof.
  split; [| split].
  - intros ->. reflexivity.
  - intros Hn Hgen. unfold generic_generator.
    destruct (mapM_total generator Hgen (range 1 (n + 1)) g)
      as (objs & g1 & Hobjs).
    erewrite bind_run_Ok by exact Hobjs.
    apply mapM_Ok in Hobjs.
    pose proof (Forall2_length_eq _ _ _ Hobjs) as Hlen.
    rewrite range_length in Hlen.
    destruct objs as [| o objs]; [simpl in Hlen; lia |].
    unfold concat_rows, range.
    replace (n + 1 - 1)%nat with (S (n - 1)) by lia. reflexivity.
  - intros rows H. apply result_Some in H. destruct H as [g' H].
    unfold generic_generator in H.
    run_bind H as objs g1 Hobjs. run_end H.
    match goal with Hk : concat_rows _ _ = Ok _ |- _ => rename Hk into Hc end.
    apply mapM_Ok in Hobjs.
    pose proof (Forall2_length_eq _ _ _ Hobjs) as Hlen.
    rewrite range_length in Hlen.
    unfold concat_rows in Hc. destruct objs as [| o objs]; [discriminate |].
    assert (Hv : rows = combine (range 1 (n + 1)) (o :: objs)).
    { destruct (combine (range 1 (n + 1)) (o :: objs)); [discriminate |].
      inversion Hc. reflexivity. }
    subst rows. clear Hc.
    split; [simpl in Hlen; lia |]. split.
    + apply map_fst_combine. rewrite range_length. lia.
    + revert Hobjs. generalize (o :: objs) as os.
      generalize (range 1 (n + 1)) as ks.
      induction ks as [| k ks IH]; intros os Hf; inversion Hf; subst;
        simpl; constructor.
      * simpl. assumption.
      * apply IH. assumption.
Qed.

(** ** The radius *)

Lemma insert_Q_In x y l : In y (insert_Q x l) -> y = x \/ In y l.
Proof.
  induction l as [| z l IH]; simpl.
  - intros [H | []]. left. symmetry. exact H.
  - destruct (Qle_bool x z); simpl.
    + intros [H | H]; [left; symmetry; exact H | right; exact H].
    + intros [H | H]; [right; left; exact H |].
      destruct (IH H) as [E | E]; [left; exact E | right; right; exact E].
Qed.

Lemma sort_Q_In y l : In y (sort_Q l) -> In y l.
Proof.
  induction l as [| x l IH]; simpl; [tauto |].
  intros H. apply insert_Q_In in H.
  destruct H as [-> | H]; [left; reflexivity | right; apply IH, H].
Qed.

Lemma sort_Q_length l : List.length (sort_Q l) = List.length l.
Proof.
  assert (Hins : forall x l0, List.length (insert_Q x l0) = S (List.length l0)).
  { intros x l0. induction l0 as [| z l0 IH]; simpl; [reflexivity |].
    destruct (Qle_bool x z); simpl; congruence. }
  induction l as [| x l IH]; simpl; [reflexivity |].
  rewrite Hins. congruence.
Qed.

Lemma dropna_values r x (s : list (Z * option Q)) :
  In (r, x) (dropna s) -> In (r, Some x) s.
Proof.
  induction s as [| [a [v |]] s IH]; simpl; intros H; try contradiction.
  - destruct H as [H | H]; [inversion H; left; reflexivity | right; auto].
  - right. auto.
Qed.

Lemma nth_default_In {A : Type} (l : list A) n d :
  In d l -> In (nth n l d) l.
Proof.
  intros Hd. destruct (Nat.lt_ge_cases n (List.length l)) as [H | H].
  - apply nth_In, H.
  - rewrite nth_overflow by exact H. exact Hd.
Qed.

(** A quantile lies between any two bounds of the values that are there,
    and is missing exactly when no value is there. *)
Lemma quantile_between q (s : list (Z * option Q)) :
  (forall m M,
     (forall r x, In (r, Some x) s -> m <= x /\ x <= M) ->
     forall v, quantile q s = Some v -> m <= v /\ v <= M) /\
  (quantile q s = None <-> forall r x, ~ In (r, Some x) s).
Proof.
  unfold quantile. split.
  - intros m M Hb v.
    destruct (sort_Q (map snd (dropna s))) as [| v0 vs] eqn:E; [discriminate |].
    cbv zeta.
    set (pos := inject_Z (Z.of_nat (List.length (v0 :: vs)) - 1) * q).
    set (a := nth (Z.to_nat (Qfloor pos)) (v0 :: vs) v0).
    set (b := nth (S (Z.to_nat (Qfloor pos))) (v0 :: vs) a).
    set (frac := pos - inject_Z (Qfloor pos)).
    intros H.
    assert (Hv : v = a + (b - a) * frac) by congruence.
    clear H. subst v.
    assert (Hin : forall y, In y (v0 :: vs) -> m <= y /\ y <= M).
    { intros y Hy. rewrite <- E in Hy. apply sort_Q_In in Hy.
      apply in_map_iff in Hy. destruct Hy as ([r x] & <- & Hrx).
      apply dropna_values in Hrx. simpl. eapply Hb, Hrx. }
    assert (Ha : In a (v0 :: vs))
      by (apply nth_default_In; left; reflexivity).
    assert (Hbin : In b (v0 :: vs)) by (apply nth_default_In, Ha).
    destruct (Hin a Ha) as [Ha1 Ha2]. destruct (Hin b Hbin) as [Hb1 Hb2].
    assert (Hf0 : 0 <= frac) by (unfold frac; pose proof (Qfloor_le pos); lra).
    assert (Hf1 : frac <= 1).
    { unfold frac. pose proof (Qlt_floor pos) as Hlt.
      rewrite inject_Z_plus in Hlt. change (inject_Z 1) with 1 in Hlt. lra. }
    destruct (Qlt_le_dec b a) as [Hlt | Hle].
    + assert (K3 : (a - b) * frac <= a - b).
      { pose proof (Qmult_le_compat_r frac 1 (a - b) Hf1 ltac:(lra)) as Hm.
        rewrite Qmult_1_l in Hm. rewrite Qmult_comm. exact Hm. }
      assert (K4 : 0 <= (a - b) * frac)
        by (apply Qmult_le_0_compat; [lra | exact Hf0]).
      assert (K5 : (b - a) * frac == - ((a - b) * frac)) by ring.
      split; lra.
    + assert (K1 : 0 <= (b - a) * frac)
        by (apply Qmult_le_0_compat; [lra | exact Hf0]).
      assert (K2 : (b - a) * frac <= b - a).
      { pose proof (Qmult_le_compat_r frac 1 (b - a) Hf1 ltac:(lra)) as Hm.
        rewrite Qmult_1_l in Hm. rewrite Qmult_comm. exact Hm. }
      split; lra.
  - split.
    + destruct (sort_Q (map snd (dropna s))) as [| v0 vs] eqn:E;
        [| discriminate].
      intros _ r x Hin. apply dropna_In in Hin.
      assert (Hlen : List.length (sort_Q (map snd (dropna s))) = 0%nat)
        by (rewrite E; reflexivity).
      rewrite sort_Q_length, length_map in Hlen.
      destruct (dropna s); [contradiction | discriminate].
    + intros Hnone.
      destruct (sort_Q (map snd (dropna s))) as [| v0 vs] eqn:E;
        [reflexivity |].
      exfalso.
      assert (Hv : In v0 (sort_Q (map snd (dropna s))))
        by (rewrite E; left; reflexivity).
      apply sort_Q_In in Hv. apply in_map_iff in Hv.
      destruct Hv as ([r x] & _ & Hrx). apply dropna_values in Hrx.
      exact (Hnone r x Hrx).
Qed.

Section Radius.

Variable get_nearest_node : Graph -> Q * Q -> Z.

(** X11. [networkstats] succeeds exactly when the graph has a node and the
    node nearest to the centroid is a column of the skim (whose column labels
    are unique), and raises a [KeyError] otherwise.  The radius it returns
    then lies between the smallest and the largest distance of that column,
    and is missing exactly when the column holds no number. *)
Theorem networkstats_radius_within _inData :
  NoDup (columns (skim _inData)) ->
  let nearest :=
    get_nearest_node (G _inData)
      (mean (map (fun n => snd (snd n)) (G _inData)),
       mean (map (fun n => fst (snd n)) (G _inData))) in
  (G _inData = [] \/ mem nearest (columns (skim _inData)) = false ->
   exists e, networkstats get_nearest_node _inData = Raise e /\
             exn_class e = "KeyError") /\
  (G _inData <> [] -> mem nearest (columns (skim _inData)) = true ->
   exists rad,
     networkstats get_nearest_node _inData
     = Ok {| center := nearest; radius := rad |} /\
     (forall m M,
        (forall r x, In r (index (skim _inData)) ->
                     cell (skim _inData) r nearest = Some x ->
                     m <= x /\ x <= M) ->
        forall v, rad = Some v -> m <= v /\ v <= M) /\
     (rad = None <->
      forall r, In r (index (skim _inData)) ->
                cell (skim _inData) r nearest = None)).
Proof.
  intros _ nearest. unfold networkstats, column. fold nearest. split.
  - intros [Hg | Hm].
    + rewrite Hg. eexists. split; reflexivity.
    + destruct (G _inData); [eexists; split; reflexivity |].
      rewrite Hm. eexists. split; reflexivity.
  - intros Hg Hm. destruct (G _inData) as [| n0 gr] eqn:Eg; [contradiction |].
    rewrite Hm. eexists. split; [reflexivity |].
    set (s := map (fun r => (r, cell (skim _inData) r nearest))
                (index (skim _inData))).
    assert (Hs : forall r x, In (r, Some x) s <->
                   In r (index (skim _inData)) /\
                   cell (skim _inData) r nearest = Some x).
    { intros r x. unfold s. rewrite in_map_iff. split.
      - intros (r0 & E & Hr). inversion E. subst. auto.
      - intros [Hr Hx]. exists r. rewrite Hx. auto. }
    destruct (quantile_between (3 # 4) s) as [Hbounds Hnone]. split.
    + intros m M Hb v Hv. apply (Hbounds m M); [| exact Hv].
      intros r x Hin. apply Hs in Hin. destruct Hin. eauto.
    + rewrite Hnone. split.
      * intros H r Hr. destruct (cell (skim _inData) r nearest) as [x |] eqn:E;
          [| reflexivity].
        exfalso. apply (H r x). apply Hs. auto.
      * intros H r x Hin. apply Hs in Hin. destruct Hin as [Hr Hx].
        rewrite (H r Hr) in Hx. discriminate.
Qed.

End Radius.

(** ** Supply and demand together *)

Lemma each_total {A B : Type} (f : A -> outcome B) (b : B) l :
  (forall a, In a l -> f a = Ok b) -> each f l = Ok (map (fun _ => b) l).
Proof.
  induction l as [| a l IH]; intros H; simpl; [reflexivity |].
  rewrite (H a (or_introl eq_refl)), IH; [reflexivity |].
  intros a' Ha'. apply H. right. exact Ha'.
Qed.

Lemma passenger_platform_zero ps r :
  (exists p, In p ps /\ pax_index p = req_index r) ->
  Forall (fun p => platforms p = Some [0%Z]) ps ->
  passenger_platform ps r = Ok (Some 0%Z).
Proof.
  intros (p & Hp & Hi) Hall. unfold passenger_platform.
  destruct (find (fun p0 => Z.eqb (pax_index p0) (req_index r)) ps)
    as [p' |] eqn:E.
  - apply find_some in E. destruct E as [Hin _].
    rewrite Forall_forall in Hall. rewrite (Hall p' Hin). reflexivity.
  - exfalso. pose proof (find_none _ _ E p Hp) as Hn. simpl in Hn.
    rewrite Hi, Z.eqb_refl in Hn. discriminate.
Qed.

Section Prepared.

Variable math_exp : Q -> option Q.

Lemma generate_demand_keeps fuel _inData _params avg_speed g :
  nodes (fst (generate_demand math_exp fuel _inData _params avg_speed g))
  = nodes _inData /\
  skim (fst (generate_demand math_exp fuel _inData _params avg_speed g))
  = skim _inData /\
  vehicles (fst (generate_demand math_exp fuel _inData _params avg_speed g))
  = vehicles _inData.
Proof.
  unfold generate_demand.
  destruct (init_passengers _inData _params g) as [[df g1] | e |];
    try (repeat split; reflexivity).
  destruct (build_requests math_exp fuel (set_passengers _inData df) _params
              avg_speed df g1) as [[reqs g2] | e |];
    repeat split; reflexivity.
Qed.

(** The column [platform] of the requests after a successful demand
    generation and the passengers' platforms set to [0]. *)
Lemma request_platforms_zero fuel _inData _params g :
  returned (snd (generate_demand math_exp fuel _inData _params true g)) = true ->
  each (passenger_platform
          (map (fun p => set_platforms p (Some [0%Z]))
             (passengers (fst (generate_demand math_exp fuel _inData _params
                                 true g)))))
       (requests (fst (generate_demand math_exp fuel _inData _params true g)))
  = Ok (map (fun _ => Some 0%Z)
          (requests (fst (generate_demand math_exp fuel _inData _params
                            true g)))).
Proof.
  intros H. apply generate_demand_labelled in H.
  apply each_total. intros r Hr. apply passenger_platform_zero.
  - clear -H Hr. induction H as [| p r0 l l' Hpr _ IH]; [contradiction |].
    destruct Hr as [-> | Hr].
    + exists (set_platforms p (Some [0%Z])). split; [left; reflexivity |].
      simpl. symmetry. exact Hpr.
    + destruct (IH Hr) as (q & Hq & Hi). exists q.
      split; [right; exact Hq | exact Hi].
  - apply Forall_forall. intros q Hq. apply in_map_iff in Hq.
    destruct Hq as (q0 & <- & _). reflexivity.
Qed.

(** X12. On a table of nodes with unique labels,
    [prep_supply_and_demand] returns exactly when [generate_demand] (with
    [avg_speed]) returns, at least one vehicle is asked for, the network has
    a node, and the table of the platforms has three columns.  When the
    demand is generated but no vehicle is asked for, the call raises with
    the generated requests already in [_inData]. *)
Theorem prep_supply_and_demand_returns_iff fuel _inData params g :
  NoDup (nodes (core _inData)) ->
  (returned (snd (prep_supply_and_demand math_exp fuel _inData params g)) = true
   <->
   returned (snd (generate_demand math_exp fuel (core _inData) params true g))
   = true /\
   (0 < nV params)%nat /\ nodes (core _inData) <> [] /\
   List.length (tab_columns (initialize_df (platforms_table _inData))) = 3%nat)
  /\
  (returned (snd (generate_demand math_exp fuel (core _inData) params true g))
   = true ->
   nV params = 0%nat ->
   snd (prep_supply_and_demand math_exp fuel _inData params g)
   = Raise (ValueError "All objects passed were None") /\
   requests (core (fst (prep_supply_and_demand math_exp fuel _inData params g)))
   = requests (fst (generate_demand math_exp fuel (core _inData) params true g))).
Proof.
  intros Hnd.
  pose proof (generate_demand_keeps fuel (core _inData) params true g)
    as (Hnodes & _ & _).
  pose proof (request_platforms_zero fuel (core _inData) params g) as Hcol.
  unfold prep_supply_and_demand.
  destruct (generate_demand math_exp fuel (core _inData) params true g)
    as [d [g1 | e |]] eqn:Egd; simpl fst in *; simpl snd in *.
  - specialize (Hcol eq_refl).
    pose proof (generate_vehicles_returned d (nV params) g1) as Hiff.
    assert (Hzero : nV params = 0%nat ->
              generate_vehicles d (nV params) g1
              = Raise (ValueError "All objects passed were None"))
      by (intros ->; reflexivity).
    rewrite Hnodes in Hiff. specialize (Hiff Hnd).
    destruct (generate_vehicles d (nV params) g1) as [[vehs g2] | e |] eqn:Ev.
    + cbv zeta. simpl passengers. simpl requests. rewrite Hcol.
      destruct (proj1 Hiff eq_refl) as [HnV Hne].
      unfold loc_set_row.
      change (List.length [VInt 1; VStr "Platform"; VInt 1]) with 3%nat.
      destruct (Nat.eqb_spec 3
                  (List.length
                     (tab_columns (initialize_df (platforms_table _inData)))))
        as [E3 | E3]; simpl.
      * split; [| intros _ Hz; lia].
        split; [intros _; repeat split; auto | reflexivity].
      * split; [| intros _ Hz; lia].
        split; [discriminate |].
        intros (_ & _ & _ & H3). exfalso. apply E3. symmetry. exact H3.
    + simpl. split.
      * split; [discriminate |].
        intros (_ & HnV & Hne & _).
        pose proof (proj2 Hiff (conj HnV Hne)). discriminate.
      * intros _ Hz. specialize (Hzero Hz). inversion Hzero.
        split; reflexivity.
    + simpl. split.
      * split; [discriminate |].
        intros (_ & HnV & Hne & _).
        pose proof (proj2 Hiff (conj HnV Hne)). discriminate.
      * intros _ Hz. specialize (Hzero Hz). discriminate.
  - simpl. split; [| discriminate].
    split; [discriminate | intros [H _]; discriminate].
  - simpl. split; [| discriminate].
    split; [discriminate | intros [H _]; discriminate].
Qed.

(** X13. What [prep_supply_and_demand] leaves when it returns: the requests
    and passengers of [generate_demand] with [avg_speed], [nP] of each, and
    [nV] vehicles; every request, vehicle and passenger is on platform 0;
    the table of the platforms keeps its columns and holds the one row
    [0: 1, 'Platform', 1]. *)
Theorem prep_supply_and_demand_result fuel _inData params g :
  returned (snd (prep_supply_and_demand math_exp fuel _inData params g)) = true ->
  requests (core (fst (prep_supply_and_demand math_exp fuel _inData params g)))
  = requests (fst (generate_demand math_exp fuel (core _inData) params true g))
  /\
  List.length
    (requests (core (fst (prep_supply_and_demand math_exp fuel _inData
                            params g)))) = nP params /\
  List.length
    (passengers (core (fst (prep_supply_and_demand math_exp fuel _inData
                              params g)))) = nP params /\
  List.length
    (vehicles (core (fst (prep_supply_and_demand math_exp fuel _inData
                            params g)))) = nV params /\
  requests_platform (fst (prep_supply_and_demand math_exp fuel _inData params g))
  = map (fun _ => Some 0%Z)
      (requests (core (fst (prep_supply_and_demand math_exp fuel _inData
                              params g)))) /\
  Forall (fun v => platform v = Some 0%Z)
    (vehicles (core (fst (prep_supply_and_demand math_exp fuel _inData
                            params g)))) /\
  Forall (fun p => platforms p = Some [0%Z])
    (passengers (core (fst (prep_supply_and_demand math_exp fuel _inData
                              params g)))) /\
  platforms_table (fst (prep_supply_and_demand math_exp fuel _inData params g))
  = IsFrame
      {| tab_columns := tab_columns (initialize_df (platforms_table _inData));
         tab_index_name := Some "id";
         tab_rows := [(0%Z, [VInt 1; VStr "Platform"; VInt 1])] |}.
Proof.
  pose proof (request_platforms_zero fuel (core _inData) params g) as Hcol.
  pose proof (generate_demand_requests math_exp fuel (core _inData) params
                true g) as Hlen.
  unfold prep_supply_and_demand.
  destruct (generate_demand math_exp fuel (core _inData) params true g)
    as [d [g1 | e |]] eqn:Egd; simpl fst in *; simpl snd in *;
    try discriminate.
  specialize (Hcol eq_refl).
  destruct (Hlen eq_refl) as (df & pre & Hfin & HnP & Hpre & Hpas & _).
  apply finish_requests_length in Hfin.
  pose proof (generate_vehicles_length d (nV params) g1) as Hveh.
  destruct (generate_vehicles d (nV params) g1) as [[vehs g2] | e |] eqn:Ev;
    try discriminate.
  cbv zeta. simpl passengers. simpl requests. rewrite Hcol.
  unfold loc_set_row.
  change (List.length [VInt 1; VStr "Platform"; VInt 1]) with 3%nat.
  destruct (Nat.eqb 3
              (List.length
                 (tab_columns (initialize_df (platforms_table _inData)))));
    simpl; [| discriminate].
  intros _. rewrite !length_map.
  split; [reflexivity |]. split; [congruence |]. split; [congruence |].
  split; [apply Hveh; reflexivity |]. split; [reflexivity |].
  split; [| split; [| reflexivity]].
  - apply Forall_forall. intros v Hv. apply in_map_iff in Hv.
    destruct Hv as (v0 & <- & _). reflexivity.
  - apply Forall_forall. intros q Hq. apply in_map_iff in Hq.
    destruct Hq as (q0 & <- & _). reflexivity.
Qed.

End Prepared.

(** ** The search space *)

Lemma slice_points_sliceme {A : Type} (l : list A) :
  slice_points (sliceme l) = Z.of_nat (List.length l).
Proof.
  unfold slice_points, sliceme. simpl.
  rewrite Z.sub_0_r, Z.add_simpl_r, Z.div_1_r. lia.
Qed.

(** X14. [slice_space] returns one slice for each key of the space, from 0
    to the number of values of the key in steps of 1, and one more from 0 to
    [replications] when more than one replication is asked for; the sizes it
    reports are the numbers of points of these slices, and the total size is
    their product. *)
Theorem slice_space_sizes {A : Type} (s : list (string * list A)) replications :
  ret_ (slice_space s replications)
  = (map (fun kv => sliceme (snd kv)) s
     ++ (if Z.ltb 1 replications
         then [{| start := 0; stop := replications; step := 1 |}]
         else []))%list /\
  sizes (slice_space s replications)
  = map slice_points (ret_ (slice_space s replications)) /\
  size (slice_space s replications)
  = fold_right Z.mul 1%Z (sizes (slice_space s replications)).
Proof.
  unfold slice_space.
  set (stepf := fun (acc : space) (kv : string * list A) =>
                  {| ret_ := (ret_ acc ++ [sliceme (snd kv)])%list;
                     sizes := (sizes acc ++ [Z.of_nat (List.length (snd kv))])%list;
                     size := size acc * Z.of_nat (List.length (snd kv)) |}).
  assert (Hfold : forall l acc,
            ret_ (fold_left stepf l acc)
            = (ret_ acc ++ map (fun kv => sliceme (snd kv)) l)%list /\
            sizes (fold_left stepf l acc)
            = (sizes acc ++ map (fun kv => Z.of_nat (List.length (snd kv))) l)%list /\
            size (fold_left stepf l acc)
            = (size acc
               * fold_right Z.mul 1
                   (map (fun kv => Z.of_nat (List.length (snd kv))) l))%Z).
  { induction l as [| kv l IH]; intros acc; simpl.
    - rewrite !app_nil_r. repeat split; try reflexivity; lia.
    - destruct (IH (stepf acc kv)) as (H1 & H2 & H3).
      rewrite H1, H2, H3. unfold stepf. simpl.
      rewrite <- !app_assoc. simpl. repeat split; try reflexivity; lia. }
  destruct (Hfold s {| ret_ := []; sizes := []; size := 1 |})
    as (H1 & H2 & H3). cbn [ret_ sizes size app] in H1, H2, H3.
  assert (Hprod : forall l x,
            fold_right Z.mul 1%Z (l ++ [x])%list
            = (fold_right Z.mul 1 l * x)%Z).
  { induction l as [| y l IH]; intros x; cbn [app fold_right]; [lia |].
    rewrite IH. lia. }
  assert (Hpts : map slice_points (map (fun kv => sliceme (snd kv)) s)
                 = map (fun kv => Z.of_nat (List.length (snd kv))) s).
  { rewrite map_map. apply map_ext. intros kv. apply slice_points_sliceme. }
  destruct (Z.ltb_spec 1 replications) as [Hr | Hr]; cbn [ret_ sizes size].
  - rewrite H1, H2, H3. split; [reflexivity |]. split.
    + rewrite map_app, Hpts. cbn [map]. f_equal. f_equal.
      unfold slice_points. cbn [start stop step].
      rewrite Z.sub_0_r, Z.add_simpl_r, Z.div_1_r. lia.
    + rewrite Hprod. lia.
  - rewrite H1, H2, H3, app_nil_r. split; [reflexivity |]. split.
    + rewrite Hpts. reflexivity.
    + lia.
Qed.

(** ** What [generate_demand] leaves alone *)

Section Frame.

Variable math_exp : Q -> option Q.

(** X15. Whatever its outcome, [generate_demand] changes nothing of
    [_inData] but the passengers and the requests: the graph, the nodes, the
    skim, the statistics and the vehicles are as before; and unless it
    returns, the requests are as before too. *)
Theorem generate_demand_frame fuel _inData _params avg_speed g :
  G (fst (generate_demand math_exp fuel _inData _params avg_speed g))
  = G _inData /\
  nodes (fst (generate_demand math_exp fuel _inData _params avg_speed g))
  = nodes _inData /\
  skim (fst (generate_demand math_exp fuel _inData _params avg_speed g))
  = skim _inData /\
  stats (fst (generate_demand math_exp fuel _inData _params avg_speed g))
  = stats _inData /\
  vehicles (fst (generate_demand math_exp fuel _inData _params avg_speed g))
  = vehicles _inData /\
  (returned (snd (generate_demand math_exp fuel _inData _params avg_speed g))
   = false ->
   requests (fst (generate_demand math_exp fuel _inData _params avg_speed g))
   = requests _inData).
Proof.
  split; [| split; [| split; [| split; [| split]]]];
    try apply generate_demand_failed;
    unfold generate_demand;
    destruct (init_passengers _inData _params g) as [[df g1] | e |];
    try reflexivity;
    destruct (build_requests math_exp fuel (set_passengers _inData df) _params
                avg_speed df g1) as [[reqs g2] | e |];
    reflexivity.
Qed.

End Frame.

(** ** No passenger *)

Section NoPassenger.

Variable math_exp : Q -> option Q.

(** X16. Asked for no passenger, [generate_demand] does not return: where
    nothing fails before, line 171 refuses the frame that [apply] gives for a
    table without rows.  The requests of [_inData] stay as they were. *)
Theorem generate_demand_without_passengers fuel _inData _params avg_speed g :
  nP _params = 0%nat ->
  returned (snd (generate_demand math_exp fuel _inData _params avg_speed g))
  = false /\
  requests (fst (generate_demand math_exp fuel _inData _params avg_speed g))
  = requests _inData.
Proof.
  intros HnP.
  assert (H : returned (snd (generate_demand math_exp fuel _inData _params
                               avg_speed g)) = false).
  { destruct (returned (snd (generate_demand math_exp fuel _inData _params
                               avg_speed g))) eqn:E; [| reflexivity].
    exfalso. apply generate_demand_returned in E.
    destruct E as (df & g1 & reqs & g2 & Hinit & Hbuild & _).
    apply init_passengers_Ok in Hinit. destruct Hinit as (_ & _ & _ & Hlen).
    apply build_requests_some in Hbuild.
    destruct df; [contradiction | simpl in Hlen; lia]. }
  split; [exact H | apply generate_demand_failed, H].
Qed.

End NoPassenger.

(** ** The further properties on the worked inputs *)

Lemma generate_demand_ends_near_center_witness :
  returned (snd (line_run false)) = true /\
  Forall (fun r =>
            exists o d xo xd,
              origin r = Some o /\ destination r = Some d /\
              In o (index (skim line_data)) /\ In d (index (skim line_data)) /\
              cell (skim line_data) o (center (stats line_data)) = Some xo /\
              cell (skim line_data) d (center (stats line_data)) = Some xd /\
              xo < dist_threshold line_tight /\ xd < dist_threshold line_tight)
         (requests (fst (line_run false))).
Proof.
  unfold line_run.
  assert (H : returned (snd (generate_demand exp_flat 5 line_data line_tight
                               false line_stream)) = true)
    by (vm_compute; reflexivity).
  split; [exact H |].
  apply generate_demand_ends_near_center. exact H.
Defined.

Lemma generate_demand_treq_window_witness :
  temporal_distribution line_tight = "uniform" /\
  0 <= simTime line_tight /\
  returned (snd (line_run false)) = true /\
  Forall (fun r =>
            exists t,
              treq r = Some t /\
              inject_Z (t0 line_tight) - simTime line_tight * 60 * 60 / 2
              <= inject_Z t /\
              inject_Z t
              <= inject_Z (t0 line_tight) + simTime line_tight * 60 * 60 / 2)
         (requests (fst (line_run false))).
Proof.
  unfold line_run.
  assert (H1 : temporal_distribution line_tight = "uniform") by reflexivity.
  assert (H2 : 0 <= simTime line_tight) by (unfold Qle; simpl; lia).
  assert (H3 : returned (snd (generate_demand exp_flat 5 line_data line_tight
                                false line_stream)) = true)
    by (vm_compute; reflexivity).
  split; [exact H1 |]. split; [exact H2 |]. split; [exact H3 |].
  apply generate_demand_treq_window; assumption.
Defined.

Lemma generate_demand_passengers_and_requests_witness :
  returned (snd (line_run false)) = true /\
  map pax_index (passengers (fst (line_run false))) = range 0 (nP line_tight).
Proof.
  unfold line_run.
  assert (H : returned (snd (generate_demand exp_flat 5 line_data line_tight
                               false line_stream)) = true)
    by (vm_compute; reflexivity).
  split; [exact H |].
  exact (proj1 (generate_demand_passengers_and_requests exp_flat 5 line_data
                  line_tight false line_stream H)).
Defined.

Lemma resample_loop_keeps_accepted_witness :
  Forall (located line_skim) line_rows /\
  result (resample_loop 5 line_skim (dist_threshold line_tight) line_candidates
            line_rows line_stream) = Some line_loop /\
  Forall2 (fun r r' =>
             (forall x, dist r = Some x -> x < dist_threshold line_tight ->
                        r' = r) /\
             (dist r = None -> r' = r))
          line_rows line_loop.
Proof.
  assert (H1 : Forall (located line_skim) line_rows)
    by (repeat constructor).
  assert (H2 : result (resample_loop 5 line_skim (dist_threshold line_tight)
                         line_candidates line_rows line_stream)
               = Some line_loop)
    by (vm_compute; reflexivity).
  split; [exact H1 |]. split; [exact H2 |].
  apply (resample_loop_keeps_accepted 5 line_skim (dist_threshold line_tight)
           line_candidates line_rows line_stream line_loop H1 H2).
Defined.

Lemma coarse_skim_entries (k : Q) :
  k == 8 ->
  forall o d,
    In o (index (skim coarse_data)) -> In d (columns (skim coarse_data)) ->
    exists x,
      cell (skim coarse_data) o d = Some x /\ 0 <= x /\
      (true = true -> x + 1 <= 9000000000 * k).
Proof.
  intros Hk o d Ho Hd. eexists. split; [reflexivity |].
  simpl in Ho, Hd.
  assert (Hb : (0 <= Z.abs (o - d) <= 4)%Z) by lia.
  destruct Hb as [H0 H4]. rewrite Zle_Qle in H0, H4.
  change (inject_Z 0) with 0 in H0. change (inject_Z 4) with 4 in H4.
  split; [| intros _; rewrite Hk]; lra.
Qed.

Lemma generate_demand_arrives_after_request_witness :
  (forall o d,
     In o (index (skim coarse_data)) -> In d (columns (skim coarse_data)) ->
     exists x,
       cell (skim coarse_data) o d = Some x /\ 0 <= x /\
       (true = true -> x + 1 <= 9000000000 * speeds_ride coarse_params)) /\
  (true = true -> 0 < speeds_ride coarse_params) /\
  returned (snd (coarse_run true)) = true /\
  Forall (fun r =>
            exists t v a,
              treq r = Some t /\ ttrav r = Some v /\ tarr r = Some a /\
              (0 <= v)%Z /\ (t <= a)%Z)
         (requests (fst (coarse_run true))).
Proof.
  unfold coarse_run.
  assert (H3 : true = true -> 0 < speeds_ride coarse_params)
    by (intros _; reflexivity).
  assert (H4 : returned (snd (generate_demand exp_flat 5 coarse_data
                                coarse_params true line_stream)) = true)
    by (vm_compute; reflexivity).
  pose proof (coarse_skim_entries (speeds_ride coarse_params)
                ltac:(reflexivity)) as H1.
  split; [exact H1 |]. split; [exact H3 |]. split; [exact H4 |].
  exact (generate_demand_arrives_after_request exp_flat 5 coarse_data
           coarse_params true line_stream H1 H3 H4).
Defined.

(** The rows of that run, and of the same run without [avg_speed]. *)
Example coarse_run_rows :
  map (fun r => (dist r, treq r, ttrav r, tarr r))
      (requests (fst (coarse_run true)))
  = [(Some (75 # 2), Some (-440)%Z, Some 4%Z, Some (-436)%Z);
     (Some (0 # 2), Some 1000%Z, Some 0%Z, Some 1000%Z);
     (Some (0 # 2), Some 2440%Z, Some 0%Z, Some 2440%Z)] /\
  map (fun r => (dist r, treq r, ttrav r, tarr r))
      (requests (fst (coarse_run false)))
  = [(Some (75 # 2), Some (-440)%Z, Some 37%Z, Some (-403)%Z);
     (Some (0 # 2), Some 1000%Z, Some 0%Z, Some 1000%Z);
     (Some (0 # 2), Some 2440%Z, Some 0%Z, Some 2440%Z)].
Proof. split; vm_compute; reflexivity. Qed.

Lemma line_well_formed (thr : Q) (avg_speed : bool) :
  0 < thr ->
  well_formed exp_flat line_data (line_params 3 thr "uniform") avg_speed.
Proof.
  intros Hthr. unfold well_formed.
  split; [simpl; lia |].
  split; [simpl; repeat constructor; simpl; intuition discriminate |].
  split; [simpl; repeat constructor; simpl; intuition discriminate |].
  split; [intros r Hr; exact Hr |].
  split; [reflexivity |].
  split.
  { exists 3%Z, (inject_Z 0). split; [simpl; tauto |].
    split; [reflexivity | exact Hthr]. }
  split.
  { intros r x _ _ _. exists 1, 1. repeat split; discriminate. }
  split.
  { intros o d Ho Hd. eexists. split; [reflexivity |].
    simpl in Ho, Hd.
    assert (Hb : (0 <= Z.abs (o - d) <= 4)%Z) by lia.
    destruct Hb as [H0 H4]. rewrite Zle_Qle in H0, H4.
    change (inject_Z 0) with 0 in H0. change (inject_Z 4) with 4 in H4.
    split; lra. }
  split; [reflexivity |].
  split; [discriminate |]. split; [discriminate |].
  split; [simpl; lia |].
  intros _. discriminate.
Qed.

Lemma generate_demand_never_raises_witness :
  well_formed exp_flat line_data line_tight false /\
  raised (snd (generate_demand exp_flat 5 line_data line_tight false
                 line_stream)) = false.
Proof.
  assert (H : well_formed exp_flat line_data line_tight false)
    by (apply line_well_formed; reflexivity).
  split; [exact H |].
  exact (generate_demand_never_raises exp_flat 5 line_data line_tight false
           line_stream H).
Defined.

Lemma generate_demand_returns_without_resampling_witness :
  well_formed exp_flat line_data line_wide true /\
  (forall o d xo xd,
     In o (index (skim line_data)) -> In d (index (skim line_data)) ->
     cell (skim line_data) o (center (stats line_data)) = Some xo ->
     xo < dist_threshold line_wide ->
     cell (skim line_data) d (center (stats line_data)) = Some xd ->
     xd < dist_threshold line_wide ->
     exists x, cell (skim line_data) o d = Some x /\
               x < dist_threshold line_wide) /\
  returned (snd (generate_demand exp_flat 0 line_data line_wide true
                   line_stream)) = true.
Proof.
  assert (H : well_formed exp_flat line_data line_wide true)
    by (apply line_well_formed; reflexivity).
  assert (H5 : forall o d xo xd,
     In o (index (skim line_data)) -> In d (index (skim line_data)) ->
     cell (skim line_data) o (center (stats line_data)) = Some xo ->
     xo < dist_threshold line_wide ->
     cell (skim line_data) d (center (stats line_data)) = Some xd ->
     xd < dist_threshold line_wide ->
     exists x, cell (skim line_data) o d = Some x /\
               x < dist_threshold line_wide).
  { intros o d xo xd Ho Hd _ _ _ _. eexists. split; [reflexivity |].
    simpl in Ho, Hd. unfold Qlt. simpl. lia. }
  split; [exact H |]. split; [exact H5 |].
  exact (generate_demand_returns_without_resampling exp_flat line_data
           line_wide true line_stream H H5).
Defined.

Lemma generate_vehicles_rows_witness :
  exists vehs,
    result (generate_vehicles line_data 2 line_stream) = Some vehs /\
    map veh_index vehs = range 1 (2 + 1).
Proof.
  destruct (result (generate_vehicles line_data 2 line_stream))
    as [vehs |] eqn:E; [| vm_compute in E; discriminate].
  exists vehs. split; [reflexivity |].
  exact (proj1 (generate_vehicles_rows line_data 2 line_stream vehs E)).
Defined.

Lemma prep_supply_and_demand_result_witness :
  returned (snd (prep_supply_and_demand exp_flat 5 line_world line_tight
                   line_stream)) = true /\
  List.length
    (vehicles (core (fst (prep_supply_and_demand exp_flat 5 line_world
                            line_tight line_stream)))) = nV line_tight.
Proof.
  assert (H : returned (snd (prep_supply_and_demand exp_flat 5 line_world
                               line_tight line_stream)) = true)
    by (vm_compute; reflexivity).
  split; [exact H |].
  destruct (prep_supply_and_demand_result exp_flat 5 line_world line_tight
              line_stream H) as (_ & _ & _ & Hv & _).
  exact Hv.
Defined.

Example prep_line_world :
  let w := fst (prep_supply_and_demand exp_flat 5 line_world line_tight
                  line_stream) in
  map (fun v => (veh_index v, veh_pos v)) (vehicles (core w))
  = [(1%Z, Some 1%Z); (2%Z, Some 1%Z)] /\
  requests_platform w = [Some 0%Z; Some 0%Z; Some 0%Z] /\
  platforms_table w
  = IsFrame {| tab_columns := ["fare"; "name"; "batch_time"];
               tab_index_name := Some "id";
               tab_rows := [(0%Z, [VInt 1; VStr "Platform"; VInt 1])] |}.
Proof. vm_compute. repeat split. Qed.

Lemma generate_demand_without_passengers_witness :
  nP (line_params 0 3 "uniform") = 0%nat /\
  returned (snd (generate_demand exp_flat 5 line_data
                   (line_params 0 3 "uniform") false line_stream)) = false.
Proof.
  split; [reflexivity |].
  exact (proj1 (generate_demand_without_passengers exp_flat 5 line_data
                  (line_params 0 3 "uniform") false line_stream eq_refl)).
Defined.

(** The exception of that call, and the passenger table it leaves. *)
Example line_without_passengers :
  generate_demand exp_flat 5 line_data (line_params 0 3 "uniform") false
    line_stream
  = (set_passengers line_data [],
     Raise (ValueError
       "Cannot set a DataFrame with multiple columns to the single column dist")).
Proof. vm_compute. reflexivity. Qed.

Lemma line_nodes_unique : NoDup (nodes line_data).
Proof. simpl. repeat constructor; simpl; intuition discriminate. Qed.

Lemma generate_vehicles_returns_iff_witness :
  NoDup (nodes line_data) /\
  (returned (generate_vehicles line_data 2 line_stream) = true <->
   (0 < 2)%nat /\ nodes line_data <> []).
Proof.
  split; [exact line_nodes_unique |].
  exact (proj1 (generate_vehicles_returns_iff line_data 2 line_stream
                  line_nodes_unique)).
Defined.

(** On a table with a repeated label the choice of that label ends in the
    [AttributeError] of a frame that has no name. *)
Example rand_node_repeated_label :
  rand_node [7; 7]%Z line_stream
  = Raise (AttributeError "'DataFrame' object has no attribute 'name'") /\
  result (rand_node [7; 8]%Z line_stream) = Some 7%Z.
Proof. split; vm_compute; reflexivity. Qed.

Lemma networkstats_radius_within_witness :
  NoDup (columns (skim line_data)) /\
  exists rad,
    networkstats nearest_euclidean line_data
    = Ok {| center :=
              nearest_euclidean (G line_data)
                (mean (map (fun n => snd (snd n)) (G line_data)),
                 mean (map (fun n => fst (snd n)) (G line_data)));
            radius := rad |}.
Proof.
  assert (Hnd : NoDup (columns (skim line_data))).
  { simpl. repeat constructor; simpl; intuition discriminate. }
  split; [exact Hnd |].
  destruct (proj2 (networkstats_radius_within nearest_euclidean line_data Hnd)
              ltac:(discriminate) ltac:(vm_compute; reflexivity))
    as (rad & H & _).
  exists rad. exact H.
Defined.

(** A graph without nodes has no centroid. *)
Example networkstats_no_node :
  networkstats nearest_euclidean
    {| G := []; nodes := []; skim := line_skim;
       stats := {| center := 0%Z; radius := None |};
       passengers := []; requests := []; vehicles := [] |}
  = Raise (KeyError "1").
Proof. reflexivity. Qed.

Lemma prep_supply_and_demand_returns_iff_witness :
  NoDup (nodes (core line_world)) /\
  (returned (snd (prep_supply_and_demand exp_flat 5 line_world line_tight
                    line_stream)) = true
   <->
   returned (snd (generate_demand exp_flat 5 (core line_world) line_tight true
                    line_stream)) = true /\
   (0 < nV line_tight)%nat /\ nodes (core line_world) <> [] /\
   List.length (tab_columns (initialize_df (platforms_table line_world)))
   = 3%nat).
Proof.
  split; [exact line_nodes_unique |].
  exact (proj1 (prep_supply_and_demand_returns_iff exp_flat 5 line_world
                  line_tight line_stream line_nodes_unique)).
Defined.

(** Where [math.exp] overflows on a weight, the call ends in its
    [OverflowError], before any request time is drawn. *)
Example exp_overflow :
  snd (generate_demand (fun _ => None) 5 line_data line_tight false line_stream)
  = Raise (OverflowError "math range error").
Proof. vm_compute. reflexivity. Qed.
